(** * SmartCampus admin front end: a shallow embedding of the list controller

    The repository duplicates one "resource list controller" over several
    scripts.  This development embeds the pieces of it that carry behaviour:

    - the shared admin utilities (endpoint construction, API client, modal
      helpers, windowed pagination),
    - the super-admin dashboard (its own API client, the colleges table, the
      college form, the detail and colleges-cards modals, the debounced
      searches),
    - the landing-page data manager (its API client and the results fetcher
      with its in-flight flag),
    - the registration page (form validation and submission),
    - the announcements page (the generic [debounce] helper and its search).

    Conventions.  JavaScript numbers that hold page numbers, HTTP status codes
    and millisecond clocks are integers ([Z], or [nat] for the clock).
    Strings are [string]; every character stands for one code unit.  Markup
    appended to an [html] accumulator is kept as a list of controls, one
    constructor per template literal of the source.  Handlers are state
    transformers on a record holding the module variables and the part of the
    document they touch. *)

From Stdlib Require Import ZArith List String Ascii Bool Lia.
From stdpp Require Import base tactics option list list_numbers gmap strings pretty.
From stdpp Require Import sorting.

Local Open Scope Z_scope.

(** * Part I: the embedding *)

(** ** Markup produced by the renderers *)

Inductive chevron := ChevronLeft | ChevronRight.

(** One constructor per fragment the renderers append to [html]:
    - [NavButton c disabled target]: the Previous/Next button, with its
      [disabled] attribute and the page its [onclick] asks for;
    - [PageButton active page]: a numbered button, [class="active"] on the
      current page;
    - [Ellipsis]: the [<span>...</span>] placeholder. *)
Inductive control :=
  | NavButton (c : chevron) (disabled : bool) (target : Z)
  | PageButton (active : bool) (page : Z)
  | Ellipsis.

Global Instance chevron_eq_dec : EqDecision chevron.
Proof. solve_decision. Defined.
Global Instance control_eq_dec : EqDecision control.
Proof. solve_decision. Defined.

(** Projections used to read a rendered sequence back. *)
Definition numbered (html : list control) : list Z :=
  html ≫= (fun c => match c with PageButton _ i => [i] | _ => [] end).

Definition ellipses (html : list control) : nat :=
  length (filter (fun c => c = Ellipsis) html).

Definition nav (ch : chevron) (html : list control) : list (bool * Z) :=
  html ≫= (fun c => match c with
                    | NavButton ch' d t => if decide (ch' = ch) then [(d, t)] else []
                    | _ => []
                    end).

(** [pages a b] is the run of a [for (let i = a; i <= b; i++)] loop. *)
Definition pages (a b : Z) : list Z := seqZ a (b - a + 1).

(** What [updateDetailPagination] and the results pager of the landing
    page draw: a Previous button, the text [Page c of n], a Next button;
    a button carries the page its [onclick] asks for. *)
Inductive pager_control :=
  | PreviousButton (target : Z)
  | PageInfo (current total : Z)
  | NextButton (target : Z).



(** ** Strings

    The string methods the scripts call, on [string].  [+:+] is
    concatenation. *)

Module Js.

(** A string is truthy when it is not empty. *)
Definition truthy (s : string) : bool := negb (String.eqb s "").

(** [s.startsWith(p)] *)
Definition startsWith (s p : string) : bool := String.prefix p s.

(** [s.endsWith(c)] for a one-character [c]. *)
Fixpoint endsWith (s : string) (c : ascii) : bool :=
  match s with
  | EmptyString => false
  | String a t =>
      match t with
      | EmptyString => Ascii.eqb a c
      | String _ _ => endsWith t c
      end
  end.

(** [s.slice(1)] *)
Definition slice1 (s : string) : string :=
  match s with
  | EmptyString => EmptyString
  | String _ t => t
  end.

(** [s.includes(sub)] *)
Fixpoint includes (s sub : string) : bool :=
  String.prefix sub s
  || match s with
     | EmptyString => false
     | String _ t => includes t sub
     end.

(** [s.split(sep)] for a one-character separator: every piece between two
    separators, in order; never the empty list. *)
Fixpoint split (sep : ascii) (s : string) : list string :=
  match s with
  | EmptyString => [EmptyString]
  | String c t =>
      if Ascii.eqb c sep then EmptyString :: split sep t
      else match split sep t with
           | [] => [String c EmptyString]
           | h :: r => String c h :: r
           end
  end.

(** [parts[i]], on an index the caller knows to be in range. *)
Definition part (parts : list string) (i : nat) : string :=
  nth i parts EmptyString.

(** White space of the [\s] class and of [trim], among the code units
    below 256. *)
Definition is_space (c : ascii) : bool :=
  let n := nat_of_ascii c in
  ((9 <=? n) && (n <=? 13))%nat || (n =? 32)%nat || (n =? 160)%nat.

Fixpoint trimStart (s : string) : string :=
  match s with
  | EmptyString => EmptyString
  | String c t => if is_space c then trimStart t else s
  end.

Fixpoint trimEnd (s : string) : string :=
  match s with
  | EmptyString => EmptyString
  | String c t =>
      match trimEnd t with
      | EmptyString => if is_space c then EmptyString else String c EmptyString
      | t' => String c t'
      end
  end.

(** [s.trim()] *)
Definition trim (s : string) : string := trimEnd (trimStart s).

(** The test [/^[^\s@]+@[^\s@]+\.[^\s@]+$/.test(email)]: one [@], no white
    space, something before the [@], and after it a dot that is neither
    its first nor its last character. *)
Definition plain (c : ascii) : bool :=
  negb (is_space c) && negb (Ascii.eqb c "@").

Fixpoint all_plain (s : string) : bool :=
  match s with
  | EmptyString => true
  | String c t => plain c && all_plain t
  end.

Fixpoint dot_before_end (s : string) : bool :=
  match s with
  | EmptyString => false
  | String c t =>
      match t with
      | EmptyString => false
      | String _ _ => Ascii.eqb c "." || dot_before_end t
      end
  end.

Definition isValidEmail (email : string) : bool :=
  match split "@" email with
  | [user; host] =>
      truthy user && all_plain user && all_plain host
      && dot_before_end (slice1 host)
  | _ => false
  end.

(** [s.substring(0, n)] and [s.substring(n)] *)
Definition substring_to (n : nat) (s : string) : string :=
  String.substring 0 n s.

Fixpoint substring_from (n : nat) (s : string) : string :=
  match n, s with
  | O, _ => s
  | S n', String _ t => substring_from n' t
  | S _, EmptyString => EmptyString
  end.

(** The classes [\d] and [\w] of a regular expression. *)
Definition is_digit (c : ascii) : bool :=
  let n := nat_of_ascii c in ((48 <=? n) && (n <=? 57))%nat.

Definition is_word (c : ascii) : bool :=
  let n := nat_of_ascii c in
  is_digit c || ((65 <=? n) && (n <=? 90))%nat
  || ((97 <=? n) && (n <=? 122))%nat || (n =? 95)%nat.

End Js.

(** ** Effects of a handler

    A handler run is recorded as the list of what it did to the outside, in
    order, together with how it ended. *)

Inductive exn :=
  | Error (message : string)
  | SyntaxError (message : string)
  | TypeError (message : string)
  | URIError (message : string).

Definition message (e : exn) : string :=
  match e with Error m | SyntaxError m | TypeError m | URIError m => m end.

Inductive toast_type := ToastSuccess | ToastError | ToastInfo | ToastWarning.

Inductive effect :=
  | Fetch (method url : string)             (* fetch(url, {method, ...}) *)
  | ReadJson                                (* response.json(), JSON.parse *)
  | Navigate (url : string)                 (* window.location.href = url *)
  | Toast (type : toast_type) (msg : string)(* showToast(type, msg) *)
  | ConsoleError (e : exn)                  (* console.error(..., e) *)
  | Reload (loader : string)                (* a call of a page loader *)
  | NavigateAfter (ms : nat) (url : string). (* a delayed navigation *)

Definition Eff (A : Type) : Type := list effect * (exn + A).

Definition ret {A} (a : A) : Eff A := ([], inr a).
Definition throw {A} (e : exn) : Eff A := ([], inl e).
Definition emit (f : effect) : Eff unit := ([f], inr tt).

Definition bind {A B} (m : Eff A) (k : A -> Eff B) : Eff B :=
  match m with
  | (fx, inl e) => (fx, inl e)
  | (fx, inr a) => let '(fx', r) := k a in (fx ++ fx', r)
  end.

(** [try { body } catch (error) { handler }] *)
Definition try_catch {A} (body : Eff A) (handler : exn -> Eff A) : Eff A :=
  match body with
  | (fx, inl e) => let '(fx', r) := handler e in (fx ++ fx', r)
  | (fx, inr a) => (fx, inr a)
  end.

Notation "x <- m ;; k" := (bind m (fun x => k))
  (at level 100, m at next level, right associativity).
Notation "m ;;; k" := (bind m (fun _ => k))
  (at level 100, right associativity).

Definition effects {A} (m : Eff A) : list effect := fst m.
Definition outcome {A} (m : Eff A) : exn + A := snd m.

(** What a run showed, where it sent the browser, what it asked of the
    server, which loaders it called. *)
Fixpoint toasts (fx : list effect) : list (toast_type * string) :=
  match fx with
  | [] => []
  | Toast t msg :: fx' => (t, msg) :: toasts fx'
  | _ :: fx' => toasts fx'
  end.

Fixpoint navigations (fx : list effect) : list string :=
  match fx with
  | [] => []
  | Navigate url :: fx' => url :: navigations fx'
  | _ :: fx' => navigations fx'
  end.

Fixpoint requests (fx : list effect) : list (string * string) :=
  match fx with
  | [] => []
  | Fetch method url :: fx' => (method, url) :: requests fx'
  | _ :: fx' => requests fx'
  end.

Fixpoint reloads (fx : list effect) : list string :=
  match fx with
  | [] => []
  | Reload loader :: fx' => loader :: reloads fx'
  | _ :: fx' => reloads fx'
  end.

(** ** HTTP responses *)

Record response := Response {
  status : Z;
  statusText : string;
  contentType : option string;     (* response.headers.get('content-type') *)
  text : string                    (* the body *)
}.

(** [response.ok] *)
Definition ok (r : response) : bool := (200 <=? status r) && (status r <=? 299).

(** What the network gives back to [fetch]: a rejection (transport error) or
    a response. *)
Inductive answer := Rejected (e : exn) | Responded (r : response).

Definition fetch (method url : string) (net : answer) : Eff response :=
  emit (Fetch method url) ;;;
  match net with
  | Rejected e => throw e
  | Responded r => ret r
  end.

(** [!contentType || !contentType.includes('application/json')], negated. *)
Definition is_json (r : response) : bool :=
  match contentType r with
  | None => false
  | Some ct => Js.truthy ct && Js.includes ct "application/json"
  end.

(** What an API client hands to its caller. *)
Inductive value (json : Type) :=
  | Null                         (* null *)
  | SuccessTrue                  (* { success: true } *)
  | Data (data : json).          (* the parsed body *)
Arguments Null {json}.
Arguments SuccessTrue {json}.
Arguments Data {json} _.

(** The [catch] block the three API clients share, word for word:
    [console.error('API Error:', error); showToast('error', error.message
    || 'An error occurred'); throw error].  Each script has a [showToast]
    of its own, which can show nothing or throw; the block is
    parameterized by it. *)
Definition api_catch {A} (showToast : toast_type -> string -> Eff unit)
    (error : exn) : Eff A :=
  emit (ConsoleError error) ;;;
  showToast ToastError
    (if Js.truthy (message error) then message error
     else "An error occurred") ;;;
  throw error.

(** What the scripts read to find the CSRF token: [window.csrftoken]
    (undefined, or a string), the text of [document.cookie], and the
    browser's [decodeURIComponent], which throws a [URIError] on a
    malformed escape. *)
Record browser := Browser {
  window_csrftoken : option string;
  document_cookie : string;
  decodeURIComponent : string -> exn + string;
  (* the message of the [TypeError] for a method call on [null] *)
  null_message : string
}.

Definition login_url : string := "/admin/login/".

(** ** Documents

    The part of a page the modal helpers and validators touch.  A validation
    message lives in an element of class [error-message] whose id is
    [error-<field>]; the maps below hold the elements that exist, by id. *)

Record err_node := ErrNode {
  textContent : string;
  display : string                 (* style.display *)
}.

Definition show_error (msg : string) (n : err_node) : err_node :=
  ErrNode msg "block".

(** [showFieldError(fieldId, message)]: nothing when the element is absent. *)
Definition showFieldError (fieldId msg : string)
    (errors : gmap string err_node) : gmap string err_node :=
  alter (show_error msg) ("error-" +:+ fieldId) errors.

(** A validator is a sequence of checks, one per [if] of the source: the
    field whose message element it writes, and the message when the check
    fails. *)
Definition rule (D : Type) : Type := string * (D -> option string).

Definition apply_rule {D} (data : D) (acc : bool * gmap string err_node)
    (r : rule D) : bool * gmap string err_node :=
  match snd r data with
  | Some msg => (false, showFieldError (fst r) msg (snd acc))
  | None => acc
  end.

(** [let isValid = true; if (...) { showFieldError(...); isValid = false }
    ...; return isValid] *)
Definition run_rules {D} (rules : list (rule D)) (data : D)
    (errs : gmap string err_node) : bool * gmap string err_node :=
  foldl (apply_rule data) (true, errs) rules.

Definition fails_when {D} (failed : D -> bool) (msg : string)
    : D -> option string :=
  fun data => if failed data then Some msg else None.

(** A form element: the current value of each control by name, the values
    [form.reset()] restores, the validation messages inside it, and the
    [data-*] attributes scripts read. *)
Record form_el := FormEl {
  values : gmap string string;
  defaults : gmap string string;
  form_errors : gmap string err_node;
  dataset : gmap string string
}.

(** [form.reset()] *)
Definition reset (f : form_el) : form_el :=
  FormEl (defaults f) (defaults f) (form_errors f) (dataset f).

(** A modal element: whether it carries class [active], and the first form
    inside it, if any. *)
Record modal_el := ModalEl {
  active : bool;
  modal_form : option form_el
}.

(** ** Shared admin utilities *)

Module Common.

Definition API_BASE_URL : string := "/api".

(** [getCollegeSlug()]: [window.COLLEGE_SLUG || ''] *)
Definition getCollegeSlug (COLLEGE_SLUG : option string) : string :=
  match COLLEGE_SLUG with
  | Some slug => slug
  | None => ""
  end.

Definition buildApiEndpoint (COLLEGE_SLUG : option string)
    (endpoint : string) : string :=
  let collegeSlug := getCollegeSlug COLLEGE_SLUG in
  let cleanEndpoint :=
    if Js.startsWith endpoint "/" then Js.slice1 endpoint else endpoint in
  let '(baseEndpoint, queryString) :=
    if Js.includes cleanEndpoint "?"
    then let parts := Js.split "?" cleanEndpoint in
         (Js.part parts 0, "?" +:+ Js.part parts 1)
    else (cleanEndpoint, "") in
  let baseEndpoint :=
    if negb (Js.endsWith baseEndpoint "/") then baseEndpoint +:+ "/"
    else baseEndpoint in
  let finalEndpoint := baseEndpoint +:+ queryString in
  if Js.truthy collegeSlug
  then "/api/" +:+ collegeSlug +:+ "/" +:+ finalEndpoint
  else API_BASE_URL +:+ "/" +:+ finalEndpoint.

(** The reading of the specification: the path segment of the result is
    the path asked for, without its leading slash and with a trailing
    slash if it had none. *)
Definition path_segment (path : string) : string :=
  let p := if Js.startsWith path "/" then Js.slice1 path else path in
  if Js.endsWith p "/" then p else p +:+ "/".

(** [getCookie(name)] on the text of [document.cookie]; the super-admin
    dashboard and the landing-page data manager carry the same function.
    [decodeURIComponent] is the browser's; it throws on a malformed
    escape. *)
Section Cookies.
Variable decodeURIComponent : string -> exn + string.

(** The [for] loop over the pieces of the cookie text: it stops at the
    first piece that, trimmed, starts with [name=]. *)
Fixpoint find_cookie (name : string) (cookies : list string)
    : exn + option string :=
  match cookies with
  | [] => inr None
  | piece :: rest =>
      let cookie := Js.trim piece in
      if String.eqb (Js.substring_to (String.length name + 1) cookie)
                    (name +:+ "=")
      then match decodeURIComponent
                   (Js.substring_from (String.length name + 1) cookie) with
           | inl e => inl e
           | inr v => inr (Some v)
           end
      else find_cookie name rest
  end.

Definition getCookie (document_cookie name : string) : exn + option string :=
  if Js.truthy document_cookie
  then find_cookie name (Js.split ";" document_cookie)
  else inr None.
End Cookies.

(** [window.csrftoken || getCookie('csrftoken')]: the cookie is read only
    when the page global is missing or empty. *)
Definition csrf_token (env : browser) : exn + option string :=
  match window_csrftoken env with
  | Some token =>
      if Js.truthy token then inr (Some token)
      else getCookie (decodeURIComponent env) (document_cookie env) "csrftoken"
  | None => getCookie (decodeURIComponent env) (document_cookie env) "csrftoken"
  end.

(** [showToast(type, message)] of the shared utilities: nothing when the
    page has no [#toast-container]. *)
Definition showToast (container : bool) (type : toast_type) (msg : string)
    : Eff unit :=
  if container then emit (Toast type msg) else ret tt.

Section ApiClient.
(** The server's JSON is opaque to the client: [JSON_parse] is what
    [response.json()] makes of a body (the exception it rejects with, or
    the value), [rejection] is the exception raised by
    [throw new Error(data.error || data.message || 'API request failed')]
    on a parsed body. *)
Context {json : Type}.
Variable JSON_parse : string -> exn + json.
Variable rejection : json -> exn.

Definition response_json (r : response) : Eff json :=
  emit ReadJson ;;;
  match JSON_parse (text r) with
  | inl e => throw e
  | inr data => ret data
  end.

(** [apiCall(endpoint, options)].  The CSRF token is read before the
    [try] statement: an exception of that read leaves the function with
    no request sent, nothing logged and no toast.  [container] says
    whether the page has [#toast-container]. *)
Definition apiCall (env : browser) (container : bool)
    (COLLEGE_SLUG : option string)
    (endpoint method : string) (net : answer) : Eff (value json) :=
  match csrf_token env with
  | inl e => throw e
  | inr _ =>
      try_catch
        (let apiEndpoint := buildApiEndpoint COLLEGE_SLUG endpoint in
         response <- fetch method apiEndpoint net ;;
         if negb (is_json response) then
           if negb (ok response)
           then throw (Error ("HTTP " +:+ pretty (status response) +:+ ": "
                              +:+ statusText response))
           else ret Null
         else
           data <- response_json response ;;
           if negb (ok response) then
             if (status response =? 401) || (status response =? 403)
             then emit (Navigate login_url) ;;; ret Null
             else throw (rejection data)
           else ret (Data data))
        (api_catch (showToast container))
  end.
End ApiClient.

(** [clearFormErrors(form)] *)
Definition clearFormErrors (f : form_el) : form_el :=
  FormEl (values f) (defaults f)
         ((fun _ => ErrNode "" "none") <$> form_errors f) (dataset f).

(** [openModal(modalId)] and [closeModal(modalId)] on the modals of the
    page, by id. *)
Definition openModal (modalId : string)
    (doc : gmap string modal_el) : gmap string modal_el :=
  alter (fun m => ModalEl true (modal_form m)) modalId doc.

Definition closeModal (modalId : string)
    (doc : gmap string modal_el) : gmap string modal_el :=
  alter (fun m => ModalEl false (clearFormErrors <$> (reset <$> modal_form m)))
        modalId doc.

(** Body of the page-number loop of [renderPagination]. *)
Definition page_controls (currentPage totalPages i : Z) : list control :=
  if (i =? 1) || (i =? totalPages)
     || ((currentPage - 2 <=? i) && (i <=? currentPage + 2))
  then [PageButton (i =? currentPage) i]
  else if (i =? currentPage - 3) || (i =? currentPage + 3)
       then [Ellipsis]
       else [].

(** The markup [renderPagination] builds in [html]. *)
Definition pagination_html (currentPage totalPages : Z) : list control :=
  [NavButton ChevronLeft (currentPage =? 1) (currentPage - 1)]
  ++ (pages 1 totalPages ≫= page_controls currentPage totalPages)
  ++ [NavButton ChevronRight (currentPage =? totalPages) (currentPage + 1)].

(** [renderPagination(containerId, currentPage, totalPages, onPageChange)].
    The document side is the content of the container element ([None] when
    the element is missing: the function returns at once) and the
    [window.goToPage] handler, which closes over [totalPages] and
    [onPageChange]. *)
Record pager (S : Type) := Pager {
  container : option (list control);
  goToPage : option (Z -> S -> S)
}.
Arguments Pager {S} _ _.
Arguments container {S} _.
Arguments goToPage {S} _.

Definition goToPage_handler {S : Type} (totalPages : Z)
    (onPageChange : Z -> S -> S) (page : Z) (st : S) : S :=
  if (1 <=? page) && (page <=? totalPages) then onPageChange page st else st.

Definition renderPagination {S : Type} (pg : pager S)
    (currentPage totalPages : Z) (onPageChange : Z -> S -> S) : pager S :=
  match container pg with
  | None => pg
  | Some _ =>
      Pager (Some (pagination_html currentPage totalPages))
            (Some (goToPage_handler totalPages onPageChange))
  end.

(** The reading of the specification: first page, one ellipsis if pages
    are skipped before the window, the window around the current page, one
    ellipsis if pages are skipped after it, last page. *)
Definition gap (a b : Z) : list control :=
  if a + 1 <? b then [Ellipsis] else [].

Definition window_lo (currentPage : Z) : Z := Z.max 2 (currentPage - 2).
Definition window_hi (currentPage totalPages : Z) : Z :=
  Z.min (totalPages - 1) (currentPage + 2).

Definition windowed (currentPage totalPages : Z) : list control :=
  [PageButton (1 =? currentPage) 1]
  ++ gap 1 (window_lo currentPage)
  ++ ((fun i => PageButton (i =? currentPage) i)
        <$> pages (window_lo currentPage) (window_hi currentPage totalPages))
  ++ gap (window_hi currentPage totalPages) totalPages
  ++ (if 1 <? totalPages
      then [PageButton (totalPages =? currentPage) totalPages] else []).


(** [formatNumber(num)], on the text [num.toString()] gives.  The regular
    expression [/\B(?=(\d{3})+(?!\d))/g] matches the empty string at every
    position that is not a word boundary and is followed by a run of
    digits whose length is a positive multiple of three; each match is
    replaced by a comma. *)
Fixpoint digit_run (s : string) : nat :=
  match s with
  | EmptyString => O
  | String c t => if Js.is_digit c then S (digit_run t) else O
  end.

Definition word_before (prev : option ascii) : bool :=
  match prev with
  | Some p => Js.is_word p
  | None => false
  end.

Fixpoint group_digits (prev : option ascii) (s : string) : string :=
  match s with
  | EmptyString => EmptyString
  | String c t =>
      let not_boundary := Bool.eqb (word_before prev) (Js.is_word c) in
      let ahead :=
        ((0 <? digit_run s) && (digit_run s mod 3 =? 0))%nat in
      (if not_boundary && ahead then "," else "")
      +:+ String c (group_digits (Some c) t)
  end.

Definition formatNumber (num_toString : string) : string :=
  group_digits None num_toString.
End Common.

(** ** Super-admin dashboard *)

Module SuperAdmin.

Definition API_BASE_URL : string := "/api/superadmin".

(** [showToast(type, message)] of the dashboard.  It appends to
    [#toast-container] without a test, so the dashboard is taken to have
    that element. *)
Definition showToast (type : toast_type) (msg : string) : Eff unit :=
  emit (Toast type msg).

Section ApiClient.
Context {json : Type}.
Variable JSON_parse : string -> exn + json.
Variable rejection : json -> exn.

(** [apiCall(endpoint, options)].  The CSRF token is read before the
    [try] statement: an exception of that read leaves the function with
    no request sent, nothing logged and no toast. *)
Definition apiCall (env : browser) (endpoint method : string) (net : answer)
    : Eff (value json) :=
  match Common.csrf_token env with
  | inl e => throw e
  | inr _ =>
      try_catch
        (let apiEndpoint :=
           if Js.startsWith endpoint "/" then endpoint else "/" +:+ endpoint in
         response <- fetch method (API_BASE_URL +:+ apiEndpoint) net ;;
         if negb (is_json response) then
           if negb (ok response)
           then throw (Error ("HTTP " +:+ pretty (status response) +:+ ": "
                              +:+ statusText response))
           else ret Null
         else
           data <- Common.response_json JSON_parse response ;;
           if negb (ok response) then
             if (status response =? 401) || (status response =? 403)
             then emit (Navigate login_url) ;;; ret Null
             else throw (rejection data)
           else ret (Data data))
        (api_catch showToast)
  end.
End ApiClient.

(** *** Colleges table pagination *)

(** [renderPagination(totalPages)]: one numbered button per page, the
    module variable [currentPage] marks the active one. *)
Definition pagination_html (currentPage totalPages : Z) : list control :=
  (fun i => PageButton (i =? currentPage) i) <$> pages 1 totalPages.

(** *** The college form and its modal *)

Record college_form := CollegeForm {
  name : string;              (* #college-name *)
  owner_name : string;        (* #owner-name *)
  owner_email : string;       (* #owner-email *)
  owner_phone : string;       (* #owner-phone *)
  location : string;          (* #location *)
  type : string;              (* #college-type *)
  address : string;           (* #address *)
  website : string;           (* #website *)
  college_status : string     (* #college-status *)
}.

Record submit_button := SubmitButton {
  disabled : bool;            (* #modal-submit *)
  text_display : string;      (* .btn-text style.display *)
  loader_hidden : bool        (* .btn-loader has class hidden *)
}.

Record college_page := CollegePage {
  modal_active : bool;               (* #college-modal has class active *)
  form : college_form;               (* the controls of #college-form *)
  form_defaults : college_form;      (* what form.reset() restores *)
  collegeId : option string;         (* form.dataset.collegeId *)
  errors : gmap string err_node;     (* the .error-message elements *)
  submit : submit_button
}.

Definition set_errors (e : gmap string err_node) (p : college_page) :=
  CollegePage (modal_active p) (form p) (form_defaults p) (collegeId p) e
              (submit p).
Definition set_submit (b : submit_button) (p : college_page) :=
  CollegePage (modal_active p) (form p) (form_defaults p) (collegeId p)
              (errors p) b.

(** [clearFormErrors()] *)
Definition clearFormErrors (p : college_page) : college_page :=
  set_errors ((fun n => ErrNode "" (display n)) <$> errors p) p.

(** [closeModal()] *)
Definition closeModal (p : college_page) : college_page :=
  clearFormErrors
    (CollegePage false (form_defaults p) (form_defaults p) (collegeId p)
                 (errors p) (submit p)).

(** [validateCollegeForm(data)]: the verdict and the messages shown. *)
Definition blank (v : string) : bool := negb (Js.truthy (Js.trim v)).

Definition college_rules : list (rule college_form) :=
  [ ("college-name",
     fails_when (fun d => blank (name d)) "College name is required");
    ("owner-name",
     fails_when (fun d => blank (owner_name d))
                "Owner/Principal name is required");
    ("owner-email",
     fails_when (fun d => blank (owner_email d)
                          || negb (Js.isValidEmail (owner_email d)))
                "Valid email is required");
    ("owner-phone",
     fails_when (fun d => blank (owner_phone d)) "Phone number is required");
    ("location",
     fails_when (fun d => blank (location d)) "Location is required");
    ("college-type",
     fails_when (fun d => negb (Js.truthy (type d)))
                "College type is required") ].

Definition validateCollegeForm (data : college_form)
    (errs : gmap string err_node) : bool * gmap string err_node :=
  run_rules college_rules data errs.

(** The inputs the form requires, by the field whose message they own. *)
Definition required_inputs : list (string * (college_form -> string)) :=
  [ ("college-name", name); ("owner-name", owner_name);
    ("owner-email", owner_email); ("owner-phone", owner_phone);
    ("location", location); ("college-type", type) ].

Section Handlers.
Context {json : Type}.
Variable JSON_parse : string -> exn + json.
Variable rejection : json -> exn.
(** Truthiness of a parsed body, for [if (response)]. *)
Variable json_truthy : json -> bool.
(** [encodeURIComponent] *)
Variable encodeURIComponent : string -> string.
(** How [URLSearchParams] writes a value in a query string. *)
Variable form_encode : string -> string.

Definition value_truthy (v : value json) : bool :=
  match v with
  | Null => false
  | SuccessTrue => true
  | Data d => json_truthy d
  end.

(** [handleCollegeSubmit(e)], run up to its end; [net] is what the
    network answers if the handler gets to call the API.  The body of
    the request is [JSON.stringify(formData)]; it is not recorded. *)
Definition handleCollegeSubmit (env : browser) (net : answer)
    (p : college_page) : college_page * list effect :=
  let p := clearFormErrors p in
  let formData := form p in
  let '(isValid, errs) := validateCollegeForm formData (errors p) in
  let p := set_errors errs p in
  if negb isValid then (p, [])
  else
    let p := set_submit (SubmitButton true "none" false) p in
    let call :=
      match collegeId p with
      | Some id =>
          if Js.truthy id
          then apiCall JSON_parse rejection env
                       ("/colleges/" +:+ id +:+ "/") "PUT" net
          else apiCall JSON_parse rejection env "/colleges/" "POST" net
      | None => apiCall JSON_parse rejection env "/colleges/" "POST" net
      end in
    let updating :=
      match collegeId p with Some id => Js.truthy id | None => false end in
    let '(p, fx) :=
      match call with
      | (fx, inr response) =>
          if value_truthy response
          then (closeModal p,
                fx ++ [Toast ToastSuccess
                         (if updating then "College updated successfully"
                          else "College created successfully");
                       Reload "loadColleges"; Reload "loadDashboardData"])
          else (p, fx)
      | (fx, inl error) => (p, fx ++ [ConsoleError error])
      end in
    (set_submit (SubmitButton false "inline" true) p, fx).

(** *** The detail modal of the analytics cards *)

Record detailModalData := DetailModalData {
  dm_type : option string;
  dm_currentPage : Z;
  dm_totalPages : Z;
  dm_searchTerm : string
}.

(** The page: whether [#detail-modal] exists and is active, and the
    module variable [detailModalData]. *)
Record detail_page := DetailPage {
  detail_modal : option bool;
  detail : detailModalData
}.

Definition detail_query (page : Z) (search : string) : string :=
  "?page=" +:+ pretty page +:+ "&page_size=50"
  +:+ (if Js.truthy search then "&search=" +:+ encodeURIComponent search
       else "").

(** [loadDetailData(cardType, page, search)], up to its request. *)
Definition loadDetailData (cardType : option string) (page : Z)
    (search : string) : list effect :=
  match cardType with
  | Some t =>
      if String.eqb t "students"
      then [Fetch "GET" (API_BASE_URL +:+ "/students/detail/"
                         +:+ detail_query page search)]
      else if String.eqb t "lecturers"
      then [Fetch "GET" (API_BASE_URL +:+ "/lecturers/detail/"
                         +:+ detail_query page search)]
      else if String.eqb t "colleges" || String.eqb t "departments"
      then [Fetch "GET" (API_BASE_URL +:+ "/colleges/detail/"
                         +:+ detail_query page search)]
      else []
  | None => []
  end.

(** [goToDetailPage(page)] *)
Definition goToDetailPage (page : Z) (d : detailModalData)
    : detailModalData * list effect :=
  if (page <? 1) || (dm_totalPages d <? page) then (d, [])
  else
    let d := DetailModalData (dm_type d) page (dm_totalPages d)
                             (dm_searchTerm d) in
    (d, loadDetailData (dm_type d) page (dm_searchTerm d)).

(** [closeDetailModal()] *)
Definition closeDetailModal (p : detail_page) : detail_page :=
  match detail_modal p with
  | None => p
  | Some _ =>
      DetailPage (Some false)
                 (DetailModalData None 1 (dm_totalPages (detail p)) "")
  end.

(** *** The colleges-cards modal *)

Record collegesCardsData := CollegesCardsData {
  cc_currentPage : Z;
  cc_totalPages : Z;
  cc_searchTerm : string
}.

(** [loadCollegesCards(page, search)], up to its request. *)
Definition loadCollegesCards (page : Z) (search : string) : list effect :=
  [Fetch "GET" (API_BASE_URL +:+ "/colleges/cards/?page="
                +:+ form_encode (pretty page) +:+ "&page_size=20"
                +:+ (if Js.truthy search
                     then "&search=" +:+ form_encode search else ""))].

(** [goToCollegesCardsPage(page)] *)
Definition goToCollegesCardsPage (page : Z) (d : collegesCardsData)
    : collegesCardsData * list effect :=
  if (page <? 1) || (cc_totalPages d <? page) then (d, [])
  else
    (CollegesCardsData page (cc_totalPages d) (cc_searchTerm d),
     loadCollegesCards page (cc_searchTerm d)).

End Handlers.


(** *** The pager of the detail modal *)

(** [updateDetailPagination()]; the argument is the content of
    [#detail-pagination], [None] when the element is missing. *)
Definition updateDetailPagination (pagination : option (list pager_control))
    (d : detailModalData) : option (list pager_control) :=
  match pagination with
  | None => None
  | Some _ =>
      if dm_totalPages d <=? 1 then Some []
      else
        Some ((if 1 <? dm_currentPage d
               then [PreviousButton (dm_currentPage d - 1)] else [])
              ++ [PageInfo (dm_currentPage d) (dm_totalPages d)]
              ++ (if dm_currentPage d <? dm_totalPages d
                  then [NextButton (dm_currentPage d + 1)] else []))
  end.

(** *** The deny modal *)

Record deny_modal := DenyModal {
  deny_active : bool;          (* #deny-modal has class active *)
  deny_reason : string         (* #deny-reason *)
}.

(** The click handlers of [#deny-modal-close] and [#deny-cancel]:
    [denyModal.classList.remove('active')]. *)
Definition closeDenyModal (m : deny_modal) : deny_modal :=
  DenyModal false (deny_reason m).

(** [handleDenySubmit(e)]: it reads the reason, shows a toast and takes
    [active] off the modal. *)
Definition handleDenySubmit (m : deny_modal) : deny_modal * Eff unit :=
  (DenyModal false (deny_reason m),
   showToast ToastInfo "Registration denied").

(** *** College actions *)

(** [showLoading()] and [hideLoading()]: whether [#loading-overlay]
    carries class [hidden].  The dashboard is taken to have the element;
    both functions use it without a test. *)
Definition showLoading (hidden : bool) : bool := false.

Definition hideLoading (hidden : bool) : bool := true.

Section Actions.
Context {json : Type}.
Variable JSON_parse : string -> exn + json.
Variable rejection : json -> exn.

(** The part the six action handlers share, after their guards:
    [showLoading(); try { await apiCall(endpoint, {method}); showToast(
    'success', message); loadColleges(); loadDashboardData(); } catch
    (error) { console.error(..., error); } finally { hideLoading(); }].
    The two loaders show the overlay again when called and are still
    waiting for their answers when the [finally] block runs. *)
Definition college_action (env : browser)
    (endpoint method message : string)
    (net : answer) (overlay : bool) : bool * list effect :=
  let overlay := showLoading overlay in
  let fx :=
    match apiCall JSON_parse rejection env endpoint method net with
    | (fx, inr _) =>
        fx ++ [Toast ToastSuccess message;
               Reload "loadColleges"; Reload "loadDashboardData"]
    | (fx, inl error) => fx ++ [ConsoleError error]
    end in
  (hideLoading overlay, fx).

(** [approveCollege(id)], [suspendCollege(id)], [deleteCollege(id)];
    [confirmed] is what [confirm(...)] answers. *)
Definition approveCollege (env : browser) (id : Z) (confirmed : bool)
    (net : answer) (overlay : bool) : bool * list effect :=
  if negb confirmed then (overlay, [])
  else college_action env ("/colleges/" +:+ pretty id +:+ "/approve/") "PUT"
                      "College approved successfully" net overlay.

Definition suspendCollege (env : browser) (id : Z) (confirmed : bool)
    (net : answer) (overlay : bool) : bool * list effect :=
  if negb confirmed then (overlay, [])
  else college_action env ("/colleges/" +:+ pretty id +:+ "/suspend/") "PUT"
                      "College suspended successfully" net overlay.

Definition deleteCollege (env : browser) (id : Z) (confirmed : bool)
    (net : answer) (overlay : bool) : bool * list effect :=
  if negb confirmed then (overlay, [])
  else college_action env ("/colleges/" +:+ pretty id +:+ "/") "DELETE"
                      "College deleted successfully" net overlay.

(** [handleBulkApprove()], [handleBulkSuspend()], [handleBulkDelete()];
    [selected] is what [getSelectedColleges()] returns. *)
Definition handleBulkApprove (env : browser) (selected : list Z)
    (confirmed : bool)
    (net : answer) (overlay : bool) : bool * list effect :=
  if (length selected =? 0)%nat then (overlay, [])
  else if negb confirmed then (overlay, [])
  else college_action env "/colleges/bulk-approve/" "PUT"
         (pretty (length selected) +:+ " college(s) approved") net overlay.

Definition handleBulkSuspend (env : browser) (selected : list Z)
    (confirmed : bool)
    (net : answer) (overlay : bool) : bool * list effect :=
  if (length selected =? 0)%nat then (overlay, [])
  else if negb confirmed then (overlay, [])
  else college_action env "/colleges/bulk-suspend/" "PUT"
         (pretty (length selected) +:+ " college(s) suspended") net overlay.

Definition handleBulkDelete (env : browser) (selected : list Z)
    (confirmed : bool)
    (net : answer) (overlay : bool) : bool * list effect :=
  if (length selected =? 0)%nat then (overlay, [])
  else if negb confirmed then (overlay, [])
  else college_action env "/colleges/bulk-delete/" "DELETE"
         (pretty (length selected) +:+ " college(s) deleted") net overlay.
End Actions.

(** *** Opening the college modal *)

(** A row of [collegesData], as [loadColleges] maps it from the server's
    answer. *)
Record college_row := CollegeRow {
  row_id : Z;
  row_name : string;
  row_principal_name : string;
  row_email : string;
  row_phone : string;
  row_county : string;
  row_type : string;
  row_address : string;
  row_registration_status : string
}.

(** [openCollegeModal(college)]: with a row the form is filled from it and
    [form.dataset.collegeId] is set; without one the form is reset and the
    attribute deleted.  A row has no [website], so that input is
    emptied. *)
Definition openCollegeModal (college : option college_row)
    (p : college_page) : college_page :=
  match college with
  | Some c =>
      CollegePage true
        (CollegeForm (row_name c) (row_principal_name c) (row_email c)
           (row_phone c) (row_county c) (row_type c) (row_address c) ""
           (if Js.truthy (row_registration_status c)
            then row_registration_status c else "pending"))
        (form_defaults p) (Some (pretty (row_id c))) (errors p) (submit p)
  | None =>
      CollegePage true (form_defaults p) (form_defaults p) None (errors p)
                  (submit p)
  end.

(** [editCollege(id)] *)
Definition editCollege (id : Z) (collegesData : list college_row)
    (p : college_page) : college_page :=
  match List.find (fun c => row_id c =? id) collegesData with
  | None => p
  | Some college => openCollegeModal (Some college) p
  end.

(** The user fills in the inputs of the college form. *)
Definition fill_in (data : college_form) (p : college_page) : college_page :=
  CollegePage (modal_active p) data (form_defaults p) (collegeId p) (errors p)
              (submit p).

(** *** Loading the colleges table *)

(** The colleges page: the module variable [collegesData], the rows
    [#colleges-tbody] shows (no row stands for the line "No colleges
    found"), the buttons of [#colleges-pagination] ([None] for an element
    the page lacks), and whether the loading overlay is hidden. *)
Record colleges_view := CollegesView {
  collegesData : list college_row;
  colleges_tbody : option (list college_row);
  colleges_pagination : option (list control);
  loading_overlay : bool
}.

(** [renderCollegesTable(colleges)] and [renderPagination(totalPages)] *)
Definition renderCollegesTable (colleges : list college_row)
    (tbody : option (list college_row)) : option (list college_row) :=
  match tbody with None => None | Some _ => Some colleges end.

Definition renderPagination (currentPage totalPages : Z)
    (pagination : option (list control)) : option (list control) :=
  match pagination with
  | None => None
  | Some _ => Some (pagination_html currentPage totalPages)
  end.

Section LoadColleges.
Context {json : Type}.
Variable JSON_parse : string -> exn + json.
Variable rejection : json -> exn.
(** What [loadColleges] reads off a parsed body when [data.results] is
    truthy: the rows as it maps them, and [data.total_pages || 1]. *)
Variable colleges_of : json -> option (list college_row * Z).

(** [loadColleges()], run to its end; [query] is the text of the
    [URLSearchParams] it builds. *)
Definition loadColleges (env : browser) (currentPage : Z) (query : string)
    (net : answer) (v : colleges_view) : colleges_view * list effect :=
  let overlay := showLoading (loading_overlay v) in
  let '(v, fx) :=
    match apiCall JSON_parse rejection env ("/colleges/?" +:+ query) "GET"
                  net with
    | (fx, inr data) =>
        match match data with Data d => colleges_of d | _ => None end with
        | Some (rows, total_pages) =>
            (CollegesView rows (renderCollegesTable rows (colleges_tbody v))
               (renderPagination currentPage total_pages
                  (colleges_pagination v))
               overlay, fx)
        | None =>
            (CollegesView [] (renderCollegesTable [] (colleges_tbody v))
               (renderPagination currentPage 1 (colleges_pagination v))
               overlay, fx)
        end
    | (fx, inl error) =>
        (CollegesView [] (renderCollegesTable [] (colleges_tbody v))
           (colleges_pagination v) overlay,
         fx ++ [ConsoleError error;
                Toast ToastError "Failed to load colleges"])
    end in
  (CollegesView (collegesData v) (colleges_tbody v) (colleges_pagination v)
     (hideLoading (loading_overlay v)), fx).
End LoadColleges.
End SuperAdmin.

(** ** Timers and the event loop

    [setTimeout] and [clearTimeout] on a table of pending timers with a
    millisecond clock.  Callbacks are named by a constructor of [C]; the
    page [W] says what each one does. *)

Module Timers.

Section Table.
Context {C : Type}.

Record timer := Timer { tid : nat; due : nat; callback : C }.

Record clock := Clock {
  now : nat;
  next_id : nat;
  pending : list timer
}.

(** [setTimeout(cb, delay)]: the id handed back and the new table. *)
Definition setTimeout (cb : C) (delay : nat) (k : clock) : nat * clock :=
  (next_id k,
   Clock (now k) (S (next_id k))
         (pending k ++ [Timer (next_id k) (now k + delay)%nat cb])).

(** [clearTimeout(id)]; [None] is [undefined]. *)
Definition clearTimeout (id : option nat) (k : clock) : clock :=
  match id with
  | None => k
  | Some i =>
      Clock (now k) (next_id k)
            (filter (fun t => tid t <> i) (pending k))
  end.

(** The timer that fires first among those due by [t]: the smallest
    due time, the oldest among equals. *)
Fixpoint first_due (t : nat) (l : list timer) : option timer :=
  match l with
  | [] => None
  | x :: l' =>
      match first_due t l' with
      | Some y =>
          if (due x <=? t)%nat && (due x <=? due y)%nat then Some x
          else Some y
      | None => if (due x <=? t)%nat then Some x else None
      end
  end.

Definition latest_due (l : list timer) : nat :=
  foldr (fun x m => Nat.max (due x) m) 0%nat l.
End Table.
Arguments timer : clear implicits.
Arguments clock : clear implicits.

Section Loop.
Context {C W : Type}.
Variable clock_of : W -> clock C.
Variable with_clock : clock C -> W -> W.
Variable run : C -> W -> W.

(** Let the time pass until [t]: the timers due by then fire in order,
    each at its due time, then the clock shows [t].  One unit of fuel
    per firing. *)
Fixpoint elapse (fuel : nat) (t : nat) (w : W) : W :=
  let k := clock_of w in
  match fuel with
  | O => w
  | S fuel' =>
      match first_due t (pending k) with
      | Some x =>
          let k' := Clock (Nat.max (now k) (due x)) (next_id k)
                          (filter (fun y => tid y <> tid x) (pending k)) in
          elapse fuel' t (run (callback x) (with_clock k' w))
      | None =>
          with_clock (Clock (Nat.max (now k) t) (next_id k) (pending k)) w
      end
  end.

(** Enough fuel for callbacks that register no timer due by [t]. *)
Definition wait_until (t : nat) (w : W) : W :=
  elapse (S (length (pending (clock_of w)))) t w.

(** Let every pending timer fire. *)
Definition drain (w : W) : W :=
  wait_until (latest_due (pending (clock_of w))) w.

(** A user typing: at time [t] the search box holds [v] and its [input]
    listener runs. *)
Variable on_input : string -> W -> W.

Definition input_event (w : W) (ev : nat * string) : W :=
  on_input (snd ev) (wait_until (fst ev) w).

Definition typing (evs : list (nat * string)) (w : W) : W :=
  foldl input_event w evs.

Definition session (evs : list (nat * string)) (w : W) : W :=
  drain (typing evs w).
End Loop.


End Timers.

(** ** Landing-page data manager *)

Module Landing.

(** [showToast(type, message)] of the landing-page data manager.  On a
    page without [#toast-container] it makes one and adds it to the
    body, and then appends the toast to the [null] it had read before:
    the first call throws a [TypeError] and shows nothing, and the
    container is there for the calls after it. *)
Definition showToast (env : browser) (container : bool)
    (type : toast_type) (msg : string) : Eff unit :=
  if container then emit (Toast type msg)
  else throw (TypeError (null_message env)).

(** [buildApiEndpoint(endpoint)]: throws without a college slug. *)
Definition buildApiEndpoint (COLLEGE_SLUG : option string)
    (endpoint : string) : exn + string :=
  let collegeSlug := Common.getCollegeSlug COLLEGE_SLUG in
  if negb (Js.truthy collegeSlug) then inl (Error "College slug not found")
  else inr ("/api/" +:+ collegeSlug +:+ "/" +:+ endpoint).

(** What the results table body shows. *)
Inductive tbody_view (json : Type) :=
  | LoadingRow
  | EmptyState
  | Rows (rows : list json)
  | ErrorRow (message : string).
Arguments LoadingRow {json}.
Arguments EmptyState {json}.
Arguments Rows {json} _.
Arguments ErrorRow {json} _.

Record filters := Filters {
  unit_filter : string;
  academic_year : string;
  semester : string;
  show_submitted : option string      (* undefined, or the value written *)
}.

Section Page.
Context {json : Type}.
Variable JSON_parse : string -> exn + json.
Variable rejection : json -> exn.
(** [params.toString()] of a [URLSearchParams] with these entries. *)
Variable query_string : list (string * string) -> string.
(** A list envelope read off a parsed body: [Some (rows, page, pages)]
    when [data && data.results !== undefined], with [data.results || []],
    [data.page || 1] and [data.total_pages || 1]. *)
Variable envelope : json -> option (list json * Z * Z).

(** The [try] block of [apiCall] after [fetch] has settled. *)
Definition apiCall_receive (net : answer) : Eff (value json) :=
  response <- match net with
              | Rejected e => throw e
              | Responded r => ret r
              end ;;
  if status response =? 204 then ret SuccessTrue
  else if (status response =? 401) || (status response =? 403)
  then emit (Navigate login_url) ;;; ret Null
  else if negb (is_json response) then
    if negb (ok response)
    then throw (Error ("HTTP " +:+ pretty (status response) +:+ ": "
                       +:+ statusText response))
    else ret Null
  else if Js.truthy (text response) then
    emit ReadJson ;;;
    match JSON_parse (text response) with
    | inl parseError =>
        if ok response then ret SuccessTrue
        else throw (Error ("Invalid JSON response: "
                           +:+ statusText response))
    | inr data =>
        if negb (ok response) then throw (rejection data)
        else ret (Data data)
    end
  else if ok response then ret SuccessTrue
  else throw (Error ("Empty response: " +:+ statusText response)).

(** [apiCall(endpoint, options)].  [getCSRFToken()] is called while the
    default options are built, before the [try] statement: an exception
    of it leaves the function with no request sent, nothing logged and
    no toast.  The endpoint is built inside the [try]. *)
Definition apiCall (env : browser) (container : bool)
    (COLLEGE_SLUG : option string)
    (endpoint method : string) (net : answer) : Eff (value json) :=
  match Common.csrf_token env with
  | inl e => throw e
  | inr _ =>
      try_catch
        (match buildApiEndpoint COLLEGE_SLUG endpoint with
         | inl e => throw e
         | inr url => emit (Fetch method url) ;;; apiCall_receive net
         end)
        (api_catch (showToast env container))
  end.

(** *** Results *)

Record resource_state := ResourceState {
  data : list json;
  currentPage : Z;
  totalPages : Z;
  loading : bool
}.

Record landing := LandingPage {
  COLLEGE_SLUG : option string;          (* window.COLLEGE_SLUG *)
  results_tab : option bool;             (* #results-tab-content active *)
  results_tbody : option (tbody_view json);  (* #results-tbody *)
  isFetchingResults : bool;
  results : resource_state;              (* state.results *)
  in_flight : list string;               (* requests not yet answered *)
  log : list effect;
  toast_container : bool                 (* the page has #toast-container *)
}.

Definition results_query (page : Z) (search : string) (f : filters)
    : string :=
  query_string
    ([("page", pretty page); ("page_size", "10")]
     ++ (if Js.truthy search then [("search", search)] else [])
     ++ (if Js.truthy (unit_filter f) then [("unit", unit_filter f)] else [])
     ++ (if Js.truthy (academic_year f)
         then [("academic_year", academic_year f)] else [])
     ++ (if Js.truthy (semester f) then [("semester", semester f)] else [])
     ++ (match show_submitted f with
         | Some v => [("show_submitted", v)]
         | None => []
         end)).

(** [renderResultsTable()] *)
Definition renderResultsTable (rows : list json)
    (tbody : option (tbody_view json)) : option (tbody_view json) :=
  match tbody with
  | None => None
  | Some _ => Some (match rows with [] => EmptyState | _ => Rows rows end)
  end.

(** The [catch] block of [fetchResults]. *)
Definition fetchResults_failed (error : exn) (st : landing) : landing :=
  LandingPage (COLLEGE_SLUG st) (results_tab st)
    (match results_tbody st with
     | None => None
     | Some _ => Some (ErrorRow (if Js.truthy (message error)
                                 then message error else "Unknown error"))
     end)
    false
    (ResourceState [] 1 1 false)
    (in_flight st)
    (log st ++ [ConsoleError error])
    (toast_container st).

(** The [try] block of [fetchResults] after [apiCall] has returned. *)
Definition fetchResults_done (v : value json) (st : landing) : landing :=
  let shown :=
    match v with
    | Data d => envelope d
    | _ => None
    end in
  match shown with
  | Some (rows, page, pages) =>
      LandingPage (COLLEGE_SLUG st) (results_tab st)
        (renderResultsTable rows (results_tbody st))
        false (ResourceState rows page pages false)
        (in_flight st) (log st) (toast_container st)
  | None =>
      LandingPage (COLLEGE_SLUG st) (results_tab st)
        (renderResultsTable [] (results_tbody st))
        false (ResourceState [] 1 1 false)
        (in_flight st) (log st) (toast_container st)
  end.

(** The rest of [fetchResults] once [apiCall] has settled; [call] holds
    the effects and the outcome of the client.  The [catch] block of
    [apiCall] has run exactly when [caught] is set, and its [showToast]
    leaves the page with a toast container. *)
Definition fetchResults_settle (caught : bool)
    (call : Eff (value json)) (st : landing) : landing :=
  let st := LandingPage (COLLEGE_SLUG st) (results_tab st)
              (results_tbody st) (isFetchingResults st) (results st)
              (in_flight st) (log st ++ effects call)
              (toast_container st || caught) in
  match outcome call with
  | inr v => fetchResults_done v st
  | inl error => fetchResults_failed error st
  end.

(** [fetchResults(page, search, filters)] up to its [await]: either it
    returns at once, or it fails before any request leaves (the token
    read throws, or there is no college slug; the [catch] blocks then
    run before any other handler), or one request is in flight. *)
Definition fetchResults (env : browser) (page : Z) (search : string)
    (f : filters) (st : landing) : landing :=
  match results_tab st with
  | Some true =>
      if isFetchingResults st then st
      else
        let tbody := match results_tbody st with
                     | None => None
                     | Some _ => Some LoadingRow
                     end in
        let busy := ResourceState (data (results st))
                      (currentPage (results st)) (totalPages (results st))
                      true in
        let endpoint := "results/?" +:+ results_query page search f in
        let started :=
          LandingPage (COLLEGE_SLUG st) (results_tab st) tbody true
            busy (in_flight st) (log st) (toast_container st) in
        match Common.csrf_token env with
        | inl e => fetchResults_settle false (throw e) started
        | inr _ =>
            match buildApiEndpoint (COLLEGE_SLUG st) endpoint with
            | inl e =>
                fetchResults_settle true
                  (api_catch (showToast env (toast_container st)) e)
                  started
            | inr url =>
                LandingPage (COLLEGE_SLUG st) (results_tab st) tbody true
                  busy (in_flight st ++ [url]) (log st ++ [Fetch "GET" url])
                  (toast_container st)
            end
        end
  | _ => st
  end.

(** The oldest request in flight is answered and [fetchResults] runs to
    its end. *)
Definition fetchResults_resume (env : browser) (net : answer)
    (st : landing) : landing :=
  match in_flight st with
  | [] => st
  | _ :: rest =>
      let received := apiCall_receive net in
      fetchResults_settle
        (match outcome received with inl _ => true | inr _ => false end)
        (try_catch received (api_catch (showToast env (toast_container st))))
        (LandingPage (COLLEGE_SLUG st) (results_tab st)
           (results_tbody st) (isFetchingResults st) (results st)
           rest (log st) (toast_container st))
  end.

(** The user shows or hides the results tab. *)
Definition switch_results_tab (shown : bool) (st : landing) : landing :=
  LandingPage (COLLEGE_SLUG st)
    (match results_tab st with None => None | Some _ => Some shown end)
    (results_tbody st) (isFetchingResults st) (results st)
    (in_flight st) (log st) (toast_container st).

(** What can happen on the page, one event at a time; the token and the
    cookies are read as they are at the event. *)
Inductive step : landing -> landing -> Prop :=
  | step_fetch env page search f st :
      step st (fetchResults env page search f st)
  | step_answer env net st :
      in_flight st <> [] -> step st (fetchResults_resume env net st)
  | step_tab shown st :
      step st (switch_results_tab shown st).

Definition initial (slug : option string) (tab : option bool)
    (tbody : option (tbody_view json)) (container : bool) : landing :=
  LandingPage slug tab tbody false (ResourceState [] 1 1 false) [] []
              container.

Inductive reachable : landing -> Prop :=
  | reach_initial slug tab tbody container :
      reachable (initial slug tab tbody container)
  | reach_step st st' : reachable st -> step st st' -> reachable st'.

(** The flag and the network agree: nothing in flight and the flag
    down, or one request in flight and the flag up. *)
Definition flag_guards_request (st : landing) : Prop :=
  (isFetchingResults st = false /\ in_flight st = [])
  \/ (isFetchingResults st = true /\ exists url, in_flight st = [url]).

End Page.

(** [closeModal(modalId)] *)
Definition closeModal (modalId : string)
    (doc : gmap string modal_el) : gmap string modal_el :=
  alter (fun m =>
           ModalEl false
             ((fun f => FormEl (defaults f) (defaults f) (form_errors f)
                               (<["editId" := ""]> (dataset f)))
                <$> modal_form m))
        modalId doc.

(** *** The timetable form *)






(** [renderResultsPagination()]; the argument is the content of
    [#results-pagination], [None] when the element is missing.  A button
    calls [loadResultsPage], which is [fetchResults] on that page. *)
Definition renderResultsPagination
    (container : option (list pager_control))
    (currentPage totalPages : Z) : option (list pager_control) :=
  match container with
  | None => None
  | Some _ =>
      if totalPages <=? 1 then Some []
      else
        Some ((if 1 <? currentPage
               then [PreviousButton (currentPage - 1)] else [])
              ++ [PageInfo currentPage totalPages]
              ++ (if currentPage <? totalPages
                  then [NextButton (currentPage + 1)] else []))
  end.
End Landing.

(** ** Super-admin dashboard: the colleges search box *)

Module CollegeSearch.

Inductive callback := SearchFire.

Record world := World {
  clock : Timers.clock callback;
  searchTimeout : option nat;
  currentPage : Z;
  college_search : string;         (* #college-search value *)
  status_filter : string;          (* #status-filter value *)
  type_filter : string;            (* #type-filter value *)
  fetches : list (nat * string)    (* when, and the URL fetched *)
}.

Definition with_clock (k : Timers.clock callback) (w : world) : world :=
  World k (searchTimeout w) (currentPage w) (college_search w)
        (status_filter w) (type_filter w) (fetches w).

Section Page.
Variable query_string : list (string * string) -> string.

Definition colleges_url (page : Z) (status type search : string) : string :=
  SuperAdmin.API_BASE_URL +:+ "/colleges/?"
  +:+ query_string [("page", pretty page); ("status", status);
                    ("type", type); ("search", search)].

(** [loadColleges()], up to its request. *)
Definition loadColleges (w : world) : world :=
  World (clock w) (searchTimeout w) (currentPage w) (college_search w)
        (status_filter w) (type_filter w)
        (fetches w ++ [(Timers.now (clock w),
                        colleges_url (currentPage w) (status_filter w)
                                     (type_filter w) (college_search w))]).

(** The timer callback [() => { currentPage = 1; loadColleges(); }] *)
Definition run (c : callback) (w : world) : world :=
  match c with
  | SearchFire =>
      loadColleges
        (World (clock w) (searchTimeout w) 1 (college_search w)
               (status_filter w) (type_filter w) (fetches w))
  end.

Definition search_delay : nat := 500.

(** The [input] listener of the search box; [v] is what the box holds. *)
Definition on_input (v : string) (w : world) : world :=
  let k := Timers.clearTimeout (searchTimeout w) (clock w) in
  let '(id, k) := Timers.setTimeout SearchFire search_delay k in
  World k (Some id) (currentPage w) v (status_filter w) (type_filter w)
        (fetches w).

Definition session (evs : list (nat * string)) (w : world) : world :=
  Timers.session clock with_clock run on_input evs w.

Definition typing (evs : list (nat * string)) (w : world) : world :=
  Timers.typing clock with_clock run on_input evs w.
End Page.

(** The page once [setupForms] has run at time [t0]. *)
Definition loaded (t0 : nat) (page : Z) (search status type : string) : world :=
  World (Timers.Clock t0 1 []) None page search status type [].

(** The page between two keystrokes: one timer pending, due [search_delay]
    after the last keystroke at [t], the box holding [v]. *)
Definition armed (id nid t : nat) (page : Z) (v status type : string)
    (log : list (nat * string)) : world :=
  World (Timers.Clock t nid [Timers.Timer id (t + search_delay) SearchFire])
        (Some id) page v status type log.

End CollegeSearch.

(** ** Announcements page *)

Module Announcements.

Inductive callback := Later.

Record world := World {
  clock : Timers.clock callback;
  timeout : option nat;              (* the variable [debounce] closes over *)
  currentPage : Z;
  search_input : string;             (* #search-input value *)
  target_type_filter : string;
  priority_filter : string;
  status_filter : string;
  COLLEGE_SLUG : option string;
  fetches : list (nat * string)      (* when, and the URL fetched *)
}.

Definition with_clock (k : Timers.clock callback) (w : world) : world :=
  World k (timeout w) (currentPage w) (search_input w) (target_type_filter w)
        (priority_filter w) (status_filter w) (COLLEGE_SLUG w) (fetches w).

Definition itemsPerPage : Z := 10.

Section Page.
Variable query_string : list (string * string) -> string.

Definition announcements_url (w : world) : string :=
  Common.buildApiEndpoint (COLLEGE_SLUG w)
    ("announcements/?" +:+
     query_string
       ([("page", pretty (currentPage w));
         ("page_size", pretty itemsPerPage)]
        ++ (if Js.truthy (search_input w)
            then [("search", search_input w)] else [])
        ++ (if Js.truthy (target_type_filter w)
            then [("target_type", target_type_filter w)] else [])
        ++ (if Js.truthy (priority_filter w)
            then [("priority", priority_filter w)] else [])
        ++ (if Js.truthy (status_filter w)
            then [("is_active", status_filter w)] else []))).

(** [loadAnnouncements()], up to its request. *)
Definition loadAnnouncements (w : world) : world :=
  World (clock w) (timeout w) (currentPage w) (search_input w)
        (target_type_filter w) (priority_filter w) (status_filter w)
        (COLLEGE_SLUG w)
        (fetches w ++ [(Timers.now (clock w), announcements_url w)]).

(** The [onPageChange] callback handed to [renderPagination]:
    [(page) => { currentPage = page; loadAnnouncements(); }] *)
Definition onPageChange (page : Z) (w : world) : world :=
  loadAnnouncements
    (World (clock w) (timeout w) page (search_input w)
           (target_type_filter w) (priority_filter w) (status_filter w)
           (COLLEGE_SLUG w) (fetches w)).

(** [window.goToPage] as the last [renderPagination] of the page left
    it, for a response with [total_pages = totalPages]. *)
Definition goToPage (totalPages : Z) (page : Z) (w : world) : world :=
  Common.goToPage_handler totalPages onPageChange page w.

(** [debounce(func, wait)]: [later] is the timer callback,
    [executedFunction] the function handed back. *)
Section Debounce.
Variable func : world -> world.
Variable wait : nat.

Definition later (w : world) : world :=
  func (with_clock (Timers.clearTimeout (timeout w) (clock w)) w).

Definition executedFunction (w : world) : world :=
  let k := Timers.clearTimeout (timeout w) (clock w) in
  let '(id, k) := Timers.setTimeout Later wait k in
  World k (Some id) (currentPage w) (search_input w)
        (target_type_filter w) (priority_filter w) (status_filter w)
        (COLLEGE_SLUG w) (fetches w).
End Debounce.

Definition run (c : callback) (w : world) : world :=
  match c with Later => later loadAnnouncements w end.

(** The search box listener registered by [setupEventListeners]:
    [debounce(loadAnnouncements, 300)]. *)
Definition search_delay : nat := 300.

Definition on_input_after (wait : nat) (v : string) (w : world) : world :=
  executedFunction wait
    (World (clock w) (timeout w) (currentPage w) v (target_type_filter w)
           (priority_filter w) (status_filter w) (COLLEGE_SLUG w)
           (fetches w)).

Definition on_input : string -> world -> world :=
  on_input_after search_delay.

Definition session (evs : list (nat * string)) (w : world) : world :=
  Timers.session clock with_clock run on_input evs w.

Definition typing (evs : list (nat * string)) (w : world) : world :=
  Timers.typing clock with_clock run on_input evs w.
End Page.

Definition loaded (t0 : nat) (page : Z) (search target priority status : string)
    (slug : option string) : world :=
  World (Timers.Clock t0 1 []) None page search target priority status slug [].

(** The page between two keystrokes, for a listener debounced by [wait]. *)
Definition armed (wait id nid t : nat) (page : Z)
    (v target priority status : string) (slug : option string)
    (log : list (nat * string)) : world :=
  World (Timers.Clock t nid [Timers.Timer id (t + wait) Later])
        (Some id) page v target priority status slug log.

(** [clearFieldErrors()] and [closeModal()]: the announcement form, its
    [.field-error] elements and the module variable
    [editingAnnouncementId]. *)
Record form_modal := FormModal {
  modal : modal_el;                         (* #announcement-modal *)
  the_form : form_el;                       (* #announcement-form *)
  editingAnnouncementId : option Z
}.

Definition clearFieldErrors (f : form_el) : form_el :=
  FormEl (values f) (defaults f)
         ((fun _ => ErrNode "" "none") <$> form_errors f) (dataset f).

Definition closeModal (m : form_modal) : form_modal :=
  FormModal (ModalEl false (modal_form (modal m)))
            (clearFieldErrors (reset (the_form m)))
            None.


(** *** Loading the announcements table *)

(** The announcements page: the module variable [announcementsData], what
    [#announcements-tbody] shows, the buttons of [#pagination] ([None]
    when the page lacks the element) and the text of
    [#announcements-count].  The page is taken to have the table body
    and the count, which the loader writes without a test. *)
Record listing (json : Type) := Listing {
  announcementsData : list json;
  announcements_tbody : Landing.tbody_view json;
  pagination : option (list control);
  announcements_count : string
}.
Arguments Listing {json} _ _ _ _.
Arguments announcementsData {json} _.
Arguments announcements_tbody {json} _.
Arguments pagination {json} _.
Arguments announcements_count {json} _.

Section Loading.
Context {json : Type}.
Variable JSON_parse : string -> exn + json.
Variable rejection : json -> exn.
(** What [loadAnnouncements] reads off a parsed body when [data.results]
    is truthy: [data.results], [data.page], [data.total_pages] and the
    text it makes of [data.count]. *)
Variable announcements_of : json -> option (list json * Z * Z * string).

(** [renderAnnouncementsTable(announcements)] *)
Definition renderAnnouncementsTable (announcements : list json)
    : Landing.tbody_view json :=
  match announcements with
  | [] => Landing.EmptyState
  | _ => Landing.Rows announcements
  end.

Definition render_pagination (page total_pages : Z)
    (container : option (list control)) : option (list control) :=
  match container with
  | None => None
  | Some _ => Some (Common.pagination_html page total_pages)
  end.

(** [loadAnnouncements()], run to its end; [query] is the text of the
    [URLSearchParams] it builds.  It starts with the [showLoading] of
    this script, which puts the loading row in the table body; its
    toasts go through the shared [showToast], which shows nothing on a
    page without [#toast-container]. *)
Definition loadAnnouncements_run (env : browser) (container : bool)
    (slug : option string) (query : string)
    (net : answer) (v : listing json) : listing json * list effect :=
  let v := Listing (announcementsData v) Landing.LoadingRow (pagination v)
                   (announcements_count v) in
  match Common.apiCall JSON_parse rejection env container slug
          ("announcements/?" +:+ query) "GET" net with
  | (fx, inr data) =>
      match match data with Data d => announcements_of d | _ => None end with
      | Some (results, page, total_pages, count) =>
          (Listing results (renderAnnouncementsTable results)
             (render_pagination page total_pages (pagination v)) count, fx)
      | None =>
          (Listing [] (renderAnnouncementsTable [])
             (render_pagination 1 1 (pagination v)) "0 announcements", fx)
      end
  | (fx, inl error) =>
      (Listing (announcementsData v) (renderAnnouncementsTable [])
         (pagination v) (announcements_count v),
       fx ++ [ConsoleError error]
          ++ effects (Common.showToast container ToastError
                        "Failed to load announcements"))
  end.
End Loading.

(** *** The announcement form *)

(** What [handleFormSubmit] and [validateForm] read off the inputs of the
    form, which the page is taken to have: the text inputs and selects by
    value, the two multi-selects by their selected options. *)
Record announcement_inputs := AnnouncementInputs {
  title : string;                   (* #announcement-title *)
  content : string;                 (* #announcement-content *)
  target_type : string;             (* #announcement-target-type *)
  priority : string;                (* #announcement-priority *)
  expires_at : string;              (* #announcement-expires-at *)
  targeted_students : list Z;       (* #announcement-targeted-students *)
  targeted_users : list Z           (* #announcement-targeted-users *)
}.

(** [validateForm()]; its messages go through the shared
    [showFieldError], to the elements [error-title-error] and so on. *)
Definition announcement_rules : list (rule announcement_inputs) :=
  [ ("title-error",
     fails_when (fun d => negb (Js.truthy (Js.trim (title d))))
                "Title is required");
    ("content-error",
     fails_when (fun d => negb (Js.truthy (Js.trim (content d))))
                "Content is required");
    ("target-type-error",
     fails_when (fun d => negb (Js.truthy (target_type d)))
                "Target type is required") ].

Definition validateForm (d : announcement_inputs)
    (errs : gmap string err_node) : bool * gmap string err_node :=
  run_rules announcement_rules d errs.

Definition with_errors (errs : gmap string err_node) (m : form_modal)
    : form_modal :=
  FormModal (modal m)
    (FormEl (values (the_form m)) (defaults (the_form m)) errs
            (dataset (the_form m)))
    (editingAnnouncementId m).

(** [if (editingAnnouncementId)] on a number or [null]. *)
Definition editing (m : form_modal) : option Z :=
  match editingAnnouncementId m with
  | Some id => if id =? 0 then None else Some id
  | None => None
  end.

Section Form.
Context {json : Type}.
Variable JSON_parse : string -> exn + json.
Variable rejection : json -> exn.
(** [new Date(s).toISOString()], which throws on a text that is no
    date. *)
Variable toISOString : string -> exn + string.

(** [handleFormSubmit(e)], run to its end.  The exceptions that reach its
    [catch] block are those of the API client and of [toISOString]; none
    of them has an [errors] property, so the block always takes its
    [else] branch. *)
Definition handleFormSubmit (env : browser) (container : bool)
    (slug : option string) (d : announcement_inputs)
    (net : answer) (m : form_modal) : form_modal * list effect :=
  let m := FormModal (modal m) (clearFieldErrors (the_form m))
                     (editingAnnouncementId m) in
  let '(isValid, errs) := validateForm d (form_errors (the_form m)) in
  let m := with_errors errs m in
  if negb isValid then (m, [])
  else if String.eqb (target_type d) "individual"
          && (length (targeted_students d) =? 0)%nat
          && (length (targeted_users d) =? 0)%nat
  then (with_errors
          (showFieldError "individual-targeting-error"
             "At least one student or lecturer must be selected" errs) m,
        [])
  else
    let attempt : Eff (value json) :=
      (if Js.truthy (expires_at d)
       then match toISOString (expires_at d) with
            | inl e => throw e
            | inr _ => ret tt
            end
       else ret tt) ;;;
      match editing m with
      | Some id =>
          Common.apiCall JSON_parse rejection env container slug
            ("announcements/" +:+ pretty id +:+ "/") "PUT" net
      | None =>
          Common.apiCall JSON_parse rejection env container slug
            "announcements/" "POST" net
      end in
    match attempt with
    | (fx, inr _) =>
        (closeModal m,
         fx ++ effects (Common.showToast container ToastSuccess
                          (match editing m with
                           | Some _ => "Announcement updated successfully"
                           | None => "Announcement created successfully"
                           end))
            ++ [Reload "loadAnnouncements"])
    | (fx, inl error) =>
        (m,
         fx ++ [ConsoleError error]
            ++ effects (Common.showToast container ToastError
                          (if Js.truthy (message error) then message error
                           else "Failed to save announcement")))
    end.
End Form.
End Announcements.

(** ** Registration page *)

Module Register.

Definition API_BASE_URL : string := "/api/schools/register".

(** [!x || !x.trim()] and [!x] on an entry of the form data, absent when
    the form has no control of that name. *)
Definition blank (v : option string) : bool :=
  match v with
  | None => true
  | Some x => negb (Js.truthy x) || negb (Js.truthy (Js.trim x))
  end.

Definition missing (v : option string) : bool :=
  match v with
  | None => true
  | Some x => negb (Js.truthy x)
  end.

Definition bad_email (v : option string) : bool :=
  match v with
  | None => true
  | Some x => negb (Js.truthy x) || negb (Js.isValidEmail x)
  end.

(** The entries the form requires: the field whose message they own, and
    their name in the form data. *)
Definition required_inputs : list (string * string) :=
  [ ("school-name", "school_name"); ("school-type", "school_type");
    ("school-address", "school_address"); ("county-city", "county_city");
    ("school-contact", "school_contact_number");
    ("school-email", "school_email"); ("owner-name", "owner_full_name");
    ("position", "position"); ("owner-email", "owner_email");
    ("owner-phone", "owner_phone"); ("username", "username");
    ("password", "password") ].


(** [clearAllErrors()] *)
Definition clearAllErrors (errs : gmap string err_node)
    : gmap string err_node :=
  (fun _ => ErrNode "" "none") <$> errs.

Section Page.
(** Whether [new URL(url)] accepts the string. *)
Variable URL_parses : string -> bool.

Definition form_rules : list (rule (gmap string string)) :=
  [ ("school-name",
     fails_when (fun d => blank (d !! "school_name"))
                "School name is required");
    ("school-type",
     fails_when (fun d => missing (d !! "school_type"))
                "School type is required");
    ("school-address",
     fails_when (fun d => blank (d !! "school_address"))
                "School address is required");
    ("county-city",
     fails_when (fun d => blank (d !! "county_city"))
                "County/City is required");
    ("school-contact",
     fails_when (fun d => blank (d !! "school_contact_number"))
                "Contact number is required");
    ("school-email",
     fails_when (fun d => bad_email (d !! "school_email"))
                "Valid school email is required");
    ("school-website",
     fails_when (fun d => match d !! "school_website" with
                          | Some url => Js.truthy url && negb (URL_parses url)
                          | None => false
                          end)
                "Please enter a valid URL");
    ("owner-name",
     fails_when (fun d => blank (d !! "owner_full_name"))
                "Owner full name is required");
    ("position",
     fails_when (fun d => blank (d !! "position")) "Position is required");
    ("owner-email",
     fails_when (fun d => bad_email (d !! "owner_email"))
                "Valid email is required");
    ("owner-phone",
     fails_when (fun d => blank (d !! "owner_phone"))
                "Phone number is required");
    ("username",
     fun d =>
       if blank (d !! "username") then Some "Username is required"
       else if (String.length (default "" (d !! "username")) <? 3)%nat
       then Some "Username must be at least 3 characters"
       else None);
    ("password",
     fun d =>
       if missing (d !! "password") then Some "Password is required"
       else if (String.length (default "" (d !! "password")) <? 6)%nat
       then Some "Password must be at least 6 characters"
       else None) ].

(** [validateForm(formData)] *)
Definition validateForm (formData : gmap string string)
    (errs : gmap string err_node) : bool * gmap string err_node :=
  run_rules form_rules formData (clearAllErrors errs).

Record submit_button := SubmitButton {
  disabled : bool;
  text_display : string;
  loader_hidden : bool
}.

Record page := Page {
  form : form_el;                    (* #registration-form *)
  errors : gmap string err_node;     (* the .error-message elements *)
  submit : submit_button             (* #submit-btn *)
}.

(** What the handler reads off the server's answer: [result.success],
    the pairs [(field.replace(/_/g, '-'), result.errors[field][0] ||
    'Invalid value')] over the keys of [result.errors], and
    [result.message || 'Registration failed. Please try again.']; or the
    exception the reads raise. *)
Record verdict := Verdict {
  success : bool;
  field_errors : list (string * string);
  failure_message : string
}.

Context {json : Type}.
Variable JSON_parse : string -> exn + json.
Variable read_result : json -> exn + verdict.

(** The [submit] listener of the form, run to its end; [net] is what the
    network answers if the request is sent. *)
Definition on_submit (net : answer) (p : page) : page * list effect :=
  let data := values (form p) in
  let '(isValid, errs) := validateForm data (errors p) in
  if negb isValid
  then (Page (form p) errs (submit p),
        [Toast ToastError "Please fix the errors in the form"])
  else
    let attempt : Eff (response * verdict) :=
      response <- fetch "POST" API_BASE_URL net ;;
      result <- Common.response_json JSON_parse response ;;
      match read_result result with
      | inl e => throw e
      | inr v => ret (response, v)
      end in
    let '(p', fx) :=
      match attempt with
      | (fx, inr (response, v)) =>
          if ok response && success v
          then (Page (reset (form p)) errs (submit p),
                fx ++ [Toast ToastSuccess
                         "Registration successful! Redirecting to login...";
                       NavigateAfter 2000 login_url])
          else (Page (form p)
                     (foldl (fun e '(fieldId, msg) =>
                               showFieldError fieldId msg e)
                            errs (field_errors v))
                     (submit p),
                fx ++ [Toast ToastError (failure_message v)])
      | (fx, inl error) =>
          (Page (form p) errs (submit p),
           fx ++ [ConsoleError error;
                  Toast ToastError "An error occurred. Please try again."])
      end in
    (Page (form p') (errors p') (SubmitButton false "flex" true), fx).
End Page.

End Register.

(** ** Reading a run of an API client *)

(** The toast the [catch] block of the API clients shows for an
    exception. *)
Definition error_toast (e : exn) : toast_type * string :=
  (ToastError,
   if Js.truthy (message e) then message e else "An error occurred").

(** One error toast when the run throws, none when it returns. *)
Definition toasts_iff_throws {A} (run : Eff A) : Prop :=
  match outcome run with
  | inl e => toasts (effects run) = [error_toast e]
  | inr _ => toasts (effects run) = []
  end.

(** The browser is sent nowhere, or the answer was a 401/403, the browser
    is sent to the login page and the caller gets [null]. *)
Definition redirects_only_unauthorized {json} (net : answer)
    (run : Eff (value json)) : Prop :=
  navigations (effects run) = []
  \/ (exists r, net = Responded r
                /\ (status r = 401 \/ status r = 403)
                /\ navigations (effects run) = [login_url]
                /\ outcome run = inr Null).

(** ** Reading an endpoint of the shared builder *)

(** What [buildApiEndpoint] puts before the path: [/api/<slug>/], or
    [/api/] without a college slug. *)
Definition api_root (COLLEGE_SLUG : option string) : string :=
  if Js.truthy (Common.getCollegeSlug COLLEGE_SLUG)
  then "/api/" +:+ Common.getCollegeSlug COLLEGE_SLUG +:+ "/"
  else Common.API_BASE_URL +:+ "/".

(** ** Reading rendered pagination *)

(** The pages whose button carries [class="active"]. *)
Definition active_pages (html : list control) : list Z :=
  html ≫= (fun c => match c with PageButton true i => [i] | _ => [] end).

(** ** Reading a typing session *)


(** ** Reading a pager and an action *)

(** The pages the buttons of a pager ask for. *)
Definition pager_targets (html : list pager_control) : list Z :=
  html ≫= (fun c => match c with
                    | PreviousButton t | NextButton t => [t]
                    | PageInfo _ _ => []
                    end).

(** A handler that asks for confirmation: declined, it does nothing;
    confirmed, it leaves the loading overlay hidden.  When the read of
    the CSRF token throws it then only logs the exception; otherwise it
    sends one request and ends either with its success toast and the two
    reloads or with the error toast of the API client and no reload. *)
Definition confirmed_or_nothing (env : browser)
    (handler : bool -> answer -> bool -> bool * list effect)
    : Prop :=
  forall net overlay,
    handler false net overlay = (overlay, [])
    /\ fst (handler true net overlay) = SuperAdmin.hideLoading overlay
    /\ match Common.csrf_token env with
       | inl e => snd (handler true net overlay) = [ConsoleError e]
       | inr _ =>
           length (requests (snd (handler true net overlay))) = 1%nat
           /\ ((exists msg, toasts (snd (handler true net overlay))
                            = [(ToastSuccess, msg)]
                            /\ reloads (snd (handler true net overlay))
                               = ["loadColleges"; "loadDashboardData"])
               \/ (exists e, toasts (snd (handler true net overlay))
                             = [error_toast e]
                             /\ reloads (snd (handler true net overlay)) = []
                             /\ navigations (snd (handler true net overlay))
                                = []))
       end.

(** ** Reading the cookie text *)

Fixpoint every (p : ascii -> bool) (s : string) : bool :=
  match s with
  | EmptyString => true
  | String c t => p c && every p t
  end.

(** A character of a cookie value: no white space, no semicolon; of a
    cookie name: no equals sign either. *)
Definition value_char (c : ascii) : bool :=
  negb (Js.is_space c) && negb (Ascii.eqb c ";").

Definition name_char (c : ascii) : bool :=
  value_char c && negb (Ascii.eqb c "=").

Definition cookie_pair (e : string * string) : string :=
  fst e +:+ "=" +:+ snd e.

(** The text of [document.cookie] for a jar: the pairs joined by a
    semicolon and a space. *)
Fixpoint cookie_text (jar : list (string * string)) : string :=
  match jar with
  | [] => ""
  | e :: rest =>
      match rest with
      | [] => cookie_pair e
      | _ :: _ => cookie_pair e +:+ "; " +:+ cookie_text rest
      end
  end.

Definition well_formed_jar (jar : list (string * string)) : Prop :=
  Forall (fun e => every name_char (fst e) = true
                   /\ every value_char (snd e) = true) jar.

(** What [getCookie] is to return on a jar: the decoded value of the
    first pair of that name. *)
Definition first_cookie (decodeURIComponent : string -> exn + string)
    (name : string) (jar : list (string * string)) : exn + option string :=
  match List.find (fun e => String.eqb (fst e) name) jar with
  | Some e =>
      match decodeURIComponent (snd e) with
      | inl err => inl err
      | inr v => inr (Some v)
      end
  | None => inr None
  end.

(** ** Frontend access control *)

Module Access.

(** [isSuperAdmin()]: [window.USER_ROLE] and
    [document.body.dataset.userRole], each undefined or a string. *)
Definition isSuperAdmin (USER_ROLE userRole : option string) : bool :=
  bool_decide (USER_ROLE = Some "super_admin")
  || bool_decide (userRole = Some "super_admin").

Definition collegeSpecificPaths : list string :=
  [ "/students/"; "/departments/"; "/courses/"; "/units/"; "/lecturers/";
    "/exams/"; "/fees/"; "/announcements/"; "/timetable/"; "/settings/" ].

(** The regular expression [new RegExp(`/[^/]+${collegePath.replace('/',
    '\\/')}`)] is a slash, one or more characters other than a slash, and
    the text of [collegePath].  [segment_then] matches [[^/]+] followed by
    the text at the start of a string, [matches_here] the whole expression
    at the start of a string, and [test] looks for a match anywhere, as
    [pattern.test(path)] does. *)
Fixpoint segment_then (collegePath s : string) : bool :=
  match s with
  | EmptyString => false
  | String c t =>
      negb (Ascii.eqb c "/")
      && (String.prefix collegePath t || segment_then collegePath t)
  end.

Definition matches_here (collegePath s : string) : bool :=
  match s with
  | EmptyString => false
  | String c t => Ascii.eqb c "/" && segment_then collegePath t
  end.

Fixpoint test (collegePath path : string) : bool :=
  matches_here collegePath path
  || match path with
     | EmptyString => false
     | String _ t => test collegePath t
     end.

(** [enforceAccessControl()]: the address the browser is sent to, if
    any. *)
Definition enforceAccessControl (USER_ROLE userRole : option string)
    (pathname : string) : option string :=
  if negb (isSuperAdmin USER_ROLE userRole) then None
  else
    let isCollegeSpecific :=
      existsb (fun collegePath => test collegePath pathname)
              collegeSpecificPaths in
    if isCollegeSpecific then Some "/superadmin/dashboard/" else None.

End Access.

(** ** Super-admin dashboard: the search box of the detail modal *)

Module DetailSearch.

(** The timer callback closes over the trimmed text of the box. *)
Inductive callback := SearchFire (searchTerm : string).

Record world := World {
  clock : Timers.clock callback;
  searchTimeout : option nat;
  page : SuperAdmin.detail_page;       (* the modal and [detailModalData] *)
  log : list effect
}.

Definition with_clock (k : Timers.clock callback) (w : world) : world :=
  World k (searchTimeout w) (page w) (log w).

Section Page.
Variable encodeURIComponent : string -> string.

(** The timer callback [() => { if (detailModalData.type) {
    loadDetailData(detailModalData.type, 1, searchTerm); } }] *)
Definition run (c : callback) (w : world) : world :=
  match c with
  | SearchFire searchTerm =>
      match SuperAdmin.dm_type (SuperAdmin.detail (page w)) with
      | Some type =>
          if Js.truthy type
          then World (clock w) (searchTimeout w) (page w)
                 (log w ++ SuperAdmin.loadDetailData encodeURIComponent
                             (Some type) 1 searchTerm)
          else w
      | None => w
      end
  end.

Definition search_delay : nat := 500.

(** The [input] listener of [#detail-search]; [v] is what the box
    holds. *)
Definition on_input (v : string) (w : world) : world :=
  let k := Timers.clearTimeout (searchTimeout w) (clock w) in
  let searchTerm := Js.trim v in
  let d := SuperAdmin.detail (page w) in
  let d := SuperAdmin.DetailModalData (SuperAdmin.dm_type d) 1
             (SuperAdmin.dm_totalPages d) searchTerm in
  let '(id, k) := Timers.setTimeout (SearchFire searchTerm) search_delay k in
  World k (Some id) (SuperAdmin.DetailPage (SuperAdmin.detail_modal (page w)) d)
        (log w).


Definition drain (w : world) : world :=
  Timers.drain clock with_clock run w.
End Page.

(** The modal open on a card, no timer pending. *)
Definition opened (t0 : nat) (type : string) (currentPage totalPages : Z)
    (searchTerm : string) : world :=
  World (Timers.Clock t0 1 []) None
        (SuperAdmin.DetailPage (Some true)
           (SuperAdmin.DetailModalData (Some type) currentPage totalPages
              searchTerm))
        [].

End DetailSearch.

(** ** Super-admin dashboard: the search box of the colleges-cards modal *)

Module CardsSearch.

Inductive callback := SearchFire (searchTerm : string).

Record world := World {
  clock : Timers.clock callback;
  searchTimeout : option nat;
  cards_modal : option bool;            (* #colleges-cards-modal active *)
  cards : SuperAdmin.collegesCardsData;
  log : list effect
}.

Definition with_clock (k : Timers.clock callback) (w : world) : world :=
  World k (searchTimeout w) (cards_modal w) (cards w) (log w).

Section Page.
Variable form_encode : string -> string.

(** The timer callback [() => { loadCollegesCards(1, searchTerm); }] *)
Definition run (c : callback) (w : world) : world :=
  match c with
  | SearchFire searchTerm =>
      World (clock w) (searchTimeout w) (cards_modal w) (cards w)
            (log w ++ SuperAdmin.loadCollegesCards form_encode 1 searchTerm)
  end.

Definition search_delay : nat := 500.

(** The [input] listener of [#colleges-cards-search]. *)
Definition on_input (v : string) (w : world) : world :=
  let k := Timers.clearTimeout (searchTimeout w) (clock w) in
  let searchTerm := Js.trim v in
  let d := SuperAdmin.CollegesCardsData 1
             (SuperAdmin.cc_totalPages (cards w)) searchTerm in
  let '(id, k) := Timers.setTimeout (SearchFire searchTerm) search_delay k in
  World k (Some id) (cards_modal w) d (log w).


Definition drain (w : world) : world :=
  Timers.drain clock with_clock run w.
End Page.

(** The modal open, no timer pending. *)
Definition opened (t0 : nat) (currentPage totalPages : Z)
    (searchTerm : string) : world :=
  World (Timers.Clock t0 1 []) None (Some true)
        (SuperAdmin.CollegesCardsData currentPage totalPages searchTerm) [].

End CardsSearch.

(** ** Sample data *)

Module Sample.

(** A JSON reader that knows two bodies: the empty object and [null]. *)
Inductive json := EmptyObject | JsonNull.

Definition JSON_parse (s : string) : exn + json :=
  if String.eqb s "{}" then inr EmptyObject
  else if String.eqb s "null" then inr JsonNull
  else if String.eqb s "" then inl (SyntaxError "Unexpected end of JSON input")
  else inl (SyntaxError "Unexpected token").

Definition rejection (d : json) : exn :=
  match d with
  | EmptyObject => Error "API request failed"
  | JsonNull => TypeError "Cannot read properties of null"
  end.

Definition json_truthy (d : json) : bool :=
  match d with EmptyObject => true | JsonNull => false end.

Definition envelope (d : json) : option (list json * Z * Z) := None.

(** Entries joined with [&], left as they are. *)
Definition query_string (l : list (string * string)) : string :=
  foldr (fun '(k, v) acc =>
           k +:+ "=" +:+ v +:+ (if Js.truthy acc then "&" +:+ acc else ""))
        "" l.

Definition forbidden_html : response :=
  Response 403 "Forbidden" (Some "text/html; charset=utf-8") "<h1>403</h1>".

Definition forbidden_json : response :=
  Response 403 "Forbidden" (Some "application/json") "{}".


Definition ok_empty : response :=
  Response 200 "OK" (Some "application/json") "".

Definition error_nodes (ids : list string) : gmap string err_node :=
  list_to_map ((fun i => ("error-" +:+ i, ErrNode "" "none")) <$> ids).

Definition college_errors : gmap string err_node :=
  error_nodes ["college-name"; "owner-name"; "owner-email"; "owner-phone";
               "location"; "college-type"].

Definition blank_form : SuperAdmin.college_form :=
  SuperAdmin.CollegeForm "" "" "" "" "" "" "" "" "pending".

Definition college_page (f : SuperAdmin.college_form) : SuperAdmin.college_page :=
  SuperAdmin.CollegePage true f blank_form None college_errors
    (SuperAdmin.SubmitButton false "inline" true).

(** A decoder for the samples: a text without [%] decodes to itself,
    and every escape the samples hold is malformed. *)
Definition decodeURIComponent (s : string) : exn + string :=
  if Js.includes s "%" then inl (URIError "URI malformed") else inr s.

Definition null_text : string :=
  "Cannot read properties of null (reading 'appendChild')".

(** A page whose template has set [window.csrftoken]. *)
Definition with_token : browser :=
  Browser (Some "Zq3vT7") "" decodeURIComponent null_text.

(** A page that has not set [window.csrftoken], in a browser whose
    [csrftoken] cookie holds a malformed escape. *)
Definition bad_cookie : browser :=
  Browser None "sessionid=ab12; csrftoken=%E0%A4%A" decodeURIComponent
          null_text.

Definition landing_ready : Landing.landing (json:=json) :=
  Landing.initial (Some "nairobi-tech") (Some true) (Some Landing.LoadingRow)
                  true.

Definition no_filters : Landing.filters := Landing.Filters "" "" "" None.

(** The landing page while its first results request is in flight. *)
Definition landing_busy : Landing.landing (json:=json) :=
  Landing.fetchResults query_string envelope with_token 1 "" no_filters
                       landing_ready.


(** The deny modal, open, with a reason typed in. *)
Definition deny_open : SuperAdmin.deny_modal :=
  SuperAdmin.DenyModal true "Duplicate registration".

(** A modal of the landing page, open, whose form holds a value and
    shows an error message. *)
Definition student_form : form_el :=
  FormEl {["first_name" := "Kamau"]} {["first_name" := ""]}
         {["error-admission" := ErrNode "Admission number is required" "block"]}
         {["editId" := "31"]}.

Definition student_modal : gmap string modal_el :=
  {["student-modal" := ModalEl true (Some student_form)]}.

(** The detail modal, open on the third page of a search. *)
Definition detail_open : SuperAdmin.detail_page :=
  SuperAdmin.DetailPage (Some true)
    (SuperAdmin.DetailModalData (Some "students") 3 7 "kamau").


(** A college form that passes validation. *)
Definition filled_form : SuperAdmin.college_form :=
  SuperAdmin.CollegeForm "Nairobi Technical College" "Jane Smith"
    "jane@college.ac.ke" "0700" "Nairobi" "TVET" "" "" "pending".

(** A row of the colleges table. *)
Definition college_row : SuperAdmin.college_row :=
  SuperAdmin.CollegeRow 7 "Nairobi Technical College" "Jane Smith"
    "jane@college.ac.ke" "0700" "Nairobi" "TVET" "" "active".

(** An announcement for everyone, without an expiry date, and the form
    modal while announcement 12 is being edited. *)
Definition announcement : Announcements.announcement_inputs :=
  Announcements.AnnouncementInputs "Exams" "Exams start on Monday." "all"
    "high" "" [] [].

Definition announcement_modal : Announcements.form_modal :=
  Announcements.FormModal (ModalEl true None) (FormEl ∅ ∅ ∅ ∅) (Some 12).

End Sample.

(** * Part II: properties *)

(** ** Facts on page runs *)

Lemma pages_nil a b : b < a -> pages a b = [].
Proof. intros. unfold pages. apply seqZ_nil. lia. Qed.

Lemma pages_one a : pages a a = [a].
Proof.
  unfold pages. rewrite seqZ_cons by lia. rewrite seqZ_nil by lia. done.
Qed.

Lemma pages_split a m b :
  a <= m + 1 -> m <= b -> pages a b = pages a m ++ pages (m + 1) b.
Proof.
  intros. unfold pages.
  replace (b - a + 1) with ((m - a + 1) + (b - (m + 1) + 1)) by lia.
  rewrite seqZ_app by lia. do 2 f_equal. lia.
Qed.

Lemma elem_of_pages a b i : i ∈ pages a b <-> a <= i <= b.
Proof. unfold pages. rewrite elem_of_seqZ. lia. Qed.

Lemma length_pages a b : length (pages a b) = Z.to_nat (b - a + 1).
Proof. unfold pages. apply length_seqZ. Qed.

Lemma bind_pages_ext {A} (f g : Z -> list A) a b :
  (forall i, a <= i <= b -> f i = g i) -> pages a b ≫= f = pages a b ≫= g.
Proof.
  intros Hfg. apply Forall_bind_ext, Forall_forall.
  intros i Hi. apply Hfg. by apply elem_of_pages.
Qed.

Lemma bind_pages_nil {A} (f : Z -> list A) a b :
  (forall i, a <= i <= b -> f i = []) -> pages a b ≫= f = [].
Proof.
  intros Hf. rewrite (bind_pages_ext f (fun _ => []) a b Hf).
  induction (pages a b); simpl; auto.
Qed.

Lemma bind_pages_fmap {A} (f : Z -> list A) (g : Z -> A) a b :
  (forall i, a <= i <= b -> f i = [g i]) -> pages a b ≫= f = g <$> pages a b.
Proof.
  intros Hf. rewrite (bind_pages_ext f (fun i => [g i]) a b Hf).
  induction (pages a b) as [|x l IH]; csimpl; [done|]. by rewrite IH.
Qed.

(** ** The windowed renderer in closed form *)

Ltac page_cases :=
  unfold Common.page_controls;
  repeat match goal with
         | |- context [?x =? ?y] => destruct (Z.eqb_spec x y)
         | |- context [?x <=? ?y] => destruct (Z.leb_spec x y)
         | |- context [?x <? ?y] => destruct (Z.ltb_spec x y)
         end; simpl; try reflexivity; try lia.

Lemma page_loop_windowed p N :
  1 <= p <= N ->
  pages 1 N ≫= Common.page_controls p N = Common.windowed p N.
Proof.
  intros Hp. unfold Common.windowed, Common.gap, Common.window_lo, Common.window_hi.
  (* first page, inner pages, last page *)
  rewrite (pages_split 1 1 N) by lia. rewrite pages_one, bind_app, bind_singleton.
  change (1 + 1) with 2. replace (Common.page_controls p N 1) with [PageButton (1 =? p) 1]
    by (symmetry; page_cases).
  simpl. f_equal.
  destruct (Z.ltb_spec 1 N) as [HN|HN].
  2:{ rewrite (pages_nil 2 N) by lia. rewrite pages_nil by lia.
      simpl. page_cases. }
  rewrite (pages_split 2 (N - 1) N) by lia.
  replace (N - 1 + 1) with N by lia. rewrite pages_one, bind_app, bind_singleton.
  replace (Common.page_controls p N N) with [PageButton (N =? p) N]
    by (symmetry; page_cases).
  rewrite !app_assoc. f_equal. rewrite <- !app_assoc.
  (* the inner pages fall into five runs *)
  set (b1 := Z.max 1 (Z.min (N - 1) (p - 4))).
  set (b2 := Z.max 1 (Z.min (N - 1) (p - 3))).
  set (b3 := Z.max 1 (Z.min (N - 1) (p + 2))).
  set (b4 := Z.max 1 (Z.min (N - 1) (p + 3))).
  rewrite (pages_split 2 b1 (N - 1)) by lia.
  rewrite (pages_split (b1 + 1) b2 (N - 1)) by lia.
  rewrite (pages_split (b2 + 1) b3 (N - 1)) by lia.
  rewrite (pages_split (b3 + 1) b4 (N - 1)) by lia.
  rewrite !bind_app.
  rewrite (bind_pages_nil _ 2 b1) by (intros i Hi; page_cases).
  rewrite (bind_pages_nil _ (b4 + 1) (N - 1)) by (intros i Hi; page_cases).
  rewrite (bind_pages_fmap _ (fun i => PageButton (i =? p) i) (b2 + 1) b3)
    by (intros i Hi; page_cases).
  rewrite app_nil_r. simpl.
  f_equal; [|f_equal].
  - (* the run holding page p - 3 *)
    destruct (Z.ltb_spec 2 (Z.max 2 (p - 2))).
    + assert (Hb : b2 = b1 + 1) by lia.
      rewrite Hb, pages_one, bind_singleton. page_cases.
    + rewrite pages_nil by lia. done.
  - assert (Hlo : b2 + 1 = Z.max 2 (p - 2)) by lia.
    assert (Hhi : b3 = Z.min (N - 1) (p + 2)) by lia.
    by rewrite Hlo, Hhi.
  - (* the run holding page p + 3 *)
    destruct (Z.ltb_spec (Z.min (N - 1) (p + 2) + 1) N).
    + assert (Hb : b4 = b3 + 1) by lia.
      rewrite Hb, pages_one, bind_singleton. page_cases.
    + rewrite pages_nil by lia. done.
Qed.

(** ** Reading the rendered sequence back *)

Lemma numbered_app a b : numbered (a ++ b) = numbered a ++ numbered b.
Proof. unfold numbered. apply bind_app. Qed.

Lemma numbered_page_buttons (p : Z) l :
  numbered ((fun i => PageButton (i =? p) i) <$> l) = l.
Proof.
  unfold numbered. induction l as [|x l IH]; csimpl; [done|]. by rewrite IH.
Qed.

Lemma numbered_gap a b : numbered (Common.gap a b) = [].
Proof. unfold Common.gap. by destruct (a + 1 <? b). Qed.

Lemma ellipses_app a b : ellipses (a ++ b) = (ellipses a + ellipses b)%nat.
Proof. unfold ellipses. by rewrite filter_app, length_app. Qed.

Lemma ellipses_page_buttons (p : Z) l :
  ellipses ((fun i => PageButton (i =? p) i) <$> l) = 0%nat.
Proof.
  unfold ellipses. induction l as [|x l IH]; csimpl; [done|].
  rewrite filter_cons_False by done. exact IH.
Qed.

Lemma nav_app ch a b : nav ch (a ++ b) = nav ch a ++ nav ch b.
Proof. unfold nav. apply bind_app. Qed.

Lemma nav_page_buttons ch (p : Z) l :
  nav ch ((fun i => PageButton (i =? p) i) <$> l) = [].
Proof. unfold nav. induction l as [|x l IH]; csimpl; done. Qed.

Lemma nav_gap ch a b : nav ch (Common.gap a b) = [].
Proof. unfold Common.gap. by destruct (a + 1 <? b). Qed.

Lemma numbered_windowed p N :
  numbered (Common.windowed p N)
  = [1] ++ pages (Common.window_lo p) (Common.window_hi p N)
    ++ (if 1 <? N then [N] else []).
Proof.
  unfold Common.windowed.
  rewrite !numbered_app, !numbered_gap, numbered_page_buttons.
  by destruct (1 <? N).
Qed.

Lemma numbered_pagination p N :
  1 <= p <= N ->
  numbered (Common.pagination_html p N)
  = [1] ++ pages (Common.window_lo p) (Common.window_hi p N)
    ++ (if 1 <? N then [N] else []).
Proof.
  intros Hp. unfold Common.pagination_html.
  rewrite page_loop_windowed by done.
  rewrite !numbered_app, numbered_windowed. simpl. by rewrite app_nil_r.
Qed.

Lemma numbered_superadmin p N :
  numbered (SuperAdmin.pagination_html p N) = pages 1 N.
Proof. apply numbered_page_buttons. Qed.

(** ** Page counts (C1) *)

(** C1, as stated, fails: on page 1 of 10 the shared renderer shows the four
    buttons 1, 2, 3 and 10, and the colleges table of the super-admin
    dashboard shows all ten, where [min(10, 7)] is seven. *)
Lemma C1_counterexample :
  length (numbered (Common.pagination_html 1 10)) = 4%nat
  /\ length (numbered (SuperAdmin.pagination_html 1 10)) = 10%nat
  /\ Z.to_nat (Z.min 10 7) = 7%nat.
Proof. repeat split; vm_compute; reflexivity. Qed.

(** C1 (amended): for [1 <= p <= N] the shared renderer shows at most
    [min(N, 7)] numbered buttons, exactly that many precisely when the
    window around [p] reaches neither end short (all of the [N <= 7] pages
    lie within two of [p] or are an end, or [4 <= p <= N - 3]), and pages 1
    and [N] are always among them; the colleges table of the super-admin
    dashboard shows one button for every page from 1 to [N]. *)
Theorem C1_page_button_count (p N : Z) :
  1 <= p <= N ->
  let shown := numbered (Common.pagination_html p N) in
  (Z.of_nat (length shown) <= Z.min N 7)
  /\ (Z.of_nat (length shown) = Z.min N 7
      <-> (N <= 7 /\ N - 3 <= p <= 4) \/ (7 <= N /\ 4 <= p <= N - 3))
  /\ 1 ∈ shown /\ N ∈ shown
  /\ numbered (SuperAdmin.pagination_html p N) = pages 1 N
  /\ Z.of_nat (length (numbered (SuperAdmin.pagination_html p N))) = N.
Proof.
  intros Hp shown. subst shown. rewrite numbered_pagination by done.
  rewrite numbered_superadmin, !length_app, !length_pages.
  unfold Common.window_lo, Common.window_hi.
  destruct (Z.ltb_spec 1 N); simpl length.
  - repeat split; try lia.
    + apply elem_of_app. left. apply list_elem_of_singleton. done.
    + apply elem_of_app. right. apply elem_of_app. right.
      by apply list_elem_of_singleton.
  - assert (N = 1) as -> by lia. repeat split; try lia.
    + apply elem_of_app. left. by apply list_elem_of_singleton.
    + apply elem_of_app. left. by apply list_elem_of_singleton.
Qed.

Lemma C1_page_button_count_witness :
  1 <= 5 <= 12
  /\ Z.of_nat (length (numbered (Common.pagination_html 5 12))) = Z.min 12 7.
Proof.
  split; [lia|].
  apply (proj1 (proj2 (C1_page_button_count 5 12 ltac:(lia)))). lia.
Defined.

(** ** The button sequence (C3) *)

Lemma ellipses_gap a b :
  ellipses (Common.gap a b) = if a + 1 <? b then 1%nat else 0%nat.
Proof. unfold Common.gap. by destruct (a + 1 <? b). Qed.

Lemma ellipses_windowed p N :
  ellipses (Common.windowed p N)
  = Nat.add (if 1 + 1 <? Common.window_lo p then 1%nat else 0%nat)
            (if Common.window_hi p N + 1 <? N then 1%nat else 0%nat).
Proof.
  unfold Common.windowed.
  rewrite !ellipses_app, !ellipses_gap, ellipses_page_buttons.
  destruct (1 <? N); simpl; unfold ellipses; simpl; lia.
Qed.

Lemma nav_windowed ch p N : nav ch (Common.windowed p N) = [].
Proof.
  unfold Common.windowed.
  rewrite !nav_app, !nav_gap, nav_page_buttons.
  by destruct (1 <? N).
Qed.

(** C3, as stated, fails on the colleges table of the super-admin dashboard,
    the renderer [loadColleges] uses: on page 2 of 3 it renders no Previous
    and no Next button at all, and on page 5 of 10 it renders a button for
    every page, the skipped ones included, and no ellipsis. *)
Lemma C3_counterexample :
  nav ChevronLeft (SuperAdmin.pagination_html 2 3) = []
  /\ nav ChevronRight (SuperAdmin.pagination_html 2 3) = []
  /\ numbered (SuperAdmin.pagination_html 5 10) = [1; 2; 3; 4; 5; 6; 7; 8; 9; 10]
  /\ ellipses (SuperAdmin.pagination_html 5 10) = 0%nat.
Proof. repeat split; vm_compute; reflexivity. Qed.

(** C3 (amended): for [1 <= currentPage <= totalPages] the shared renderer
    emits Previous, page 1, one ellipsis if pages are skipped before the
    window, the pages within two of the current one, one ellipsis if pages
    are skipped after the window, the last page, Next; its numbered buttons
    are exactly page 1, the last page and the pages [i] with
    [currentPage - 2 <= i <= currentPage + 2]; Previous is disabled iff
    [currentPage = 1] and Next iff [currentPage = totalPages].  The colleges
    table of the super-admin dashboard instead renders a numbered button
    for every page, without ellipsis, Previous or Next. *)
Theorem C3_button_sequence (currentPage totalPages : Z) :
  1 <= currentPage <= totalPages ->
  let html := Common.pagination_html currentPage totalPages in
  html = [NavButton ChevronLeft (currentPage =? 1) (currentPage - 1)]
         ++ Common.windowed currentPage totalPages
         ++ [NavButton ChevronRight (currentPage =? totalPages) (currentPage + 1)]
  /\ (forall i, i ∈ numbered html
                <-> 1 <= i <= totalPages
                    /\ (i = 1 \/ i = totalPages
                        \/ currentPage - 2 <= i <= currentPage + 2))
  /\ ellipses html
     = Nat.add (if 5 <=? currentPage then 1%nat else 0%nat)
               (if currentPage + 4 <=? totalPages then 1%nat else 0%nat)
  /\ nav ChevronLeft html = [(bool_decide (currentPage = 1), currentPage - 1)]
  /\ nav ChevronRight html
     = [(bool_decide (currentPage = totalPages), currentPage + 1)]
  /\ numbered (SuperAdmin.pagination_html currentPage totalPages)
     = pages 1 totalPages
  /\ ellipses (SuperAdmin.pagination_html currentPage totalPages) = 0%nat
  /\ nav ChevronLeft (SuperAdmin.pagination_html currentPage totalPages) = []
  /\ nav ChevronRight (SuperAdmin.pagination_html currentPage totalPages) = [].
Proof.
  intros Hp html.
  assert (Hhtml : html = [NavButton ChevronLeft (currentPage =? 1) (currentPage - 1)]
         ++ Common.windowed currentPage totalPages
         ++ [NavButton ChevronRight (currentPage =? totalPages) (currentPage + 1)]).
  { subst html. unfold Common.pagination_html. by rewrite page_loop_windowed. }
  split; [exact Hhtml|]. split; [|split; [|split; [|split]]].
  - intros i. subst html. rewrite numbered_pagination by done.
    rewrite !elem_of_app, elem_of_pages, list_elem_of_singleton.
    unfold Common.window_lo, Common.window_hi.
    destruct (Z.ltb_spec 1 totalPages).
    + rewrite list_elem_of_singleton. lia.
    + rewrite elem_of_nil. lia.
  - rewrite Hhtml, !ellipses_app, ellipses_windowed.
    unfold Common.window_lo, Common.window_hi, ellipses. simpl.
    repeat match goal with
           | |- context [?x <? ?y] => destruct (Z.ltb_spec x y)
           | |- context [?x <=? ?y] => destruct (Z.leb_spec x y)
           end; lia.
  - rewrite Hhtml, !nav_app, nav_windowed. simpl.
    f_equal. f_equal.
    destruct (Z.eqb_spec currentPage 1);
      [by rewrite bool_decide_true | by rewrite bool_decide_false].
  - rewrite Hhtml, !nav_app, nav_windowed. simpl.
    f_equal. f_equal.
    destruct (Z.eqb_spec currentPage totalPages);
      [by rewrite bool_decide_true | by rewrite bool_decide_false].
  - repeat split.
    + apply numbered_superadmin.
    + apply ellipses_page_buttons.
    + apply nav_page_buttons.
    + apply nav_page_buttons.
Qed.

Lemma C3_button_sequence_witness :
  1 <= 2 <= 3
  /\ nav ChevronLeft (Common.pagination_html 2 3) = [(false, 1)]
  /\ nav ChevronRight (Common.pagination_html 2 3) = [(false, 3)].
Proof.
  split; [lia|].
  pose proof (C3_button_sequence 2 3 ltac:(lia)) as (_ & _ & _ & Hprev & Hnext & _).
  split; [exact Hprev | exact Hnext].
Defined.

(** ** Page navigation guards (C10) *)

(** Once the shared renderer has run on a page that has the container, the
    [goToPage] it leaves behind is the guarded handler for the [totalPages]
    and the callback of that call. *)
Lemma renderPagination_installs_guard {S : Type} (pg : Common.pager S)
    (currentPage totalPages : Z) (onPageChange : Z -> S -> S) :
  is_Some (Common.container pg) ->
  Common.goToPage (Common.renderPagination pg currentPage totalPages onPageChange)
  = Some (Common.goToPage_handler totalPages onPageChange)
  /\ Common.container
       (Common.renderPagination pg currentPage totalPages onPageChange)
     = Some (Common.pagination_html currentPage totalPages).
Proof.
  intros [c Hc]. unfold Common.renderPagination. by rewrite Hc.
Qed.

(** The stored page stays in range under any navigation request. *)
Lemma navigation_keeps_page_in_range
    (encodeURIComponent form_encode : string -> string)
    (query_string : list (string * string) -> string) (page : Z) :
  (forall d,
     1 <= SuperAdmin.dm_currentPage d <= SuperAdmin.dm_totalPages d ->
     let d' := fst (SuperAdmin.goToDetailPage encodeURIComponent page d) in
     1 <= SuperAdmin.dm_currentPage d' <= SuperAdmin.dm_totalPages d')
  /\ (forall d,
        1 <= SuperAdmin.cc_currentPage d <= SuperAdmin.cc_totalPages d ->
        let d' := fst (SuperAdmin.goToCollegesCardsPage form_encode page d) in
        1 <= SuperAdmin.cc_currentPage d' <= SuperAdmin.cc_totalPages d')
  /\ (forall totalPages w,
        1 <= Announcements.currentPage w <= totalPages ->
        1 <= Announcements.currentPage
               (Announcements.goToPage query_string totalPages page w)
          <= totalPages).
Proof.
  repeat split.
  all: try (unfold SuperAdmin.goToDetailPage;
            destruct (Z.ltb_spec page 1),
              (Z.ltb_spec (SuperAdmin.dm_totalPages d) page); simpl; lia).
  all: try (unfold SuperAdmin.goToCollegesCardsPage;
            destruct (Z.ltb_spec page 1),
              (Z.ltb_spec (SuperAdmin.cc_totalPages d) page); simpl; lia).
  all: unfold Announcements.goToPage, Common.goToPage_handler;
       destruct (Z.leb_spec 1 page), (Z.leb_spec page totalPages); simpl; lia.
Qed.

(** C10: a request for a page outside [1..totalPages] leaves the state of
    the three guarded handlers as it was and sends nothing (the detail
    modal, the colleges-cards modal, and the [goToPage] that the shared
    renderer installs); hence, whatever page is asked for, a stored page
    within [1..totalPages] stays within it. *)
Theorem C10_navigation_guards
    (encodeURIComponent form_encode : string -> string)
    (query_string : list (string * string) -> string)
    (totalPages page : Z) :
  (page < 1 \/ totalPages < page ->
   (forall d, SuperAdmin.dm_totalPages d = totalPages ->
      SuperAdmin.goToDetailPage encodeURIComponent page d = (d, []))
   /\ (forall d, SuperAdmin.cc_totalPages d = totalPages ->
         SuperAdmin.goToCollegesCardsPage form_encode page d = (d, []))
   /\ (forall w, Announcements.goToPage query_string totalPages page w = w))
  /\ (forall d,
        1 <= SuperAdmin.dm_currentPage d <= SuperAdmin.dm_totalPages d ->
        let d' := fst (SuperAdmin.goToDetailPage encodeURIComponent page d) in
        1 <= SuperAdmin.dm_currentPage d' <= SuperAdmin.dm_totalPages d')
  /\ (forall d,
        1 <= SuperAdmin.cc_currentPage d <= SuperAdmin.cc_totalPages d ->
        let d' := fst (SuperAdmin.goToCollegesCardsPage form_encode page d) in
        1 <= SuperAdmin.cc_currentPage d' <= SuperAdmin.cc_totalPages d')
  /\ (forall w,
        1 <= Announcements.currentPage w <= totalPages ->
        1 <= Announcements.currentPage
               (Announcements.goToPage query_string totalPages page w)
          <= totalPages).
Proof.
  split.
  - intros Hout. repeat split.
    + intros d <-. unfold SuperAdmin.goToDetailPage.
      destruct (Z.ltb_spec page 1),
        (Z.ltb_spec (SuperAdmin.dm_totalPages d) page);
        simpl; try reflexivity; lia.
    + intros d <-. unfold SuperAdmin.goToCollegesCardsPage.
      destruct (Z.ltb_spec page 1),
        (Z.ltb_spec (SuperAdmin.cc_totalPages d) page);
        simpl; try reflexivity; lia.
    + intros w. unfold Announcements.goToPage, Common.goToPage_handler.
      destruct (Z.leb_spec 1 page), (Z.leb_spec page totalPages);
        simpl; try reflexivity; lia.
  - destruct (navigation_keeps_page_in_range encodeURIComponent form_encode
                query_string page) as (H1 & H2 & H3).
    split; [exact H1|]. split; [exact H2|]. intros w. apply H3.
Qed.

Lemma C10_navigation_guards_witness :
  (4 < 1 \/ 3 < 4)
  /\ SuperAdmin.goToDetailPage (fun s => s) 4
       (SuperAdmin.DetailModalData (Some "students") 3 3 "")
     = (SuperAdmin.DetailModalData (Some "students") 3 3 "", []).
Proof.
  split; [lia|].
  apply (proj1 (proj1 (C10_navigation_guards (fun s => s) (fun s => s)
                         Sample.query_string 3 4) ltac:(lia))).
  reflexivity.
Defined.

(** ** Endpoint construction (C6) *)

Lemma append_cons c (a b : string) : String c a +:+ b = String c (a +:+ b).
Proof. reflexivity. Qed.

Lemma append_empty_r (a : string) : a +:+ "" = a.
Proof. induction a as [|c a IH]; [done|]. by rewrite append_cons, IH. Qed.

Lemma append_assoc (a b c : string) : (a +:+ b) +:+ c = a +:+ b +:+ c.
Proof. induction a as [|x a IH]; [done|]. by rewrite !append_cons, IH. Qed.

Lemma includes_question_cons c t :
  Js.includes (String c t) "?"
  = (if ascii_dec "?" c then true else false) || Js.includes t "?".
Proof.
  cbn [Js.includes String.prefix].
  destruct (ascii_dec "?" c); [|done]. by destruct t.
Qed.

Lemma plain_cons c t :
  Js.includes (String c t) "?" = false ->
  Ascii.eqb c "?" = false /\ Js.includes t "?" = false.
Proof.
  rewrite includes_question_cons. intros H.
  apply orb_false_iff in H as [Hc Ht]. split; [|exact Ht].
  destruct (ascii_dec "?" c) as [|Hne]; [done|].
  apply Ascii.eqb_neq. congruence.
Qed.

Lemma split_plain path :
  Js.includes path "?" = false -> Js.split "?" path = [path].
Proof.
  induction path as [|c t IH]; [done|].
  intros [Hc Ht]%plain_cons.
  cbn [Js.split]. by rewrite Hc, (IH Ht).
Qed.

Lemma split_query path query :
  Js.includes path "?" = false ->
  Js.split "?" (path +:+ "?" +:+ query) = path :: Js.split "?" query.
Proof.
  induction path as [|c t IH]; [done|].
  intros [Hc Ht]%plain_cons.
  change (String c t +:+ "?" +:+ query) with (String c (t +:+ "?" +:+ query)).
  cbn [Js.split]. by rewrite Hc, (IH Ht).
Qed.

Lemma includes_query path query :
  Js.includes (path +:+ "?" +:+ query) "?" = true.
Proof.
  induction path as [|c t IH].
  - change ("" +:+ "?" +:+ query) with (String "?" query).
    by rewrite includes_question_cons.
  - change (String c t +:+ "?" +:+ query) with (String c (t +:+ "?" +:+ query)).
    rewrite includes_question_cons, IH. apply orb_true_r.
Qed.

Lemma startsWith_slash_cons c t :
  Js.startsWith (String c t) "/" = if ascii_dec "/" c then true else false.
Proof.
  unfold Js.startsWith. cbn [String.prefix].
  destruct (ascii_dec "/" c); [|done]. by destruct t.
Qed.

Lemma strip_leading_slash path query :
  Js.includes path "?" = false ->
  (if Js.startsWith (path +:+ "?" +:+ query) "/"
   then Js.slice1 (path +:+ "?" +:+ query) else path +:+ "?" +:+ query)
  = (if Js.startsWith path "/" then Js.slice1 path else path)
    +:+ "?" +:+ query.
Proof.
  destruct path as [|c t]; [done|]. intros _.
  change (String c t +:+ "?" +:+ query) with (String c (t +:+ "?" +:+ query)).
  rewrite !startsWith_slash_cons.
  by destruct (ascii_dec "/" c).
Qed.

Lemma includes_slice1 s :
  Js.includes s "?" = false -> Js.includes (Js.slice1 s) "?" = false.
Proof.
  destruct s as [|c t]; [done|]. by intros [_ Ht]%plain_cons.
Qed.

Lemma endsWith_add_slash s : Js.endsWith (s +:+ "/") "/" = true.
Proof.
  induction s as [|c t IH]; [done|].
  change (String c t +:+ "/") with (String c (t +:+ "/")).
  cbn [Js.endsWith]. destruct (t +:+ "/") eqn:E; [by destruct t|]. exact IH.
Qed.

Lemma path_segment_slash path : Js.endsWith (Common.path_segment path) "/" = true.
Proof.
  unfold Common.path_segment.
  set (p := if Js.startsWith path "/" then Js.slice1 path else path).
  destruct (Js.endsWith p "/") eqn:E; [exact E|apply endsWith_add_slash].
Qed.

Lemma truthy_slug slug :
  Js.truthy slug = true ->
  Js.truthy (Common.getCollegeSlug (Some slug)) = true.
Proof. done. Qed.

(** C6, as stated, fails: without a college slug the shared builder leaves
    the tenant segment out, and the builder of the landing-page data
    manager adds no trailing slash. *)
Lemma C6_counterexample :
  Common.buildApiEndpoint None "students" = "/api/students/"
  /\ Common.buildApiEndpoint None "students" <> "/api/" +:+ "" +:+ "/students/"
  /\ Landing.buildApiEndpoint (Some "nairobi-tech") "students"
     = inr "/api/nairobi-tech/students"
  /\ Landing.buildApiEndpoint (Some "nairobi-tech") "students"
     <> inr "/api/nairobi-tech/students/".
Proof. repeat split; vm_compute; congruence. Qed.

Lemma buildApiEndpoint_path (COLLEGE_SLUG : option string) (path : string) :
  Js.includes path "?" = false ->
  Common.buildApiEndpoint COLLEGE_SLUG path
  = (if Js.truthy (Common.getCollegeSlug COLLEGE_SLUG)
     then "/api/" +:+ Common.getCollegeSlug COLLEGE_SLUG +:+ "/"
     else "/api/")
    +:+ Common.path_segment path.
Proof.
  intros Hpath.
  assert (Hclean : Js.includes
            (if Js.startsWith path "/" then Js.slice1 path else path) "?" = false).
  { destruct (Js.startsWith path "/"); [by apply includes_slice1|done]. }
  unfold Common.buildApiEndpoint, Common.path_segment.
  set (p := if Js.startsWith path "/" then Js.slice1 path else path) in *.
  rewrite Hclean.
  destruct (Js.truthy (Common.getCollegeSlug COLLEGE_SLUG)),
    (Js.endsWith p "/");
    cbn [negb]; by rewrite ?append_empty_r, ?append_assoc.
Qed.

Lemma buildApiEndpoint_path_query (COLLEGE_SLUG : option string)
    (path query : string) :
  Js.includes path "?" = false ->
  Js.includes query "?" = false ->
  Common.buildApiEndpoint COLLEGE_SLUG (path +:+ "?" +:+ query)
  = (if Js.truthy (Common.getCollegeSlug COLLEGE_SLUG)
     then "/api/" +:+ Common.getCollegeSlug COLLEGE_SLUG +:+ "/"
     else "/api/")
    +:+ Common.path_segment path +:+ "?" +:+ query.
Proof.
  intros Hpath Hquery.
  assert (Hclean : Js.includes
            (if Js.startsWith path "/" then Js.slice1 path else path) "?" = false).
  { destruct (Js.startsWith path "/"); [by apply includes_slice1|done]. }
  unfold Common.buildApiEndpoint, Common.path_segment.
  rewrite (strip_leading_slash path query Hpath).
  set (p := if Js.startsWith path "/" then Js.slice1 path else path) in *.
  rewrite includes_query, (split_query _ query Hclean), (split_plain query Hquery).
  unfold Js.part. cbn [nth].
  destruct (Js.truthy (Common.getCollegeSlug COLLEGE_SLUG)),
    (Js.endsWith p "/");
    cbn [negb]; by rewrite ?append_assoc.
Qed.

(** C6 (amended): take an endpoint of a path and at most one query
    string, neither holding a [?].  With a college slug set, the shared
    builder returns [/api/<slug>/<path>/], followed by [?] and the query
    string unchanged when there is one, where the path has lost its
    leading slash and gained a trailing one if it had none.  Without a
    slug ([window.COLLEGE_SLUG] undefined or empty) it returns
    [/api/<path>/], again followed by the query string.  The builder of
    the landing-page data manager returns [/api/<slug>/] followed by the
    endpoint as it is, with no slash added, and throws the [Error]
    [College slug not found] without a slug. *)
Theorem C6_endpoint_construction (slug path query : string) :
  Js.truthy slug = true ->
  Js.includes path "?" = false ->
  Js.includes query "?" = false ->
  (Common.buildApiEndpoint (Some slug) path
   = "/api/" +:+ slug +:+ "/" +:+ Common.path_segment path
   /\ Common.buildApiEndpoint (Some slug) (path +:+ "?" +:+ query)
      = "/api/" +:+ slug +:+ "/" +:+ Common.path_segment path
        +:+ "?" +:+ query)
  /\ (Js.endsWith (Common.path_segment path) "/" = true
      /\ (Js.startsWith path "/" = false -> Js.endsWith path "/" = true ->
          Common.path_segment path = path)
      /\ (Js.startsWith path "/" = false -> Js.endsWith path "/" = false ->
          Common.path_segment path = path +:+ "/")
      /\ (Js.startsWith path "/" = false ->
          Common.path_segment ("/" +:+ path) = Common.path_segment path))
  /\ (forall absent, absent = None \/ absent = Some "" ->
        Common.buildApiEndpoint absent path
        = "/api/" +:+ Common.path_segment path
        /\ Common.buildApiEndpoint absent (path +:+ "?" +:+ query)
           = "/api/" +:+ Common.path_segment path +:+ "?" +:+ query
        /\ (forall endpoint,
              Landing.buildApiEndpoint absent endpoint
              = inl (Error "College slug not found")))
  /\ (forall endpoint,
        Landing.buildApiEndpoint (Some slug) endpoint
        = inr ("/api/" +:+ slug +:+ "/" +:+ endpoint)).
Proof.
  intros Hslug Hpath Hquery.
  split; [|split; [|split]].
  - rewrite (buildApiEndpoint_path _ _ Hpath),
      (buildApiEndpoint_path_query _ _ _ Hpath Hquery).
    cbn [Common.getCollegeSlug]. rewrite Hslug.
    by rewrite !append_assoc.
  - split; [apply path_segment_slash|]. unfold Common.path_segment.
    split; [|split].
    + by intros -> ->.
    + by intros -> ->.
    + intros Hlead. change ("/" +:+ path) with (String "/" path).
      rewrite startsWith_slash_cons, Hlead.
      by destruct (ascii_dec "/" "/").
  - intros absent Habsent.
    assert (Hno : Js.truthy (Common.getCollegeSlug absent) = false)
      by (by destruct Habsent as [-> | ->]).
    rewrite (buildApiEndpoint_path _ _ Hpath),
      (buildApiEndpoint_path_query _ _ _ Hpath Hquery), Hno.
    repeat split. intros endpoint. unfold Landing.buildApiEndpoint.
    by rewrite Hno.
  - intros endpoint. unfold Landing.buildApiEndpoint.
    by rewrite (truthy_slug slug Hslug).
Qed.

Lemma C6_endpoint_construction_witness :
  Common.buildApiEndpoint (Some "nairobi-tech") ("/students" +:+ "?" +:+ "page=2")
  = "/api/nairobi-tech/students/?page=2".
Proof.
  exact (proj2 (proj1 (C6_endpoint_construction "nairobi-tech" "/students"
                         "page=2" eq_refl eq_refl eq_refl))).
Defined.

(** ** The API clients on failures (C2, C5) *)



(** C2 fails on the clients of the shared utilities and of the super-admin
    dashboard.  A 403 whose body is an HTML page (no JSON content type) is
    thrown as a generic HTTP error and shown in a toast, and the browser is
    not sent to the login page; a 403 with a JSON body is parsed before the
    status is looked at. *)
Theorem C2_forbidden_response_not_redirected :
  SuperAdmin.apiCall Sample.JSON_parse Sample.rejection Sample.with_token
    "/colleges/" "GET" (Responded Sample.forbidden_html)
  = ([Fetch "GET" "/api/superadmin/colleges/";
      ConsoleError (Error "HTTP 403: Forbidden");
      Toast ToastError "HTTP 403: Forbidden"],
     inl (Error "HTTP 403: Forbidden"))
  /\ Common.apiCall Sample.JSON_parse Sample.rejection Sample.with_token true
       (Some "nairobi-tech") "students" "GET"
       (Responded Sample.forbidden_html)
     = ([Fetch "GET" "/api/nairobi-tech/students/";
         ConsoleError (Error "HTTP 403: Forbidden");
         Toast ToastError "HTTP 403: Forbidden"],
        inl (Error "HTTP 403: Forbidden"))
  /\ SuperAdmin.apiCall Sample.JSON_parse Sample.rejection Sample.with_token
       "/colleges/" "GET" (Responded Sample.forbidden_json)
     = ([Fetch "GET" "/api/superadmin/colleges/"; ReadJson; Navigate login_url],
        inr Null).
Proof. repeat split; vm_compute; reflexivity. Qed.






(** ** Form validation (C7) *)

Lemma error_key_inj a b : "error-" +:+ a = "error-" +:+ b -> a = b.
Proof. apply (inj (String.append "error-")). Qed.

Section Rules.
Context {D : Type} (data : D).

Lemma apply_rule_other acc (r : rule D) k :
  k <> "error-" +:+ fst r ->
  snd (apply_rule data acc r) !! k = snd acc !! k.
Proof.
  intros Hk. unfold apply_rule. destruct (snd r data); [|done].
  cbn [snd]. unfold showFieldError. by rewrite lookup_alter_ne.
Qed.

Lemma apply_rule_invalid acc (r : rule D) :
  fst acc = false -> fst (apply_rule data acc r) = false.
Proof. intros H. unfold apply_rule. by destruct (snd r data). Qed.

Lemma rules_other rules acc k :
  (forall r, r ∈ rules -> k <> "error-" +:+ fst r) ->
  snd (foldl (apply_rule data) acc rules) !! k = snd acc !! k.
Proof.
  revert acc. induction rules as [|r rules IH]; intros acc Hk; [done|].
  cbn [foldl]. rewrite IH.
  - apply apply_rule_other, Hk. by left.
  - intros r' Hr'. apply Hk. by right.
Qed.

Lemma rules_invalid rules acc :
  fst acc = false -> fst (foldl (apply_rule data) acc rules) = false.
Proof.
  revert acc. induction rules as [|r rules IH]; intros acc H; [done|].
  cbn [foldl]. by apply IH, apply_rule_invalid.
Qed.

Lemma rules_failing rules acc fieldId check msg :
  NoDup (fst <$> rules) ->
  (fieldId, check) ∈ rules ->
  check data = Some msg ->
  fst (foldl (apply_rule data) acc rules) = false
  /\ snd (foldl (apply_rule data) acc rules) !! ("error-" +:+ fieldId)
     = show_error msg <$> snd acc !! ("error-" +:+ fieldId).
Proof.
  revert acc. induction rules as [|r rules IH]; intros acc Hnd Hin Hfail.
  { by apply elem_of_nil in Hin. }
  rewrite fmap_cons in Hnd. apply NoDup_cons in Hnd as [Hfresh Hnd].
  cbn [foldl]. apply elem_of_cons in Hin as [<- | Hin].
  - split.
    + apply rules_invalid. unfold apply_rule. cbn [snd]. by rewrite Hfail.
    + rewrite rules_other.
      * unfold apply_rule. cbn [fst snd]. rewrite Hfail. cbn [snd].
        unfold showFieldError. by rewrite lookup_alter_eq.
      * intros r' Hr' Heq. apply error_key_inj in Heq.
        apply Hfresh. cbn [fst] in Heq |- *. rewrite Heq.
        by apply (list_elem_of_fmap_2 fst).
  - destruct (IH (apply_rule data acc r) Hnd Hin Hfail) as [Hv He].
    split; [exact Hv|]. rewrite He. f_equal.
    apply apply_rule_other. intros Heq. apply error_key_inj in Heq.
    apply Hfresh. rewrite <- Heq.
    by apply (list_elem_of_fmap_2 fst _ (fieldId, check)).
Qed.

Lemma run_rules_failing rules errs fieldId check msg :
  NoDup (fst <$> rules) ->
  (fieldId, check) ∈ rules ->
  check data = Some msg ->
  fst (run_rules rules data errs) = false
  /\ snd (run_rules rules data errs) !! ("error-" +:+ fieldId)
     = show_error msg <$> errs !! ("error-" +:+ fieldId).
Proof. apply rules_failing. Qed.
End Rules.

Lemma college_rules_NoDup : NoDup (fst <$> SuperAdmin.college_rules).
Proof. apply (bool_decide_unpack _). by vm_compute. Qed.


Lemma form_rules_NoDup URL_parses :
  NoDup (fst <$> Register.form_rules URL_parses).
Proof. apply (bool_decide_unpack _). by vm_compute. Qed.

Section Submissions.
Context {json : Type}.
Variable JSON_parse : string -> exn + json.
Variable rejection : json -> exn.
Variable json_truthy : json -> bool.
Variable URL_parses : string -> bool.
Variable read_result : json -> exn + Register.verdict.
Variable toISOString : string -> exn + string.
Variable env : browser.
Variable net : answer.











End Submissions.


(** A form that passes validation does reach the API client. *)
Example valid_college_form_is_posted :
  snd (SuperAdmin.handleCollegeSubmit Sample.JSON_parse Sample.rejection
         Sample.json_truthy Sample.with_token
         (Responded (Response 201 "Created" (Some "application/json") "{}"))
         (Sample.college_page
            (SuperAdmin.CollegeForm "Nairobi Technical College" "Jane Smith"
               "jane@college.ac.ke" "0700" "Nairobi" "TVET" "" "" "pending")))
  = [Fetch "POST" "/api/superadmin/colleges/"; ReadJson;
     Toast ToastSuccess "College created successfully";
     Reload "loadColleges"; Reload "loadDashboardData"].
Proof. vm_compute. reflexivity. Qed.

(** ** The in-flight flag of the results fetcher (C8) *)

Section Results.
Context {json : Type}.
Variable JSON_parse : string -> exn + json.
Variable rejection : json -> exn.
Variable query_string : list (string * string) -> string.
Variable envelope : json -> option (list json * Z * Z).

Local Abbreviation landing := (@Landing.landing json).
Local Abbreviation fetchResults :=
  (Landing.fetchResults (json:=json) query_string envelope).
Local Abbreviation fetchResults_resume :=
  (Landing.fetchResults_resume JSON_parse rejection envelope).

Lemma fetchResults_done_clears v (st : landing) :
  Landing.isFetchingResults (Landing.fetchResults_done envelope v st) = false
  /\ Landing.in_flight (Landing.fetchResults_done envelope v st)
     = Landing.in_flight st.
Proof.
  unfold Landing.fetchResults_done.
  destruct (match v with Data d => envelope d | _ => None end)
    as [[[rows page] pages]|]; done.
Qed.

Lemma fetchResults_failed_clears e (st : landing) :
  Landing.isFetchingResults (Landing.fetchResults_failed e st) = false
  /\ Landing.in_flight (Landing.fetchResults_failed e st)
     = Landing.in_flight st.
Proof. done. Qed.

Lemma fetchResults_settle_clears caught call (st : landing) :
  Landing.isFetchingResults (Landing.fetchResults_settle envelope caught call st)
  = false
  /\ Landing.in_flight (Landing.fetchResults_settle envelope caught call st)
     = Landing.in_flight st.
Proof.
  unfold Landing.fetchResults_settle. destruct (outcome call) as [e|v].
  - done.
  - split; [apply fetchResults_done_clears|].
    by rewrite (proj2 (fetchResults_done_clears _ _)).
Qed.

Lemma fetchResults_skips (st : landing) env page search f :
  Landing.isFetchingResults st = true ->
  fetchResults env page search f st = st.
Proof.
  intros Hflag. unfold Landing.fetchResults.
  destruct (Landing.results_tab st) as [[|]|]; [|done..].
  by rewrite Hflag.
Qed.

Lemma fetchResults_keeps_guard (st : landing) env page search f :
  Landing.flag_guards_request st ->
  Landing.flag_guards_request (fetchResults env page search f st).
Proof.
  intros Hinv.
  destruct (Landing.isFetchingResults st) eqn:Hflag.
  { by rewrite fetchResults_skips. }
  destruct Hinv as [[_ Hnone] | [Hup _]]; [|congruence].
  unfold Landing.fetchResults.
  destruct (Landing.results_tab st) as [[|]|]; [|by left..].
  rewrite Hflag.
  destruct (Common.csrf_token env) as [e|token].
  { left. rewrite (proj1 (fetchResults_settle_clears _ _ _)),
            (proj2 (fetchResults_settle_clears _ _ _)). by split. }
  destruct (Landing.buildApiEndpoint _ _) as [e|url].
  - left. rewrite (proj1 (fetchResults_settle_clears _ _ _)),
            (proj2 (fetchResults_settle_clears _ _ _)). by split.
  - right. split; [done|]. exists url. cbn. by rewrite Hnone.
Qed.

Lemma resume_clears (st : landing) env net :
  Landing.flag_guards_request st ->
  Landing.in_flight st <> [] ->
  Landing.isFetchingResults (fetchResults_resume env net st) = false
  /\ Landing.in_flight (fetchResults_resume env net st) = [].
Proof.
  intros [[_ Hnone] | [_ [url Hone]]] Hsome; [done|].
  unfold Landing.fetchResults_resume. rewrite Hone.
  apply fetchResults_settle_clears.
Qed.

Lemma reachable_guard (st : landing) :
  Landing.reachable JSON_parse rejection query_string envelope st ->
  Landing.flag_guards_request st.
Proof.
  induction 1 as [slug tab tbody container | st st' _ IH Hstep].
  - by left.
  - destruct Hstep as [env page search f st | env net st Hsome | shown st].
    + by apply fetchResults_keeps_guard.
    + left. by apply resume_clears.
    + exact IH.
Qed.

(** C8: on every state the page can reach, at most one results request is
    in flight, and the flag is up exactly while one is; while the flag is
    up a further call of the fetcher changes nothing and sends nothing;
    and whatever the answer (a response or a failure), the flag is down
    once it has been handled. *)
Theorem C8_single_results_fetch (st : landing) :
  Landing.reachable JSON_parse rejection query_string envelope st ->
  (length (Landing.in_flight st) <= 1)%nat
  /\ (Landing.isFetchingResults st = true <-> Landing.in_flight st <> [])
  /\ (Landing.isFetchingResults st = true ->
      forall env page search f, fetchResults env page search f st = st)
  /\ (forall env net,
        Landing.in_flight st <> [] ->
        Landing.isFetchingResults (fetchResults_resume env net st) = false
        /\ Landing.in_flight (fetchResults_resume env net st) = []).
Proof.
  intros Hreach. pose proof (reachable_guard st Hreach) as Hinv.
  split; [|split; [|split]].
  - destruct Hinv as [[_ ->] | [_ [url ->]]]; simpl; lia.
  - destruct Hinv as [[-> ->] | [-> [url ->]]]; split; done.
  - intros Hflag env page search f. by apply fetchResults_skips.
  - intros env net Hsome. by apply resume_clears.
Qed.
End Results.

Lemma C8_single_results_fetch_witness :
  Landing.isFetchingResults Sample.landing_busy = true
  /\ Landing.in_flight Sample.landing_busy
     = ["/api/nairobi-tech/results/?page=1&page_size=10"]
  /\ Landing.fetchResults Sample.query_string Sample.envelope
       Sample.with_token 2 "kamau" Sample.no_filters Sample.landing_busy
     = Sample.landing_busy.
Proof.
  assert (Hreach : Landing.reachable Sample.JSON_parse Sample.rejection
                     Sample.query_string Sample.envelope Sample.landing_busy).
  { eapply Landing.reach_step; [apply Landing.reach_initial|].
    apply Landing.step_fetch. }
  split; [reflexivity|]. split; [reflexivity|].
  apply (proj1 (proj2 (proj2 (C8_single_results_fetch Sample.JSON_parse
                                Sample.rejection Sample.query_string
                                Sample.envelope Sample.landing_busy Hreach)))).
  reflexivity.
Defined.

(** ** Closing a modal (C9) *)

(** C9, as stated, fails on the deny modal of the super-admin dashboard
    and on the modals of the landing page.  Closing the deny modal, by
    its buttons or by its submit handler, takes [active] off and leaves
    the reason typed in.  The [closeModal] of the landing-page data
    manager resets the form and leaves the error messages as they
    are. *)
Lemma C9_counterexample :
  SuperAdmin.closeDenyModal Sample.deny_open
  = SuperAdmin.DenyModal false "Duplicate registration"
  /\ SuperAdmin.handleDenySubmit Sample.deny_open
     = (SuperAdmin.DenyModal false "Duplicate registration",
        ([Toast ToastInfo "Registration denied"], inr tt))
  /\ Landing.closeModal "student-modal" Sample.student_modal
       !! "student-modal"
     = Some (ModalEl false
               (Some (FormEl {["first_name" := ""]} {["first_name" := ""]}
                        {["error-admission" :=
                            ErrNode "Admission number is required" "block"]}
                        {["editId" := ""]}))).
Proof. repeat split. Qed.

(** C9 (amended): each close function hides its modal, and
    - [closeModal] of the super-admin dashboard puts every input of the
      college form back to its initial value and empties every error
      message, and keeps [data-college-id] and the submit button;
    - the shared [closeModal] does the same for the first form inside the
      modal and the error elements inside that form, keeps the data
      attributes of the form, touches no other modal, and does nothing on
      an id the page does not have;
    - [closeDetailModal] puts the type, page and search term of the
      detail modal back to [null], 1 and the empty string, keeps the page
      count, and does nothing on a page without the modal;
    - [closeModal] of the landing-page data manager resets the form and
      sets [data-edit-id] to the empty string, and keeps every error
      message;
    - [closeModal] of the announcements page resets the form, empties and
      hides every error element and forgets the announcement being
      edited;
    - the deny modal keeps its reason, whether it is closed by its
      buttons or by its submit handler. *)
Theorem C9_close_resets_modal :
  (forall p,
     let p' := SuperAdmin.closeModal p in
     SuperAdmin.modal_active p' = false
     /\ SuperAdmin.form p' = SuperAdmin.form_defaults p
     /\ (forall k n, SuperAdmin.errors p' !! k = Some n -> textContent n = "")
     /\ dom (SuperAdmin.errors p') = dom (SuperAdmin.errors p)
     /\ SuperAdmin.collegeId p' = SuperAdmin.collegeId p
     /\ SuperAdmin.submit p' = SuperAdmin.submit p)
  /\ (forall modalId doc m f,
        doc !! modalId = Some m -> modal_form m = Some f ->
        exists f',
          Common.closeModal modalId doc !! modalId = Some (ModalEl false (Some f'))
          /\ values f' = defaults f
          /\ (forall k, form_errors f' !! k
                        = (fun _ => ErrNode "" "none") <$> form_errors f !! k)
          /\ dataset f' = dataset f)
  /\ (forall p,
        is_Some (SuperAdmin.detail_modal p) ->
        let p' := SuperAdmin.closeDetailModal p in
        SuperAdmin.detail_modal p' = Some false
        /\ SuperAdmin.dm_type (SuperAdmin.detail p') = None
        /\ SuperAdmin.dm_currentPage (SuperAdmin.detail p') = 1
        /\ SuperAdmin.dm_searchTerm (SuperAdmin.detail p') = ""
        /\ SuperAdmin.dm_totalPages (SuperAdmin.detail p')
           = SuperAdmin.dm_totalPages (SuperAdmin.detail p))
  /\ (forall modalId doc,
        (forall m, doc !! modalId = Some m -> modal_form m = None ->
           Common.closeModal modalId doc !! modalId = Some (ModalEl false None))
        /\ (doc !! modalId = None -> Common.closeModal modalId doc = doc)
        /\ (forall other, other <> modalId ->
              Common.closeModal modalId doc !! other = doc !! other))
  /\ (forall p,
        SuperAdmin.detail_modal p = None -> SuperAdmin.closeDetailModal p = p)
  /\ (forall modalId doc m f,
        doc !! modalId = Some m -> modal_form m = Some f ->
        Landing.closeModal modalId doc !! modalId
        = Some (ModalEl false
                  (Some (FormEl (defaults f) (defaults f) (form_errors f)
                                (<["editId" := ""]> (dataset f))))))
  /\ (forall m,
        let m' := Announcements.closeModal m in
        active (Announcements.modal m') = false
        /\ values (Announcements.the_form m')
           = defaults (Announcements.the_form m)
        /\ (forall k, form_errors (Announcements.the_form m') !! k
                      = (fun _ => ErrNode "" "none")
                          <$> form_errors (Announcements.the_form m) !! k)
        /\ Announcements.editingAnnouncementId m' = None)
  /\ (forall m,
        SuperAdmin.closeDenyModal m
        = SuperAdmin.DenyModal false (SuperAdmin.deny_reason m)
        /\ fst (SuperAdmin.handleDenySubmit m)
           = SuperAdmin.DenyModal false (SuperAdmin.deny_reason m)).
Proof.
  split; [|split; [|split; [|split; [|split; [|split; [|split]]]]]].
  - intros p p'. subst p'. unfold SuperAdmin.closeModal.
    cbn [SuperAdmin.clearFormErrors SuperAdmin.set_errors SuperAdmin.modal_active
         SuperAdmin.form SuperAdmin.errors SuperAdmin.form_defaults
         SuperAdmin.collegeId SuperAdmin.submit].
    repeat split.
    + intros k n. rewrite lookup_fmap.
      destruct (SuperAdmin.errors p !! k); [|done]. by intros [= <-].
    + apply dom_fmap_L.
  - intros modalId doc m f Hm Hf.
    exists (Common.clearFormErrors (reset f)). unfold Common.closeModal.
    rewrite lookup_alter_eq, Hm. cbn. rewrite Hf. cbn.
    repeat split. intros k. by rewrite lookup_fmap.
  - intros p [a Ha] p'. subst p'. unfold SuperAdmin.closeDetailModal.
    by rewrite Ha.
  - intros modalId doc. unfold Common.closeModal. split; [|split].
    + intros m Hm Hf. rewrite lookup_alter_eq, Hm. cbn. by rewrite Hf.
    + intros Hnone. apply map_eq. intros k.
      destruct (decide (k = modalId)) as [->|Hk].
      * by rewrite lookup_alter_eq, Hnone.
      * by rewrite lookup_alter_ne.
    + intros other Hother. by rewrite lookup_alter_ne.
  - intros p Hnone. unfold SuperAdmin.closeDetailModal. by rewrite Hnone.
  - intros modalId doc m f Hm Hf. unfold Landing.closeModal.
    rewrite lookup_alter_eq, Hm. cbn. by rewrite Hf.
  - intros m m'. subst m'. unfold Announcements.closeModal.
    cbn [Announcements.modal Announcements.the_form active
         Announcements.editingAnnouncementId Announcements.clearFieldErrors
         reset values form_errors].
    repeat split. intros k. by rewrite lookup_fmap.
  - intros m. by split.
Qed.

Lemma C9_close_resets_modal_witness :
  is_Some (SuperAdmin.detail_modal Sample.detail_open)
  /\ SuperAdmin.dm_searchTerm
       (SuperAdmin.detail (SuperAdmin.closeDetailModal Sample.detail_open))
     = "".
Proof.
  assert (Hopen : is_Some (SuperAdmin.detail_modal Sample.detail_open))
    by (by exists true).
  split; [exact Hopen|].
  apply (proj1 (proj2 (proj2 C9_close_resets_modal)) Sample.detail_open Hopen).
Defined.

(** ** Debounced search (C4) *)


Section TimerFacts.
Context {C : Type}.




End TimerFacts.

Section CollegeSearchFacts.
Variable query_string : list (string * string) -> string.
Variables (status type : string).

Local Abbreviation delay := CollegeSearch.search_delay.
Local Abbreviation college_armed :=
  (fun id nid t page v log =>
     CollegeSearch.armed id nid t page v status type log).





End CollegeSearchFacts.

Section AnnouncementsFacts.
Variable query_string : list (string * string) -> string.
Variable wait : nat.
Variables (target priority status : string) (slug : option string).

Local Abbreviation ann_armed :=
  (fun id nid t page v log =>
     Announcements.armed wait id nid t page v target priority status slug log).
Local Abbreviation ann_event :=
  (Timers.input_event Announcements.clock Announcements.with_clock
     (Announcements.run query_string) (Announcements.on_input_after wait)).





End AnnouncementsFacts.





(** * Part III: further properties of the scripts *)

(** ** The API clients *)

Ltac api_simpl :=
  try unfold SuperAdmin.showToast, Common.showToast, Landing.showToast;
  cbn [bind emit ret throw try_catch outcome effects fst snd app api_catch
       fetch Common.response_json toasts navigations requests reloads negb
       orb andb length].

Ltac api_cases :=
  repeat (api_simpl;
          match goal with
          | |- context [match ?x with Rejected _ => _ | Responded _ => _ end] =>
              destruct x
          | |- context [if ?b then _ else _] =>
              lazymatch b with
              | Js.truthy (message _) => fail
              | _ => let E := fresh "E" in destruct b eqn:E
              end
          | |- context [match ?t with inl _ => _ | inr _ => _ end] =>
              lazymatch t with
              | outcome _ => fail
              | _ => let E := fresh "E" in destruct t eqn:E
              end
          end);
  api_simpl.

Ltac unauthorized_status :=
  match goal with
  | H : (_ =? 401) || (_ =? 403) = true |- _ =>
      apply orb_true_iff in H; destruct H as [H|H]; apply Z.eqb_eq in H; tauto
  end.

Section ApiClients.
Context {json : Type}.
Variable JSON_parse : string -> exn + json.
Variable rejection : json -> exn.
Variable env : browser.
Variable container : bool.
Variable COLLEGE_SLUG : option string.
Variables endpoint method : string.
Variable net : answer.

Local Abbreviation superadmin_run :=
  (SuperAdmin.apiCall JSON_parse rejection env endpoint method net).
Local Abbreviation common_run :=
  (Common.apiCall JSON_parse rejection env container COLLEGE_SLUG endpoint
     method net).
Local Abbreviation landing_run :=
  (Landing.apiCall JSON_parse rejection env container COLLEGE_SLUG endpoint
     method net).

(** X1.  When the read of the CSRF token throws (a malformed escape in
    the [csrftoken] cookie, on a page that has not set
    [window.csrftoken]), each of the three API clients throws that
    exception and does nothing else: no request, no log, no toast.  When
    the token can be read, the super-admin client shows exactly one error
    toast, with the message of the exception (or "An error occurred" when
    it has none), when the call throws, and no toast when the call
    returns; so do the shared client and the landing-page client on a page
    with a toast container.  On a page without one the shared client
    never shows a toast, and the landing-page client shows none and
    throws, whenever it throws, the [TypeError] of its [showToast]. *)
Theorem api_client_toasts_exactly_when_it_throws :
  (forall e, Common.csrf_token env = inl e ->
     superadmin_run = ([], inl e)
     /\ common_run = ([], inl e)
     /\ landing_run = ([], inl e))
  /\ (forall token, Common.csrf_token env = inr token ->
        toasts_iff_throws superadmin_run
        /\ (if container then toasts_iff_throws common_run
            else toasts (effects common_run) = [])
        /\ (if container then toasts_iff_throws landing_run
            else toasts (effects landing_run) = []
                 /\ (forall e, outcome landing_run = inl e ->
                       e = TypeError (null_message env)))).
Proof.
  split.
  - intros e He. unfold SuperAdmin.apiCall, Common.apiCall, Landing.apiCall.
    by rewrite He.
  - intros token Htoken. unfold toasts_iff_throws, error_toast.
    split; [|split].
    + unfold SuperAdmin.apiCall. rewrite Htoken. api_cases; reflexivity.
    + unfold Common.apiCall. rewrite Htoken.
      destruct container; api_cases; reflexivity.
    + unfold Landing.apiCall, Landing.apiCall_receive. rewrite Htoken.
      destruct container.
      * api_cases; reflexivity.
      * split; [api_cases; reflexivity|].
        intros e. api_cases; intros H; try discriminate H.
        all: by injection H as <-.
Qed.

(** X2.  An API client changes [window.location] only on a 401 or 403
    answer; it then goes to the login page, once, and hands [null] to its
    caller instead of throwing. *)
Theorem api_client_redirects_only_unauthorized :
  redirects_only_unauthorized net superadmin_run
  /\ redirects_only_unauthorized net common_run
  /\ redirects_only_unauthorized net landing_run.
Proof.
  unfold redirects_only_unauthorized. repeat split.
  - unfold SuperAdmin.apiCall. api_cases; try (left; reflexivity).
    all: right; eexists; split; [reflexivity|]; repeat split; try reflexivity.
    all: unauthorized_status.
  - unfold Common.apiCall. api_cases; try (left; reflexivity).
    all: right; eexists; split; [reflexivity|]; repeat split; try reflexivity.
    all: unauthorized_status.
  - unfold Landing.apiCall, Landing.apiCall_receive.
    api_cases; try (left; reflexivity).
    all: right; eexists; split; [reflexivity|]; repeat split; try reflexivity.
    all: unauthorized_status.
Qed.

(** X3.  The super-admin and the shared client hand the parsed body to the
    caller exactly when the CSRF token can be read and the answer is a 2xx
    response with a JSON content type whose body parses; the landing-page
    client asks in addition for a college slug, a status other than 204
    and a non-empty body. *)
Theorem api_client_returns_data_iff (d : json) :
  (outcome superadmin_run = inr (Data d)
   <-> (exists token, Common.csrf_token env = inr token)
       /\ exists r, net = Responded r /\ ok r = true /\ is_json r = true
                    /\ JSON_parse (text r) = inr d)
  /\ (outcome common_run = inr (Data d)
      <-> (exists token, Common.csrf_token env = inr token)
          /\ exists r, net = Responded r /\ ok r = true /\ is_json r = true
                       /\ JSON_parse (text r) = inr d)
  /\ (outcome landing_run = inr (Data d)
      <-> (exists token, Common.csrf_token env = inr token)
          /\ exists r, net = Responded r /\ ok r = true /\ is_json r = true
                       /\ JSON_parse (text r) = inr d
                       /\ Js.truthy (Common.getCollegeSlug COLLEGE_SLUG) = true
                       /\ status r <> 204 /\ Js.truthy (text r) = true).
Proof.
  split; [|split]; split.
  - unfold SuperAdmin.apiCall.
    destruct (Common.csrf_token env) as [e|token]; [done|].
    intros H. split; [by eexists|]. revert H.
    api_cases; intros H; try discriminate H.
    all: injection H as ->; eexists; repeat split; eauto.
    all: try (apply negb_false_iff; assumption).
  - intros ([token Htoken] & r & -> & Hok & Hj & Hp).
    unfold SuperAdmin.apiCall. rewrite Htoken.
    api_simpl. rewrite Hj. api_simpl. rewrite Hp. api_simpl.
    rewrite Hok. reflexivity.
  - unfold Common.apiCall.
    destruct (Common.csrf_token env) as [e|token]; [done|].
    intros H. split; [by eexists|]. revert H.
    api_cases; intros H; try discriminate H.
    all: injection H as ->; eexists; repeat split; eauto.
    all: try (apply negb_false_iff; assumption).
  - intros ([token Htoken] & r & -> & Hok & Hj & Hp).
    unfold Common.apiCall. rewrite Htoken.
    api_simpl. rewrite Hj. api_simpl. rewrite Hp. api_simpl.
    rewrite Hok. reflexivity.
  - unfold Landing.apiCall, Landing.apiCall_receive, Landing.buildApiEndpoint.
    destruct (Common.csrf_token env) as [e|token]; [done|].
    intros H. split; [by eexists|]. revert H.
    api_cases; intros H; try discriminate H.
    all: injection H as ->; eexists; repeat split; eauto.
    all: try (apply negb_false_iff; assumption).
    all: try (apply Z.eqb_neq; assumption).
  - intros ([token Htoken] & r & -> & Hok & Hj & Hp & Hs & H204 & Ht).
    unfold Landing.apiCall, Landing.apiCall_receive, Landing.buildApiEndpoint.
    rewrite Htoken.
    rewrite Hs. api_simpl. apply Z.eqb_neq in H204. rewrite H204.
    assert (Hu : (status r =? 401) || (status r =? 403) = false).
    { unfold ok in Hok. apply andb_true_iff in Hok as [_ H].
      apply Z.leb_le in H. apply orb_false_iff; split; apply Z.eqb_neq; lia. }
    rewrite Hu, Hj. api_simpl. rewrite Ht. api_simpl. rewrite Hp, Hok.
    reflexivity.
Qed.

(** X4.  The clients take the CSRF token from [window.csrftoken] when the
    page has set it to a non-empty string, and read the cookie only
    otherwise.  When the read throws, a call sends no request and throws
    that exception.  When the token can be read, one call of the
    super-admin client sends exactly one request, to [/api/superadmin]
    followed by the endpoint (with a leading slash added if it has none),
    and one call of the shared client sends exactly one request, to the
    URL of its endpoint builder.  The landing-page client then sends one
    request to [/api/<slug>/<endpoint>] when the page has a college slug;
    without one it sends nothing and throws [College slug not found], or
    the [TypeError] of its [showToast] on a page without a toast
    container. *)
Theorem api_client_one_request_per_call :
  (forall t, window_csrftoken env = Some t -> Js.truthy t = true ->
     Common.csrf_token env = inr (Some t))
  /\ match Common.csrf_token env with
     | inl e =>
         (requests (effects superadmin_run) = []
          /\ outcome superadmin_run = inl e)
         /\ (requests (effects common_run) = []
             /\ outcome common_run = inl e)
         /\ (requests (effects landing_run) = []
             /\ outcome landing_run = inl e)
     | inr _ =>
         requests (effects superadmin_run)
         = [(method, "/api/superadmin"
                     +:+ (if Js.startsWith endpoint "/" then endpoint
                          else "/" +:+ endpoint))]
         /\ requests (effects common_run)
            = [(method, Common.buildApiEndpoint COLLEGE_SLUG endpoint)]
         /\ (if Js.truthy (Common.getCollegeSlug COLLEGE_SLUG)
             then requests (effects landing_run)
                  = [(method, "/api/" +:+ Common.getCollegeSlug COLLEGE_SLUG
                              +:+ "/" +:+ endpoint)]
             else requests (effects landing_run) = []
                  /\ outcome landing_run
                     = inl (if container
                            then Error "College slug not found"
                            else TypeError (null_message env)))
     end.
Proof.
  split.
  { intros t Ht Htruthy. unfold Common.csrf_token. by rewrite Ht, Htruthy. }
  unfold SuperAdmin.apiCall, Common.apiCall, Landing.apiCall.
  destruct (Common.csrf_token env) as [e|token]; [by repeat split|].
  split; [|split].
  - api_cases; reflexivity.
  - api_cases; reflexivity.
  - unfold Landing.apiCall_receive, Landing.buildApiEndpoint.
    destruct (Js.truthy (Common.getCollegeSlug COLLEGE_SLUG)); api_simpl.
    + api_cases; reflexivity.
    + destruct container; split; reflexivity.
Qed.
End ApiClients.

(** A malformed escape in the [csrftoken] cookie, on a page that has not
    set [window.csrftoken]: the client throws before its [try], and a
    college action that runs into it only logs the exception. *)
Example malformed_cookie_stops_the_client :
  Common.csrf_token Sample.bad_cookie = inl (URIError "URI malformed")
  /\ SuperAdmin.apiCall Sample.JSON_parse Sample.rejection Sample.bad_cookie
       "/colleges/" "GET" (Responded Sample.ok_empty)
     = ([], inl (URIError "URI malformed"))
  /\ SuperAdmin.approveCollege Sample.JSON_parse Sample.rejection
       Sample.bad_cookie 7 true (Responded Sample.ok_empty) false
     = (true, [ConsoleError (URIError "URI malformed")]).
Proof. repeat split. Qed.

(** ** Reading a run back *)

Lemma toasts_app fx fx' : toasts (fx ++ fx') = toasts fx ++ toasts fx'.
Proof.
  induction fx as [|[] fx IH]; cbn [app toasts]; by rewrite ?IH.
Qed.

Lemma requests_app fx fx' : requests (fx ++ fx') = requests fx ++ requests fx'.
Proof.
  induction fx as [|[] fx IH]; cbn [app requests]; by rewrite ?IH.
Qed.

Lemma reloads_app fx fx' : reloads (fx ++ fx') = reloads fx ++ reloads fx'.
Proof.
  induction fx as [|[] fx IH]; cbn [app reloads]; by rewrite ?IH.
Qed.

Lemma navigations_app fx fx' :
  navigations (fx ++ fx') = navigations fx ++ navigations fx'.
Proof.
  induction fx as [|[] fx IH]; cbn [app navigations]; by rewrite ?IH.
Qed.

(** ** Validators *)

Section Validators.
Context {D : Type} (data : D).

Lemma apply_rule_valid acc (r : rule D) :
  fst (apply_rule data acc r) = true ->
  fst acc = true /\ snd r data = None /\ apply_rule data acc r = acc.
Proof.
  unfold apply_rule. destruct (snd r data); [discriminate|]. by intros ->.
Qed.

Lemma rules_valid rules acc :
  fst (foldl (apply_rule data) acc rules) = true ->
  fst acc = true /\ Forall (fun r => snd r data = None) rules
  /\ foldl (apply_rule data) acc rules = acc.
Proof.
  revert acc. induction rules as [|r rules IH]; intros acc H.
  { cbn [foldl] in *. by repeat split. }
  cbn [foldl] in *. destruct (IH _ H) as (Hv & Hall & Heq).
  destruct (apply_rule_valid _ _ Hv) as (Hacc & Hr & Hsame).
  repeat split; [done|by constructor|]. by rewrite Heq.
Qed.

Lemma rules_pass rules acc :
  Forall (fun r => snd r data = None) rules ->
  foldl (apply_rule data) acc rules = acc.
Proof.
  revert acc. induction rules as [|r rules IH]; intros acc H; [done|].
  apply Forall_cons in H as [Hr Hall]. cbn [foldl].
  rewrite (IH _ Hall). unfold apply_rule. by rewrite Hr.
Qed.

Lemma run_rules_accepts rules errs :
  fst (run_rules rules data errs) = true
  <-> Forall (fun r => snd r data = None) rules.
Proof.
  unfold run_rules. split.
  - intros H. by destruct (rules_valid _ _ H) as (_ & Hall & _).
  - intros H. by rewrite (rules_pass _ _ H).
Qed.

Lemma run_rules_accepted rules errs :
  fst (run_rules rules data errs) = true ->
  snd (run_rules rules data errs) = errs.
Proof.
  unfold run_rules. intros H.
  destruct (rules_valid _ _ H) as (_ & _ & Heq). by rewrite Heq.
Qed.

(** A rule that passes leaves the message element of its field alone,
    when no other rule writes to that field. *)
Lemma rules_passing rules acc fieldId check :
  NoDup (fst <$> rules) ->
  (fieldId, check) ∈ rules ->
  check data = None ->
  snd (foldl (apply_rule data) acc rules) !! ("error-" +:+ fieldId)
  = snd acc !! ("error-" +:+ fieldId).
Proof.
  revert acc. induction rules as [|r rules IH]; intros acc Hnd Hin Hpass.
  { by apply elem_of_nil in Hin. }
  rewrite fmap_cons in Hnd. apply NoDup_cons in Hnd as [Hfresh Hnd].
  cbn [foldl]. apply elem_of_cons in Hin as [<- | Hin].
  - rewrite rules_other.
    + unfold apply_rule. cbn [snd]. by rewrite Hpass.
    + intros r' Hr' Heq. apply error_key_inj in Heq.
      apply Hfresh. cbn [fst] in Heq |- *. rewrite Heq.
      by apply (list_elem_of_fmap_2 fst).
  - rewrite (IH _ Hnd Hin Hpass).
    apply apply_rule_other. intros Heq. apply error_key_inj in Heq.
    apply Hfresh. rewrite <- Heq.
    by apply (list_elem_of_fmap_2 fst _ (fieldId, check)).
Qed.

(** What a validation leaves in the message element of a field. *)
Lemma run_rules_lookup rules errs fieldId check :
  NoDup (fst <$> rules) ->
  (fieldId, check) ∈ rules ->
  snd (run_rules rules data errs) !! ("error-" +:+ fieldId)
  = match check data with
    | Some msg => show_error msg <$> errs !! ("error-" +:+ fieldId)
    | None => errs !! ("error-" +:+ fieldId)
    end.
Proof.
  intros Hnd Hin. destruct (check data) as [msg|] eqn:Hcheck.
  - by apply (run_rules_failing data rules errs fieldId check msg).
  - by apply (rules_passing rules (true, errs) fieldId check).
Qed.

Lemma run_rules_other rules errs k :
  k ∉ (fun r => "error-" +:+ fst r) <$> rules ->
  snd (run_rules rules data errs) !! k = errs !! k.
Proof.
  intros Hk. apply (rules_other data rules (true, errs) k).
  intros r Hr ->. apply Hk.
  by apply (list_elem_of_fmap_2 (fun r => "error-" +:+ fst r)).
Qed.
End Validators.

Lemma fails_when_None {D} (failed : D -> bool) msg d :
  fails_when failed msg d = None <-> failed d = false.
Proof. unfold fails_when. by destruct (failed d). Qed.

Lemma truthy_false s : Js.truthy s = false <-> s = "".
Proof.
  unfold Js.truthy. destruct (String.eqb_spec s ""); split; done.
Qed.

Lemma truthy_true s : Js.truthy s = true <-> s <> "".
Proof.
  unfold Js.truthy. rewrite negb_true_iff. apply String.eqb_neq.
Qed.

Lemma college_blank_false v : SuperAdmin.blank v = false <-> Js.trim v <> "".
Proof.
  unfold SuperAdmin.blank. rewrite negb_false_iff. apply truthy_true.
Qed.

Lemma trim_nonempty v : Js.trim v <> "" -> v <> "".
Proof. by intros H ->. Qed.

Lemma register_blank_false o :
  Register.blank o = false <-> exists v, o = Some v /\ Js.trim v <> "".
Proof.
  destruct o as [x|]; cbn [Register.blank].
  - rewrite orb_false_iff, !negb_false_iff, !truthy_true. split.
    + intros [_ H]. by exists x.
    + intros (v & [= <-] & H). split; [by apply trim_nonempty|done].
  - split; [done|]. by intros (v & H & _).
Qed.

Lemma register_missing_false o :
  Register.missing o = false <-> exists v, o = Some v /\ v <> "".
Proof.
  destruct o as [x|]; cbn [Register.missing].
  - rewrite negb_false_iff, truthy_true. split.
    + intros H. by exists x.
    + by intros (v & [= <-] & H).
  - split; [done|]. by intros (v & H & _).
Qed.

Lemma register_bad_email_false o :
  Register.bad_email o = false
  <-> exists v, o = Some v /\ v <> "" /\ Js.isValidEmail v = true.
Proof.
  destruct o as [x|]; cbn [Register.bad_email].
  - rewrite orb_false_iff, !negb_false_iff, truthy_true. split.
    + intros [H1 H2]. by exists x.
    + by intros (v & [= <-] & H1 & H2).
  - split; [done|]. by intros (v & H & _).
Qed.

(** X5.  The college form validator accepts the data exactly when the
    name, the owner's name, the phone number and the location each hold a
    character that is no white space, the owner's e-mail does too and has
    the shape of an address, and a college type is chosen.  The
    registration validator accepts exactly when the school name, address,
    county or city, contact number, owner's name, position and phone
    number each hold a character that is no white space, a school type is
    chosen, the two e-mail inputs are not empty and have the shape of an
    address, the website, if given, is one [new URL] accepts, the user
    name holds a character that is no white space and has at least three
    characters, and the password has at least six.  An accepted form has
    no message written: the error elements are as the validator found
    them (emptied and hidden first, on the registration page). *)
Theorem validators_accept_iff_no_check_fails (URL_parses : string -> bool) :
  (forall d errs,
     (fst (SuperAdmin.validateCollegeForm d errs) = true
      <-> Js.trim (SuperAdmin.name d) <> ""
          /\ Js.trim (SuperAdmin.owner_name d) <> ""
          /\ (Js.trim (SuperAdmin.owner_email d) <> ""
              /\ Js.isValidEmail (SuperAdmin.owner_email d) = true)
          /\ Js.trim (SuperAdmin.owner_phone d) <> ""
          /\ Js.trim (SuperAdmin.location d) <> ""
          /\ SuperAdmin.type d <> "")
     /\ (fst (SuperAdmin.validateCollegeForm d errs) = true ->
         snd (SuperAdmin.validateCollegeForm d errs) = errs))
  /\ (forall d errs,
        let filled key := exists v, d !! key = Some v /\ Js.trim v <> "" in
        let address key :=
          exists v, d !! key = Some v /\ v <> ""
                    /\ Js.isValidEmail v = true in
        (fst (Register.validateForm URL_parses d errs) = true
         <-> filled "school_name"
             /\ (exists v, d !! "school_type" = Some v /\ v <> "")
             /\ filled "school_address"
             /\ filled "county_city"
             /\ filled "school_contact_number"
             /\ address "school_email"
             /\ (forall url, d !! "school_website" = Some url -> url <> "" ->
                   URL_parses url = true)
             /\ filled "owner_full_name"
             /\ filled "position"
             /\ address "owner_email"
             /\ filled "owner_phone"
             /\ (exists v, d !! "username" = Some v /\ Js.trim v <> ""
                           /\ (3 <= String.length v)%nat)
             /\ (exists v, d !! "password" = Some v
                           /\ (6 <= String.length v)%nat))
        /\ (fst (Register.validateForm URL_parses d errs) = true ->
            snd (Register.validateForm URL_parses d errs)
            = Register.clearAllErrors errs)).
Proof.
  split; intros d errs.
  - split; [|apply run_rules_accepted].
    unfold SuperAdmin.validateCollegeForm. rewrite run_rules_accepts.
    unfold SuperAdmin.college_rules.
    rewrite !Forall_cons, Forall_nil. cbn [snd].
    rewrite !fails_when_None, orb_false_iff, !college_blank_false,
      !negb_false_iff, truthy_true.
    tauto.
  - intros filled address.
    split; [|apply run_rules_accepted].
    unfold Register.validateForm. rewrite run_rules_accepts.
    unfold Register.form_rules.
    rewrite !Forall_cons, Forall_nil. cbn [snd].
    rewrite !fails_when_None, !register_blank_false,
      !register_bad_email_false, !register_missing_false.
    subst filled address. cbv beta.
    assert (Hsite : match d !! "school_website" with
                    | Some url => Js.truthy url && negb (URL_parses url)
                    | None => false
                    end = false
                    <-> forall url, d !! "school_website" = Some url ->
                          url <> "" -> URL_parses url = true).
    { destruct (d !! "school_website") as [u|]; [|by split].
      rewrite andb_false_iff, negb_false_iff. split.
      - intros [H | H] url [= <-] Hu; [|done].
        by apply truthy_true in Hu; rewrite Hu in H.
      - intros H. destruct (Js.truthy u) eqn:Hu; [|by left].
        right. apply H; [done|]. by apply truthy_true. }
    assert (Huser : (if Register.blank (d !! "username")
                     then Some "Username is required"
                     else if (String.length (default "" (d !! "username"))
                              <? 3)%nat
                          then Some "Username must be at least 3 characters"
                          else None) = None
                    <-> exists v, d !! "username" = Some v /\ Js.trim v <> ""
                                  /\ (3 <= String.length v)%nat).
    { destruct (Register.blank (d !! "username")) eqn:Hb.
      - split; [done|]. intros (v & Hv & Ht & _).
        assert (Register.blank (d !! "username") = false) as Hb'
          by (apply register_blank_false; by exists v).
        congruence.
      - apply register_blank_false in Hb as (v & Hv & Ht). rewrite Hv.
        change (default "" (Some v)) with v. destruct (Nat.ltb_spec (String.length v) 3).
        + split; [done|]. intros (v' & [= <-] & _ & Hlen). lia.
        + split; [|done]. intros _. exists v. repeat split; [done|lia]. }
    assert (Hpass : (if Register.missing (d !! "password")
                     then Some "Password is required"
                     else if (String.length (default "" (d !! "password"))
                              <? 6)%nat
                          then Some "Password must be at least 6 characters"
                          else None) = None
                    <-> exists v, d !! "password" = Some v
                                  /\ (6 <= String.length v)%nat).
    { destruct (Register.missing (d !! "password")) eqn:Hb.
      - split; [done|]. intros (v & Hv & Hlen).
        rewrite Hv in Hb. cbn [Register.missing] in Hb.
        apply negb_true_iff, truthy_false in Hb. subst v.
        cbn [String.length] in Hlen. lia.
      - apply register_missing_false in Hb as (v & Hv & Ht). rewrite Hv.
        change (default "" (Some v)) with v. destruct (Nat.ltb_spec (String.length v) 6).
        + split; [done|]. intros (v' & [= <-] & Hlen). lia.
        + split; [|done]. intros _. exists v. split; [done|lia]. }
    rewrite Hsite, Huser, Hpass. tauto.
Qed.

Ltac rule_here :=
  repeat first [ by apply list_elem_of_here | apply list_elem_of_further ].

Ltac not_a_rule H :=
  let Hin := fresh "Hin" in
  intros Hin; apply H;
  repeat (apply elem_of_cons in Hin as [-> | Hin];
          [rule_here|]);
  by apply elem_of_nil in Hin.

(** X6.  What the validators write.  The college validator leaves in the
    message element of each of its six fields the message of that field,
    shown, when the check of the field fails, and what the element held
    when the check passes; the registration validator does the same for
    its thirteen fields, on elements it has emptied and hidden first, with
    two messages each for the user name and the password.  Neither
    touches a message element of another field. *)
Theorem validators_flag_only_failing_fields (URL_parses : string -> bool) :
  (forall d errs,
     let out := snd (SuperAdmin.validateCollegeForm d errs) in
     let written fieldId (failed : bool) msg :=
       out !! ("error-" +:+ fieldId)
       = if failed then show_error msg <$> errs !! ("error-" +:+ fieldId)
         else errs !! ("error-" +:+ fieldId) in
     written "college-name" (negb (Js.truthy (Js.trim (SuperAdmin.name d))))
             "College name is required"
     /\ written "owner-name"
                (negb (Js.truthy (Js.trim (SuperAdmin.owner_name d))))
                "Owner/Principal name is required"
     /\ written "owner-email"
                (negb (Js.truthy (Js.trim (SuperAdmin.owner_email d)))
                 || negb (Js.isValidEmail (SuperAdmin.owner_email d)))
                "Valid email is required"
     /\ written "owner-phone"
                (negb (Js.truthy (Js.trim (SuperAdmin.owner_phone d))))
                "Phone number is required"
     /\ written "location"
                (negb (Js.truthy (Js.trim (SuperAdmin.location d))))
                "Location is required"
     /\ written "college-type" (negb (Js.truthy (SuperAdmin.type d)))
                "College type is required"
     /\ (forall k,
           k ∉ ["error-college-name"; "error-owner-name"; "error-owner-email";
                "error-owner-phone"; "error-location"; "error-college-type"] ->
           out !! k = errs !! k))
  /\ (forall d errs,
        let out := snd (Register.validateForm URL_parses d errs) in
        let before := Register.clearAllErrors errs in
        let written fieldId (failed : bool) msg :=
          out !! ("error-" +:+ fieldId)
          = if failed then show_error msg <$> before !! ("error-" +:+ fieldId)
            else before !! ("error-" +:+ fieldId) in
        let length_of key := String.length (default "" (d !! key)) in
        written "school-name" (Register.blank (d !! "school_name"))
                "School name is required"
        /\ written "school-type" (Register.missing (d !! "school_type"))
                   "School type is required"
        /\ written "school-address" (Register.blank (d !! "school_address"))
                   "School address is required"
        /\ written "county-city" (Register.blank (d !! "county_city"))
                   "County/City is required"
        /\ written "school-contact"
                   (Register.blank (d !! "school_contact_number"))
                   "Contact number is required"
        /\ written "school-email" (Register.bad_email (d !! "school_email"))
                   "Valid school email is required"
        /\ written "school-website"
                   (match d !! "school_website" with
                    | Some url => Js.truthy url && negb (URL_parses url)
                    | None => false
                    end)
                   "Please enter a valid URL"
        /\ written "owner-name" (Register.blank (d !! "owner_full_name"))
                   "Owner full name is required"
        /\ written "position" (Register.blank (d !! "position"))
                   "Position is required"
        /\ written "owner-email" (Register.bad_email (d !! "owner_email"))
                   "Valid email is required"
        /\ written "owner-phone" (Register.blank (d !! "owner_phone"))
                   "Phone number is required"
        /\ written "username"
                   (Register.blank (d !! "username")
                    || (length_of "username" <? 3)%nat)
                   (if Register.blank (d !! "username")
                    then "Username is required"
                    else "Username must be at least 3 characters")
        /\ written "password"
                   (Register.missing (d !! "password")
                    || (length_of "password" <? 6)%nat)
                   (if Register.missing (d !! "password")
                    then "Password is required"
                    else "Password must be at least 6 characters")
        /\ (forall k,
              k ∉ ["error-school-name"; "error-school-type";
                   "error-school-address"; "error-county-city";
                   "error-school-contact"; "error-school-email";
                   "error-school-website"; "error-owner-name";
                   "error-position"; "error-owner-email";
                   "error-owner-phone"; "error-username";
                   "error-password"] ->
              out !! k = before !! k)).
Proof.
  split; intros d errs; cbv beta zeta.
  - unfold SuperAdmin.validateCollegeForm.
    repeat match goal with
           | |- _ /\ _ => split
           end.
    1-6: erewrite (run_rules_lookup d SuperAdmin.college_rules errs _ _
                     college_rules_NoDup); [|rule_here];
      unfold fails_when, SuperAdmin.blank; cbv beta;
      match goal with |- context [if ?b then Some _ else None] =>
        by destruct b end.
    intros k Hk. apply run_rules_other. not_a_rule Hk.
  - unfold Register.validateForm.
    repeat match goal with
           | |- _ /\ _ => split
           end.
    1-13: erewrite (run_rules_lookup d (Register.form_rules URL_parses) _ _ _
                      (form_rules_NoDup URL_parses)); [|rule_here];
      unfold fails_when; cbv beta.
    1-11: match goal with |- context [if ?b then Some _ else None] =>
            by destruct b end.
    + destruct (Register.blank (d !! "username")); [done|].
      by destruct (_ <? _)%nat.
    + destruct (Register.missing (d !! "password")); [done|].
      by destruct (_ <? _)%nat.
    + intros k Hk. apply run_rules_other. not_a_rule Hk.
Qed.

(** ** Submit handlers *)

Section SubmitHandlers.
Context {json : Type}.
Variable JSON_parse : string -> exn + json.
Variable rejection : json -> exn.
Variable json_truthy : json -> bool.
Variable URL_parses : string -> bool.
Variable read_result : json -> exn + Register.verdict.
Variable env : browser.
Variable net : answer.

(** What a call of the super-admin client leaves in the effects. *)
Lemma superadmin_apiCall_run endpoint method :
  let run := SuperAdmin.apiCall JSON_parse rejection env endpoint method net in
  reloads (effects run) = []
  /\ match Common.csrf_token env with
     | inl e => run = ([], inl e)
     | inr _ => length (requests (effects run)) = 1%nat
     end
  /\ (forall msg, (ToastSuccess, msg) ∉ toasts (effects run))
  /\ (forall v, outcome run = inr v -> toasts (effects run) = []).
Proof.
  cbv zeta. unfold SuperAdmin.apiCall.
  destruct (Common.csrf_token env) as [e|token].
  { repeat split; try done. intros msg Hin. by apply elem_of_nil in Hin. }
  api_cases.
  all: repeat split; try reflexivity; try discriminate.
  all: intros msg Hin; repeat (apply elem_of_cons in Hin as [Hin|Hin];
                               [discriminate Hin|]).
  all: by apply elem_of_nil in Hin.
Qed.

(** X7.  A college form that passes validation is handed to the API
    client and the submit button is put back at the end, whatever
    happens.  When the read of the CSRF token throws, no request leaves
    and the handler only logs the exception; otherwise exactly one
    request is sent.  The handler then either succeeds as a whole (one
    success toast, the modal closed and its form reset, the colleges table
    and the dashboard reloaded) or changes nothing the user sees: no
    success toast, no reload, the modal as it was and the form still
    holding the data. *)
Theorem college_submit_all_or_nothing (p : SuperAdmin.college_page) :
  fst (SuperAdmin.validateCollegeForm (SuperAdmin.form p)
         (SuperAdmin.errors (SuperAdmin.clearFormErrors p))) = true ->
  let done := SuperAdmin.handleCollegeSubmit JSON_parse rejection json_truthy
                env net p in
  SuperAdmin.submit (fst done) = SuperAdmin.SubmitButton false "inline" true
  /\ match Common.csrf_token env with
     | inl e => snd done = [ConsoleError e]
     | inr _ => length (requests (snd done)) = 1%nat
     end
  /\ ((reloads (snd done) = ["loadColleges"; "loadDashboardData"]
       /\ (exists msg, toasts (snd done) = [(ToastSuccess, msg)])
       /\ SuperAdmin.modal_active (fst done) = false
       /\ SuperAdmin.form (fst done) = SuperAdmin.form_defaults p)
      \/ (reloads (snd done) = []
          /\ (forall msg, (ToastSuccess, msg) ∉ toasts (snd done))
          /\ SuperAdmin.modal_active (fst done) = SuperAdmin.modal_active p
          /\ SuperAdmin.form (fst done) = SuperAdmin.form p)).
Proof.
  intros Hvalid done. subst done. unfold SuperAdmin.handleCollegeSubmit.
  change (SuperAdmin.form (SuperAdmin.clearFormErrors p))
    with (SuperAdmin.form p).
  destruct (SuperAdmin.validateCollegeForm _ _) as [isValid errs].
  cbn [fst] in Hvalid. subst isValid. cbn [negb].
  cbn [SuperAdmin.collegeId SuperAdmin.set_submit SuperAdmin.set_errors
       SuperAdmin.clearFormErrors].
  set (call := match SuperAdmin.collegeId p with
               | Some id => if Js.truthy id then _ else _
               | None => _
               end).
  assert (Hcall : exists endpoint method,
            call = SuperAdmin.apiCall JSON_parse rejection env endpoint method
                     net).
  { subst call. destruct (SuperAdmin.collegeId p) as [id|]; [|by eexists _, _].
    destruct (Js.truthy id); by eexists _, _. }
  destruct Hcall as (endpoint & method & ->).
  destruct (superadmin_apiCall_run endpoint method)
    as (Hreload & Hreq & Hnosuccess & Hreturned).
  destruct (Common.csrf_token env) as [e|token].
  { rewrite Hreq. cbn [fst snd app]. split; [done|]. split; [done|].
    right. repeat split. intros msg Hin. by apply elem_of_nil in Hin. }
  destruct (SuperAdmin.apiCall _ _ _ _ _ _) as [fx [error | v]].
  all: cbn [effects outcome fst snd] in *.
  - rewrite requests_app, reloads_app, toasts_app, Hreload.
    cbn [requests reloads toasts]. rewrite !app_nil_r.
    repeat split; [done|]. right. by repeat split.
  - destruct (SuperAdmin.value_truthy json_truthy v).
    + cbn [fst snd].
      rewrite requests_app, reloads_app, toasts_app, Hreload,
        (Hreturned v eq_refl).
      cbn [requests reloads toasts app]. rewrite app_nil_r.
      repeat split; [done|]. left. repeat split. by eexists.
    + cbn [fst snd]. repeat split; [done|]. right. by repeat split.
Qed.

(** X8.  The submit listener of the registration page shows exactly one
    toast on every path.  It is the success toast exactly when the form has
    been reset and the delayed move to the login page has been scheduled;
    otherwise the inputs keep what the user typed and no navigation is
    scheduled.  At most one request is sent. *)
Theorem registration_submit_one_toast (p : Register.page) :
  let done := Register.on_submit URL_parses JSON_parse read_result net p in
  (length (requests (snd done)) <= 1)%nat
  /\ exists type msg,
       toasts (snd done) = [(type, msg)]
       /\ (type = ToastSuccess ->
           values (Register.form (fst done)) = defaults (Register.form p)
           /\ NavigateAfter 2000 login_url ∈ snd done)
       /\ (type <> ToastSuccess ->
           Register.form (fst done) = Register.form p
           /\ forall ms url, NavigateAfter ms url ∉ snd done).
Proof.
  cbv zeta. unfold Register.on_submit.
  destruct (Register.validateForm _ _ _) as [[] errs]; cbn [negb].
  2:{ cbn [fst snd requests toasts length]. split; [lia|].
      eexists _, _. split; [reflexivity|]. split; [done|]. intros _.
      split; [done|]. intros ms url Hin.
      apply elem_of_cons in Hin as [Hin|Hin]; [done|].
      by apply elem_of_nil in Hin. }
  destruct net as [e | r]; api_simpl.
  { cbn [fst snd requests toasts length Register.form]. split; [lia|].
    eexists _, _. split; [reflexivity|]. split; [done|]. intros _.
    split; [done|]. intros ms url Hin.
    repeat (apply elem_of_cons in Hin as [Hin|Hin]; [done|]).
    by apply elem_of_nil in Hin. }
  destruct (JSON_parse (text r)) as [e | result]; api_simpl.
  { cbn [fst snd requests toasts length Register.form]. split; [lia|].
    eexists _, _. split; [reflexivity|]. split; [done|]. intros _.
    split; [done|]. intros ms url Hin.
    repeat (apply elem_of_cons in Hin as [Hin|Hin]; [done|]).
    by apply elem_of_nil in Hin. }
  destruct (read_result result) as [e | v]; api_simpl.
  { cbn [fst snd requests toasts length Register.form]. split; [lia|].
    eexists _, _. split; [reflexivity|]. split; [done|]. intros _.
    split; [done|]. intros ms url Hin.
    repeat (apply elem_of_cons in Hin as [Hin|Hin]; [done|]).
    by apply elem_of_nil in Hin. }
  destruct (ok r && Register.success v).
  - cbn [fst snd requests toasts length Register.form app]. split; [lia|].
    eexists _, _. split; [reflexivity|]. split; [|done]. intros _.
    split; [done|]. do 3 apply list_elem_of_further. apply list_elem_of_here.
  - cbn [fst snd requests toasts length Register.form app]. split; [lia|].
    eexists _, _. split; [reflexivity|]. split; [done|]. intros _.
    split; [done|]. intros ms url Hin.
    repeat (apply elem_of_cons in Hin as [Hin|Hin]; [done|]).
    by apply elem_of_nil in Hin.
Qed.
End SubmitHandlers.

Lemma college_submit_all_or_nothing_witness :
  reloads (snd (SuperAdmin.handleCollegeSubmit Sample.JSON_parse
                  Sample.rejection Sample.json_truthy Sample.with_token
                  (Responded Sample.forbidden_html)
                  (Sample.college_page Sample.filled_form))) = []
  /\ SuperAdmin.form
       (fst (SuperAdmin.handleCollegeSubmit Sample.JSON_parse
               Sample.rejection Sample.json_truthy Sample.with_token
               (Responded Sample.forbidden_html)
               (Sample.college_page Sample.filled_form)))
     = Sample.filled_form.
Proof.
  destruct (college_submit_all_or_nothing Sample.JSON_parse Sample.rejection
              Sample.json_truthy Sample.with_token
              (Responded Sample.forbidden_html)
              (Sample.college_page Sample.filled_form) eq_refl)
    as (_ & _ & [(Hr & _) | (Hr & _ & _ & Hf)]).
  - vm_compute in Hr. discriminate Hr.
  - split; [exact Hr | exact Hf].
Defined.

(** ** The e-mail test *)

Lemma split_nonempty sep s : Js.split sep s <> [].
Proof.
  destruct s as [|c t]; [done|]. cbn [Js.split].
  destruct (Ascii.eqb c sep); [done|]. by destruct (Js.split sep t).
Qed.

Lemma split_one sep s h : Js.split sep s = [h] -> s = h.
Proof.
  revert h. induction s as [|c t IH]; intros h; cbn [Js.split].
  { by intros [= <-]. }
  destruct (Ascii.eqb c sep).
  { intros [= _ H]. by apply split_nonempty in H. }
  destruct (Js.split sep t) as [|h0 r] eqn:E;
    [by apply split_nonempty in E|].
  intros [= <- ->]. by rewrite (IH h0 eq_refl).
Qed.

Lemma split_two sep s u h :
  Js.split sep s = [u; h] -> s = u +:+ String sep h.
Proof.
  revert u. induction s as [|c t IH]; intros u; cbn [Js.split]; [done|].
  destruct (Ascii.eqb_spec c sep) as [-> | Hc].
  { intros [= <- H]. by rewrite (split_one _ _ _ H). }
  destruct (Js.split sep t) as [|h0 r] eqn:E;
    [by apply split_nonempty in E|].
  intros [= <- ->]. by rewrite (IH h0 eq_refl).
Qed.

Lemma all_plain_app a b :
  Js.all_plain (a +:+ b) = Js.all_plain a && Js.all_plain b.
Proof.
  induction a as [|c a IH]; [done|].
  rewrite append_cons. cbn [Js.all_plain]. by rewrite IH, andb_assoc.
Qed.

Lemma plain_not_at c : Js.plain c = true -> Ascii.eqb c "@" = false.
Proof.
  unfold Js.plain. intros [_ H]%andb_true_iff. by apply negb_true_iff.
Qed.

Lemma split_at_plain s : Js.all_plain s = true -> Js.split "@" s = [s].
Proof.
  induction s as [|c t IH]; [done|]. cbn [Js.all_plain Js.split].
  intros [Hc Ht]%andb_true_iff. by rewrite (plain_not_at _ Hc), (IH Ht).
Qed.

Lemma split_at_app u h :
  Js.all_plain u = true ->
  Js.split "@" (u +:+ String "@" h) = u :: Js.split "@" h.
Proof.
  induction u as [|c t IH]; [done|]. cbn [Js.all_plain].
  intros [Hc Ht]%andb_true_iff. rewrite append_cons. cbn [Js.split].
  by rewrite (plain_not_at _ Hc), (IH Ht).
Qed.

Lemma dot_before_end_split s :
  Js.dot_before_end s = true ->
  exists a b, s = a +:+ String "." b /\ b <> "".
Proof.
  induction s as [|c t IH]; [done|]. cbn [Js.dot_before_end].
  destruct t as [|c' t']; [done|].
  intros [Hc | Ht]%orb_true_iff.
  - apply Ascii.eqb_eq in Hc as ->. by exists "", (String c' t').
  - destruct (IH Ht) as (a & b & -> & Hb). by exists (String c a), b.
Qed.

Lemma dot_before_end_app a b :
  b <> "" -> Js.dot_before_end (a +:+ String "." b) = true.
Proof.
  intros Hb. induction a as [|c a IH].
  - destruct b; [done|]. reflexivity.
  - rewrite append_cons. cbn [Js.dot_before_end].
    destruct (a +:+ String "." b) eqn:E.
    + by destruct a.
    + by rewrite IH, orb_true_r.
Qed.

(** X9.  [isValidEmail] accepts exactly the strings of the form
    [user@a.b] in which [user], [a] and [b] are non-empty and hold neither
    white space nor [@]: an address without a dot after the host's first
    character, with two [@] or with a space anywhere is rejected. *)
Theorem isValidEmail_shape (email : string) :
  Js.isValidEmail email = true
  <-> exists user a b,
        email = user +:+ "@" +:+ a +:+ "." +:+ b
        /\ user <> "" /\ a <> "" /\ b <> ""
        /\ Js.all_plain user = true /\ Js.all_plain a = true
        /\ Js.all_plain b = true.
Proof.
  unfold Js.isValidEmail. split.
  - destruct (Js.split "@" email) as [|user [|host [|]]] eqn:E; try done.
    intros H. apply andb_true_iff in H as [H Hdot].
    apply andb_true_iff in H as [H Hhost].
    apply andb_true_iff in H as [Huser Hplain].
    apply split_two in E as ->.
    destruct host as [|x rest]; [done|]. cbn [Js.slice1] in Hdot.
    apply dot_before_end_split in Hdot as (a & b & -> & Hb).
    change (String x (a +:+ String "." b))
      with (String x a +:+ String "." b) in Hhost |- *.
    rewrite all_plain_app in Hhost. apply andb_true_iff in Hhost as [Ha Hb'].
    cbn [Js.all_plain] in Hb'. apply andb_true_iff in Hb' as [_ Hb'].
    exists user, (String x a), b. repeat split; try done.
    by destruct user.
  - intros (user & a & b & -> & Huser & Ha & Hb & Hpu & Hpa & Hpb).
    change ("@" +:+ a +:+ "." +:+ b) with (String "@" (a +:+ String "." b)).
    assert (Hhost : Js.all_plain (a +:+ String "." b) = true).
    { rewrite all_plain_app, Hpa. cbn [Js.all_plain]. by rewrite Hpb. }
    rewrite (split_at_app _ _ Hpu), (split_at_plain _ Hhost), Hpu, Hhost.
    destruct a as [|x a]; [done|]. rewrite append_cons. cbn [Js.slice1].
    rewrite (dot_before_end_app _ _ Hb). by destruct user.
Qed.

(** ** The shared endpoint builder *)

Lemma includes_question_app a b :
  Js.includes (a +:+ b) "?" = Js.includes a "?" || Js.includes b "?".
Proof.
  induction a as [|c a IH].
  - change ("" +:+ b) with b. by destruct (Js.includes b "?").
  - rewrite append_cons, !includes_question_cons, IH. by rewrite orb_assoc.
Qed.

Lemma buildApiEndpoint_plain slug path :
  Js.includes path "?" = false ->
  Common.buildApiEndpoint slug path = api_root slug +:+ Common.path_segment path.
Proof.
  intros Hpath.
  assert (Hclean : Js.includes
            (if Js.startsWith path "/" then Js.slice1 path else path) "?" = false).
  { destruct (Js.startsWith path "/"); [by apply includes_slice1|done]. }
  unfold Common.buildApiEndpoint, Common.path_segment, api_root.
  set (p := if Js.startsWith path "/" then Js.slice1 path else path) in *.
  rewrite Hclean.
  destruct (Js.truthy (Common.getCollegeSlug slug)), (Js.endsWith p "/");
    cbn [negb]; by rewrite ?append_empty_r, ?append_assoc.
Qed.

Lemma buildApiEndpoint_query slug path query :
  Js.includes path "?" = false ->
  Common.buildApiEndpoint slug (path +:+ "?" +:+ query)
  = api_root slug +:+ Common.path_segment path
    +:+ "?" +:+ Js.part (Js.split "?" query) 0.
Proof.
  intros Hpath.
  assert (Hclean : Js.includes
            (if Js.startsWith path "/" then Js.slice1 path else path) "?" = false).
  { destruct (Js.startsWith path "/"); [by apply includes_slice1|done]. }
  unfold Common.buildApiEndpoint, Common.path_segment, api_root.
  rewrite (strip_leading_slash path query Hpath).
  set (p := if Js.startsWith path "/" then Js.slice1 path else path) in *.
  rewrite includes_query, (split_query _ query Hclean).
  unfold Js.part. cbn [nth].
  destruct (Js.truthy (Common.getCollegeSlug slug)), (Js.endsWith p "/");
    cbn [negb]; by rewrite ?append_assoc.
Qed.

(** X10.  The shared endpoint builder keeps of the query string only what
    stands before a second [?]: an endpoint [path?query?rest] gives the
    URL of [path?query], whatever [rest] is. *)
Theorem buildApiEndpoint_drops_after_second_question_mark
    (slug : option string) (path query rest : string) :
  Js.includes path "?" = false ->
  Js.includes query "?" = false ->
  Common.buildApiEndpoint slug (path +:+ "?" +:+ query +:+ "?" +:+ rest)
  = Common.buildApiEndpoint slug (path +:+ "?" +:+ query).
Proof.
  intros Hpath Hquery.
  rewrite !(buildApiEndpoint_query slug path _ Hpath).
  by rewrite (split_query query rest Hquery), (split_plain query Hquery).
Qed.

Lemma buildApiEndpoint_drops_after_second_question_mark_witness :
  Common.buildApiEndpoint (Some "nairobi-tech") "students?page=2?debug=1"
  = Common.buildApiEndpoint (Some "nairobi-tech") "students?page=2".
Proof.
  exact (buildApiEndpoint_drops_after_second_question_mark
           (Some "nairobi-tech") "students" "page=2" "debug=1"
           eq_refl eq_refl).
Defined.

Lemma endsWith_cons c t :
  t <> "" -> Js.endsWith (String c t) "/" = Js.endsWith t "/".
Proof. by destruct t. Qed.

Lemma path_segment_leading path :
  Js.startsWith path "/" = false ->
  Common.path_segment ("/" +:+ path) = Common.path_segment path.
Proof.
  intros H. unfold Common.path_segment. rewrite H.
  change ("/" +:+ path) with (String "/" path).
  by rewrite startsWith_slash_cons.
Qed.

Lemma path_segment_trailing path :
  Js.startsWith path "/" = false ->
  Js.endsWith path "/" = false ->
  Common.path_segment (path +:+ "/") = Common.path_segment path.
Proof.
  intros Hs He. unfold Common.path_segment. rewrite Hs.
  destruct path as [|c t]; [done|].
  rewrite append_cons, startsWith_slash_cons.
  rewrite startsWith_slash_cons in Hs.
  destruct (ascii_dec "/" c); [done|].
  rewrite <- append_cons. by rewrite endsWith_add_slash, He.
Qed.

(** X11.  A leading slash and a trailing slash on the path of an endpoint
    make no difference to the URL the shared builder returns: [path],
    [/path], [path/] and [/path/] give one URL, and so do [path?query] and
    [/path/?query]. *)
Theorem buildApiEndpoint_ignores_outer_slashes
    (slug : option string) (path query : string) :
  Js.includes path "?" = false ->
  Js.startsWith path "/" = false ->
  Js.endsWith path "/" = false ->
  Common.buildApiEndpoint slug ("/" +:+ path)
  = Common.buildApiEndpoint slug path
  /\ Common.buildApiEndpoint slug (path +:+ "/")
     = Common.buildApiEndpoint slug path
  /\ Common.buildApiEndpoint slug ("/" +:+ path +:+ "/")
     = Common.buildApiEndpoint slug path
  /\ Common.buildApiEndpoint slug (("/" +:+ path +:+ "/") +:+ "?" +:+ query)
     = Common.buildApiEndpoint slug (path +:+ "?" +:+ query).
Proof.
  intros Hq Hs He.
  assert (Hq1 : Js.includes ("/" +:+ path) "?" = false).
  { by rewrite includes_question_app, Hq. }
  assert (Hq2 : Js.includes (path +:+ "/") "?" = false).
  { by rewrite includes_question_app, Hq. }
  assert (Hq3 : Js.includes ("/" +:+ path +:+ "/") "?" = false).
  { by rewrite includes_question_app, Hq2. }
  assert (Hs2 : Js.startsWith (path +:+ "/") "/" = false
                \/ path = "").
  { destruct path as [|c t]; [by right|left].
    rewrite append_cons, startsWith_slash_cons.
    rewrite startsWith_slash_cons in Hs. exact Hs. }
  assert (H3 : Common.path_segment ("/" +:+ path +:+ "/")
               = Common.path_segment path).
  { destruct Hs2 as [Hs2 | ->]; [|done].
    by rewrite (path_segment_leading _ Hs2), (path_segment_trailing _ Hs He). }
  rewrite !buildApiEndpoint_plain by done.
  rewrite !buildApiEndpoint_query by done.
  rewrite H3, (path_segment_leading _ Hs), (path_segment_trailing _ Hs He).
  done.
Qed.

Lemma buildApiEndpoint_ignores_outer_slashes_witness :
  Common.buildApiEndpoint (Some "nairobi-tech") "/students/"
  = Common.buildApiEndpoint (Some "nairobi-tech") "students".
Proof.
  exact (proj1 (proj2 (proj2 (buildApiEndpoint_ignores_outer_slashes
                                (Some "nairobi-tech") "students" ""
                                eq_refl eq_refl eq_refl)))).
Defined.

(** ** The shared pagination and its click handler *)

Lemma elem_of_pagination_html c p N :
  c ∈ Common.pagination_html p N ->
  c = NavButton ChevronLeft (p =? 1) (p - 1)
  \/ (exists i, 1 <= i <= N /\ c ∈ Common.page_controls p N i)
  \/ c = NavButton ChevronRight (p =? N) (p + 1).
Proof.
  unfold Common.pagination_html.
  rewrite !elem_of_app, !list_elem_of_singleton, list_elem_of_bind.
  intros [H | [(i & Hc & Hi) | H]]; [by left| |by right; right].
  right; left. exists i. split; [by apply elem_of_pages|done].
Qed.

(** X12.  What the shared [renderPagination] draws agrees with the guard
    of the [goToPage] it installs: for a current page within
    [1..totalPages], a click on any numbered button or on an enabled
    Previous/Next button passes the guard and reaches [onPageChange], and
    the Previous/Next button is disabled exactly when its target would be
    turned down. *)
Theorem pagination_controls_agree_with_guard {S : Type}
    (onPageChange : Z -> S -> S) (currentPage totalPages : Z) (c : control) :
  1 <= currentPage <= totalPages ->
  c ∈ Common.pagination_html currentPage totalPages ->
  match c with
  | PageButton _ page | NavButton _ false page =>
      forall st, Common.goToPage_handler totalPages onPageChange page st
                 = onPageChange page st
  | NavButton _ true page =>
      forall st, Common.goToPage_handler totalPages onPageChange page st = st
  | Ellipsis => True
  end.
Proof.
  intros Hp Hc. unfold Common.goToPage_handler.
  apply elem_of_pagination_html in Hc as [-> | [(i & Hi & Hc) | ->]].
  - destruct (Z.eqb_spec currentPage 1) as [-> | Hne]; intros st.
    + reflexivity.
    + destruct (Z.leb_spec 1 (currentPage - 1)); [|lia].
      destruct (Z.leb_spec (currentPage - 1) totalPages); [done|lia].
  - unfold Common.page_controls in Hc.
    destruct (_ || _ || _).
    + apply list_elem_of_singleton in Hc as ->. intros st.
      destruct (Z.leb_spec 1 i); [|lia].
      destruct (Z.leb_spec i totalPages); [done|lia].
    + destruct (_ || _).
      * by apply list_elem_of_singleton in Hc as ->.
      * by apply elem_of_nil in Hc.
  - destruct (Z.eqb_spec currentPage totalPages) as [-> | Hne]; intros st.
    + destruct (Z.leb_spec 1 (totalPages + 1)); [|lia].
      destruct (Z.leb_spec (totalPages + 1) totalPages); [lia|done].
    + destruct (Z.leb_spec 1 (currentPage + 1)); [|lia].
      destruct (Z.leb_spec (currentPage + 1) totalPages); [done|lia].
Qed.

Lemma pagination_controls_agree_with_guard_witness :
  Common.goToPage_handler 3 (fun page _ => page) 4 3 = 3.
Proof.
  exact (pagination_controls_agree_with_guard (fun page _ => page) 3 3
           (NavButton ChevronRight true 4) ltac:(lia)
           ltac:(vm_compute; do 4 apply list_elem_of_further;
                 apply list_elem_of_here) 3).
Defined.

Lemma seqZ_sorted (k : nat) a n :
  Z.to_nat n = k -> StronglySorted Z.lt (seqZ a n).
Proof.
  revert a n. induction k as [|k IH]; intros a n Hk.
  - rewrite seqZ_nil by lia. constructor.
  - rewrite seqZ_cons by lia. apply StronglySorted_cons. split.
    + apply Forall_forall. intros x Hx. apply elem_of_seqZ in Hx. lia.
    + apply IH. lia.
Qed.

Lemma pages_sorted a b : StronglySorted Z.lt (pages a b).
Proof. unfold pages. by eapply seqZ_sorted. Qed.

Lemma active_pages_bind {A} (l : list A) (f : A -> list control) :
  active_pages (l ≫= f) = l ≫= (fun i => active_pages (f i)).
Proof.
  unfold active_pages. induction l as [|x l IH]; [done|].
  by rewrite !bind_cons, bind_app, IH.
Qed.

Lemma active_pages_app a b :
  active_pages (a ++ b) = active_pages a ++ active_pages b.
Proof. unfold active_pages. apply bind_app. Qed.

Lemma active_pages_nav ch d t : active_pages [NavButton ch d t] = [].
Proof. reflexivity. Qed.

Lemma bind_pages_current a b p :
  pages a b ≫= (fun i => if i =? p then [i] else [])
  = if (a <=? p) && (p <=? b) then [p] else [].
Proof.
  destruct (Z.leb_spec a p) as [Ha | Ha]; cbn [andb].
  2:{ apply bind_pages_nil. intros i Hi.
      destruct (Z.eqb_spec i p); [lia|done]. }
  destruct (Z.leb_spec p b) as [Hb | Hb].
  2:{ apply bind_pages_nil. intros i Hi.
      destruct (Z.eqb_spec i p); [lia|done]. }
  rewrite (pages_split a (p - 1) b) by lia.
  replace (p - 1 + 1) with p by lia.
  rewrite (pages_split p p b) by lia. rewrite pages_one.
  rewrite !bind_app, bind_singleton, Z.eqb_refl.
  rewrite !bind_pages_nil.
  - done.
  - intros i Hi. destruct (Z.eqb_spec i p); [lia|done].
  - intros i Hi. destruct (Z.eqb_spec i p); [lia|done].
Qed.

Lemma active_page_controls p N i :
  active_pages (Common.page_controls p N i) = if i =? p then [i] else [].
Proof.
  unfold Common.page_controls.
  destruct (Z.eqb_spec i p) as [-> | Hne].
  - replace ((p - 2 <=? p) && (p <=? p + 2)) with true
      by (symmetry; apply andb_true_iff; split; apply Z.leb_le; lia).
    rewrite orb_true_r. cbv iota. unfold active_pages.
    by rewrite bind_singleton.
  - destruct (_ || _ || _).
    + unfold active_pages. rewrite bind_singleton.
      by destruct (Z.eqb_spec i p).
    + by destruct (_ || _).
Qed.

(** X13.  With the current page within [1..totalPages], the numbered
    buttons of the shared renderer and of the colleges table come in
    strictly increasing order, so no page is offered twice, and exactly
    one button is marked active: the one of the current page. *)
Theorem pagination_one_active_button_in_order (currentPage totalPages : Z) :
  1 <= currentPage <= totalPages ->
  StronglySorted Z.lt (numbered (Common.pagination_html currentPage totalPages))
  /\ active_pages (Common.pagination_html currentPage totalPages)
     = [currentPage]
  /\ StronglySorted Z.lt
       (numbered (SuperAdmin.pagination_html currentPage totalPages))
  /\ active_pages (SuperAdmin.pagination_html currentPage totalPages)
     = [currentPage].
Proof.
  intros Hp. repeat split.
  - rewrite numbered_pagination by done.
    unfold Common.window_lo, Common.window_hi.
    apply StronglySorted_app_2; [|repeat constructor|].
    + intros x1 x2 ->%list_elem_of_singleton Hx.
      apply elem_of_app in Hx as [Hx | Hx].
      * apply elem_of_pages in Hx. lia.
      * destruct (Z.ltb_spec 1 totalPages); [|by apply elem_of_nil in Hx].
        apply list_elem_of_singleton in Hx. lia.
    + apply StronglySorted_app_2; [|apply pages_sorted|].
      * intros x1 x2 Hx1 Hx2. apply elem_of_pages in Hx1.
        destruct (1 <? totalPages); [|by apply elem_of_nil in Hx2].
        apply list_elem_of_singleton in Hx2. lia.
      * destruct (1 <? totalPages); repeat constructor.
  - unfold Common.pagination_html.
    rewrite !active_pages_app, !active_pages_nav, app_nil_r. cbn [app].
    rewrite active_pages_bind.
    rewrite (bind_pages_ext _ (fun i => if i =? currentPage then [i] else []))
      by (intros; apply active_page_controls).
    rewrite bind_pages_current.
    destruct (Z.leb_spec 1 currentPage); [|lia].
    destruct (Z.leb_spec currentPage totalPages); [done|lia].
  - rewrite numbered_superadmin. apply pages_sorted.
  - unfold SuperAdmin.pagination_html.
    assert (H : forall l, active_pages
                  ((fun i => PageButton (i =? currentPage) i) <$> l)
                = l ≫= (fun i => if i =? currentPage then [i] else [])).
    { induction l as [|x l IH]; [done|]. rewrite fmap_cons, bind_cons.
      rewrite <- IH. unfold active_pages. rewrite bind_cons.
      by destruct (x =? currentPage). }
    rewrite H, bind_pages_current.
    destruct (Z.leb_spec 1 currentPage); [|lia].
    destruct (Z.leb_spec currentPage totalPages); [done|lia].
Qed.

Lemma pagination_one_active_button_in_order_witness :
  active_pages (Common.pagination_html 5 12) = [5].
Proof.
  exact (proj1 (proj2 (pagination_one_active_button_in_order 5 12
                         ltac:(lia)))).
Defined.

(** ** The loading state of the results table *)

Section ResultsLoading.
Context {json : Type}.
Variable JSON_parse : string -> exn + json.
Variable rejection : json -> exn.
Variable query_string : list (string * string) -> string.
Variable envelope : json -> option (list json * Z * Z).

Lemma fetchResults_settle_settled caught call (st : @Landing.landing json) :
  let st' := Landing.fetchResults_settle envelope caught call st in
  Landing.loading (Landing.results st') = false
  /\ Landing.isFetchingResults st' = false
  /\ Landing.results_tbody st' <> Some Landing.LoadingRow.
Proof.
  cbv zeta. unfold Landing.fetchResults_settle.
  destruct (outcome call) as [e|v].
  - unfold Landing.fetchResults_failed.
    cbn [Landing.results Landing.loading Landing.isFetchingResults
         Landing.results_tbody].
    repeat split. by destruct (Landing.results_tbody st).
  - unfold Landing.fetchResults_done, Landing.renderResultsTable.
    destruct (match v with Data d => envelope d | _ => None end)
      as [[[rows page] pages]|].
    all: cbn [Landing.results Landing.loading Landing.isFetchingResults
              Landing.results_tbody].
    all: repeat split.
    + destruct (Landing.results_tbody st); [|done]. by destruct rows.
    + by destruct (Landing.results_tbody st).
Qed.

Lemma fetchResults_loading (st : @Landing.landing json) env page search f :
  Landing.loading (Landing.results st) = Landing.isFetchingResults st ->
  let st' := Landing.fetchResults query_string envelope env page search f st in
  Landing.loading (Landing.results st') = Landing.isFetchingResults st'.
Proof.
  intros H. cbv zeta. unfold Landing.fetchResults.
  destruct (Landing.results_tab st) as [[|]|]; [|done..].
  destruct (Landing.isFetchingResults st) eqn:Hflag; [by rewrite Hflag|].
  cbv zeta.
  destruct (Common.csrf_token env) as [e|token];
    [|destruct (Landing.buildApiEndpoint _ _) as [e|url]; [|done]].
  all: match goal with
       | |- context [Landing.fetchResults_settle envelope ?c ?call ?s] =>
           by destruct (fetchResults_settle_settled c call s) as (-> & -> & _)
       end.
Qed.

Lemma fetchResults_resume_settled (st : @Landing.landing json) env net :
  Landing.in_flight st <> [] ->
  let st' := Landing.fetchResults_resume JSON_parse rejection envelope env
               net st in
  Landing.loading (Landing.results st') = false
  /\ Landing.isFetchingResults st' = false
  /\ Landing.results_tbody st' <> Some Landing.LoadingRow.
Proof.
  intros Hsome. cbv zeta. unfold Landing.fetchResults_resume.
  destruct (Landing.in_flight st) as [|url rest]; [done|].
  apply fetchResults_settle_settled.
Qed.

(** X14.  On every state the landing page can reach, [state.results.loading]
    and the flag [isFetchingResults] hold the same value; and once an
    answer has been handled (a response of any kind, or a failure) both
    are down and the table body no longer shows the loading row, although
    [hideLoadingState] itself does nothing. *)
Theorem results_loading_follows_flag (st : @Landing.landing json) :
  Landing.reachable JSON_parse rejection query_string envelope st ->
  Landing.loading (Landing.results st) = Landing.isFetchingResults st
  /\ (forall env net,
        Landing.in_flight st <> [] ->
        let st' := Landing.fetchResults_resume JSON_parse rejection envelope
                     env net st in
        Landing.loading (Landing.results st') = false
        /\ Landing.isFetchingResults st' = false
        /\ Landing.results_tbody st' <> Some Landing.LoadingRow).
Proof.
  intros Hreach. split; [|intros env net; apply fetchResults_resume_settled].
  induction Hreach as [slug tab tbody container | st st' _ IH Hstep]; [done|].
  destruct Hstep as [env page search f st | env net st Hsome | shown st].
  - by apply fetchResults_loading.
  - destruct (fetchResults_resume_settled st env net Hsome) as (-> & -> & _).
    done.
  - exact IH.
Qed.
End ResultsLoading.

Lemma results_loading_follows_flag_witness :
  Landing.results_tbody Sample.landing_busy = Some Landing.LoadingRow
  /\ Landing.results_tbody
       (Landing.fetchResults_resume Sample.JSON_parse Sample.rejection
          Sample.envelope Sample.with_token (Responded Sample.ok_empty)
          Sample.landing_busy)
     <> Some Landing.LoadingRow.
Proof.
  split; [reflexivity|].
  refine (proj2 (proj2 (proj2 (results_loading_follows_flag Sample.JSON_parse
                                 Sample.rejection Sample.query_string
                                 Sample.envelope Sample.landing_busy _)
                          Sample.with_token (Responded Sample.ok_empty) _))).
  - eapply Landing.reach_step; [apply Landing.reach_initial|].
    apply Landing.step_fetch.
  - discriminate.
Defined.

(** ** Keystrokes a window apart *)

Section SpacedCollegeSearch.
Variable query_string : list (string * string) -> string.
Variables (status type : string).

Local Abbreviation delay := CollegeSearch.search_delay.
Local Abbreviation college_armed :=
  (fun id nid t page v log =>
     CollegeSearch.armed id nid t page v status type log).
Local Abbreviation college_fetch :=
  (fun ev : nat * string =>
     ((fst ev + delay)%nat,
      CollegeSearch.colleges_url query_string 1 status type (snd ev))).


End SpacedCollegeSearch.

Section SpacedAnnouncements.
Variable query_string : list (string * string) -> string.
Variable wait : nat.
Variables (target priority status : string) (slug : option string).

Local Abbreviation ann_armed :=
  (fun id nid t page v log =>
     Announcements.armed wait id nid t page v target priority status slug log).
Local Abbreviation ann_event :=
  (Timers.input_event Announcements.clock Announcements.with_clock
     (Announcements.run query_string) (Announcements.on_input_after wait)).
Local Abbreviation ann_fetch :=
  (fun (page : Z) (ev : nat * string) =>
     ((fst ev + wait)%nat,
      Announcements.announcements_url query_string
        (Announcements.loaded 0 page (snd ev) target priority status slug))).


End SpacedAnnouncements.




(** ** Pagers with Previous and Next only *)

Lemma elem_of_pager_targets t (prev : bool) (next : bool) c n a b :
  t ∈ pager_targets ((if prev then [PreviousButton a] else [])
                     ++ [PageInfo c n]
                     ++ (if next then [NextButton b] else [])) ->
  (prev = true /\ t = a) \/ (next = true /\ t = b).
Proof.
  unfold pager_targets. rewrite !bind_app, !elem_of_app.
  intros [H | [H | H]].
  - destruct prev; [|by apply elem_of_nil in H].
    left. split; [done|]. rewrite bind_singleton in H.
    by apply list_elem_of_singleton in H.
  - by apply elem_of_nil in H.
  - destruct next; [|by apply elem_of_nil in H].
    right. split; [done|]. rewrite bind_singleton in H.
    by apply list_elem_of_singleton in H.
Qed.

(** X16.  With the current page within [1..totalPages], every button the
    pager of the detail modal shows asks for a page [goToDetailPage]
    accepts, and every button of the results pager of the landing page
    asks for a page within [1..totalPages]; both pagers are empty when
    there is a single page and show at least one button otherwise. *)
Theorem pager_buttons_stay_in_range (encodeURIComponent : string -> string)
    (d : SuperAdmin.detailModalData) (content : list pager_control) :
  1 <= SuperAdmin.dm_currentPage d <= SuperAdmin.dm_totalPages d ->
  exists html results_html,
    SuperAdmin.updateDetailPagination (Some content) d = Some html
    /\ Landing.renderResultsPagination (Some content)
         (SuperAdmin.dm_currentPage d) (SuperAdmin.dm_totalPages d)
       = Some results_html
    /\ results_html = html
    /\ (forall t, t ∈ pager_targets html ->
          1 <= t <= SuperAdmin.dm_totalPages d
          /\ SuperAdmin.dm_currentPage
               (fst (SuperAdmin.goToDetailPage encodeURIComponent t d)) = t)
    /\ (SuperAdmin.dm_totalPages d <= 1 -> html = [])
    /\ (1 < SuperAdmin.dm_totalPages d -> pager_targets html <> []).
Proof.
  intros Hp. unfold SuperAdmin.updateDetailPagination,
    Landing.renderResultsPagination.
  destruct (Z.leb_spec (SuperAdmin.dm_totalPages d) 1) as [Hone | Hmany].
  { exists [], []. split; [done|]. split; [done|]. split; [done|].
    split; [|split; [done|lia]].
    intros t Ht. by apply elem_of_nil in Ht. }
  eexists _, _. split; [reflexivity|]. split; [reflexivity|].
  split; [reflexivity|]. split; [|split; [lia|]].
  - intros t Ht. apply elem_of_pager_targets in Ht.
    assert (Hin : 1 <= t <= SuperAdmin.dm_totalPages d).
    { destruct Ht as [[H ->] | [H ->]]; apply Z.ltb_lt in H; lia. }
    split; [exact Hin|]. unfold SuperAdmin.goToDetailPage.
    destruct (Z.ltb_spec t 1); [lia|].
    destruct (Z.ltb_spec (SuperAdmin.dm_totalPages d) t); [lia|]. done.
  - intros _.
    destruct (Z.ltb_spec 1 (SuperAdmin.dm_currentPage d)); [done|].
    destruct (Z.ltb_spec (SuperAdmin.dm_currentPage d)
                (SuperAdmin.dm_totalPages d)); [done|lia].
Qed.

Lemma pager_buttons_stay_in_range_witness :
  exists html,
    SuperAdmin.updateDetailPagination (Some [])
      (SuperAdmin.detail Sample.detail_open) = Some html
    /\ pager_targets html = [2; 4].
Proof.
  destruct (pager_buttons_stay_in_range (fun s => s)
              (SuperAdmin.detail Sample.detail_open) [] ltac:(vm_compute; split; discriminate))
    as (html & _ & Hhtml & _).
  exists html. split; [exact Hhtml|].
  vm_compute in Hhtml. injection Hhtml as <-. reflexivity.
Defined.

(** ** College actions *)

Section CollegeActions.
Context {json : Type}.
Variable JSON_parse : string -> exn + json.
Variable rejection : json -> exn.
Variable env : browser.

Lemma superadmin_apiCall_ends token endpoint method net :
  Common.csrf_token env = inr token ->
  let run := SuperAdmin.apiCall JSON_parse rejection env endpoint method net in
  match outcome run with
  | inr _ => toasts (effects run) = []
  | inl e => toasts (effects run) = [error_toast e]
             /\ navigations (effects run) = []
  end
  /\ reloads (effects run) = []
  /\ length (requests (effects run)) = 1%nat.
Proof.
  intros Htoken. cbv zeta. unfold SuperAdmin.apiCall, error_toast.
  rewrite Htoken. api_cases.
  all: by repeat split.
Qed.

Lemma college_action_ends endpoint method message net overlay :
  let done := SuperAdmin.college_action JSON_parse rejection env endpoint
                method message net overlay in
  fst done = SuperAdmin.hideLoading overlay
  /\ match Common.csrf_token env with
     | inl e => snd done = [ConsoleError e]
     | inr _ =>
         length (requests (snd done)) = 1%nat
         /\ ((exists msg, toasts (snd done) = [(ToastSuccess, msg)]
                          /\ reloads (snd done)
                             = ["loadColleges"; "loadDashboardData"])
             \/ (exists e, toasts (snd done) = [error_toast e]
                           /\ reloads (snd done) = []
                           /\ navigations (snd done) = []))
     end.
Proof.
  cbv zeta. unfold SuperAdmin.college_action.
  split; [done|].
  destruct (Common.csrf_token env) as [e|token] eqn:Htoken.
  { unfold SuperAdmin.apiCall. by rewrite Htoken. }
  destruct (superadmin_apiCall_ends token endpoint method net Htoken)
    as (Hend & Hreload & Hreq).
  destruct (SuperAdmin.apiCall _ _ _ _ _ _) as [fx [e | v]].
  all: cbn [effects outcome fst snd] in *.
  all: rewrite requests_app, length_app, toasts_app, reloads_app, Hreload, Hreq.
  all: cbn [requests toasts reloads navigations app length].
  - destruct Hend as [Htoast Hnav]. rewrite Htoast.
    split; [done|]. right. exists e.
    rewrite navigations_app, Hnav. by repeat split.
  - rewrite Hend. split; [done|]. left. by eexists.
Qed.

Ltac action_ends :=
  let net := fresh "net" in
  let overlay := fresh "overlay" in
  intros net overlay; split; [reflexivity|]; cbn [negb];
  match goal with
  | |- context [SuperAdmin.college_action _ _ _ ?e ?m ?msg net overlay] =>
      exact (college_action_ends e m msg net overlay)
  end.

(** X17.  The three college actions and the three bulk actions of the
    super-admin dashboard do nothing when the confirmation is declined,
    and the bulk actions do nothing on an empty selection.  Once
    confirmed, each leaves the loading overlay hidden.  When the read of
    the CSRF token throws, it sends no request and shows no toast: it
    only logs the exception.  Otherwise it sends exactly one request and
    ends in one of two ways: its success toast with the colleges table
    and the dashboard reloaded, or the error toast of the API client with
    no reload and no navigation. *)
Theorem college_actions_confirmed_or_nothing :
  (forall id,
     confirmed_or_nothing env
       (SuperAdmin.approveCollege JSON_parse rejection env id)
     /\ confirmed_or_nothing env
          (SuperAdmin.suspendCollege JSON_parse rejection env id)
     /\ confirmed_or_nothing env
          (SuperAdmin.deleteCollege JSON_parse rejection env id))
  /\ (forall id ids,
        let selected := id :: ids in
        confirmed_or_nothing env
          (SuperAdmin.handleBulkApprove JSON_parse rejection env selected)
        /\ confirmed_or_nothing env
             (SuperAdmin.handleBulkSuspend JSON_parse rejection env selected)
        /\ confirmed_or_nothing env
             (SuperAdmin.handleBulkDelete JSON_parse rejection env selected))
  /\ (forall confirmed net overlay,
        SuperAdmin.handleBulkApprove JSON_parse rejection env [] confirmed net
          overlay = (overlay, [])
        /\ SuperAdmin.handleBulkSuspend JSON_parse rejection env [] confirmed
             net overlay = (overlay, [])
        /\ SuperAdmin.handleBulkDelete JSON_parse rejection env [] confirmed
             net overlay = (overlay, [])).
Proof.
  split; [|split].
  - intros id. unfold confirmed_or_nothing, SuperAdmin.approveCollege,
      SuperAdmin.suspendCollege, SuperAdmin.deleteCollege.
    split; [|split]; action_ends.
  - intros id ids selected. subst selected.
    unfold confirmed_or_nothing, SuperAdmin.handleBulkApprove,
      SuperAdmin.handleBulkSuspend, SuperAdmin.handleBulkDelete.
    cbn [length Nat.eqb].
    split; [|split]; action_ends.
  - by intros confirmed net overlay.
Qed.

(** X18.  A client that returns [null] counts as a success for the
    college actions: on a 401 or 403 answer with a JSON body the handler
    shows its success toast and reloads the table while the browser is
    being sent to the login page.  (When the read of the CSRF token
    throws there is no answer to speak of: the handler only logs the
    exception.) *)
Theorem college_action_success_toast_on_unauthorized
    (endpoint method message : string) (r : response) (d : json)
    (overlay : bool) :
  status r = 401 \/ status r = 403 ->
  is_json r = true ->
  JSON_parse (text r) = inr d ->
  let done := SuperAdmin.college_action JSON_parse rejection env endpoint
                method message (Responded r) overlay in
  match Common.csrf_token env with
  | inr _ =>
      navigations (snd done) = [login_url]
      /\ toasts (snd done) = [(ToastSuccess, message)]
      /\ reloads (snd done) = ["loadColleges"; "loadDashboardData"]
  | inl e => snd done = [ConsoleError e]
  end.
Proof.
  intros Hst Hjson Hparse. cbv zeta.
  unfold SuperAdmin.college_action, SuperAdmin.apiCall.
  destruct (Common.csrf_token env) as [e|token]; [done|].
  api_simpl.
  rewrite Hjson. api_simpl. rewrite Hparse. api_simpl.
  assert (Hok : ok r = false).
  { unfold ok. destruct Hst as [-> | ->]; reflexivity. }
  assert (Hun : (status r =? 401) || (status r =? 403) = true).
  { destruct Hst as [-> | ->]; reflexivity. }
  rewrite Hok, Hun. api_simpl.
  cbn [fst snd app navigations toasts reloads]. done.
Qed.
End CollegeActions.

Lemma college_action_success_toast_on_unauthorized_witness :
  toasts (snd (SuperAdmin.approveCollege Sample.JSON_parse Sample.rejection
                 Sample.with_token 7 true (Responded Sample.forbidden_json)
                 true))
  = [(ToastSuccess, "College approved successfully")].
Proof.
  exact (proj1 (proj2 (college_action_success_toast_on_unauthorized
                         Sample.JSON_parse Sample.rejection Sample.with_token
                         "/colleges/7/approve/" "PUT"
                         "College approved successfully"
                         Sample.forbidden_json Sample.EmptyObject true
                         (or_intror eq_refl) eq_refl eq_refl))).
Defined.

(** ** Editing and adding a college *)

Lemma pretty_N_go_nonempty x s :
  (0 < x)%N \/ s <> "" -> pretty_N_go x s <> "".
Proof.
  revert s. induction (N.lt_wf_0 x) as [x _ IH]; intros s Hs.
  assert (x = 0 \/ 0 < x)%N as [-> | Hx] by lia.
  - rewrite pretty_N_go_0. destruct Hs as [Hs | Hs]; [lia|done].
  - rewrite pretty_N_go_step by done. apply IH.
    + by apply N.div_lt.
    + by right.
Qed.

Lemma pretty_Z_truthy (z : Z) : Js.truthy (pretty z) = true.
Proof.
  assert (H : pretty z <> "").
  { destruct z as [|x|x]; [done| |].
    - apply (pretty_N_go_nonempty (N.pos x) ""). left. lia.
    - unfold pretty, pretty_Z. by rewrite append_cons. }
  unfold Js.truthy. destruct (String.eqb_spec (pretty z) ""); done.
Qed.

Lemma find_row_id id rows c :
  List.find (fun c => SuperAdmin.row_id c =? id) rows = Some c ->
  SuperAdmin.row_id c = id.
Proof.
  intros H. apply List.find_some in H as [_ H]. by apply Z.eqb_eq.
Qed.

Section CollegeModal.
Context {json : Type}.
Variable JSON_parse : string -> exn + json.
Variable rejection : json -> exn.
Variable json_truthy : json -> bool.
Variable env : browser.
Variable net : answer.

(** The requests of a call: the one given, or none when the read of the
    CSRF token throws. *)
Local Abbreviation sent request :=
  (match Common.csrf_token env with
   | inr _ => [request]
   | inl _ => []
   end).

Lemma superadmin_apiCall_request path method :
  requests (effects (SuperAdmin.apiCall JSON_parse rejection env
                       ("/" +:+ path) method net))
  = sent (method, SuperAdmin.API_BASE_URL +:+ "/" +:+ path).
Proof.
  unfold SuperAdmin.apiCall.
  destruct (Common.csrf_token env) as [e|token]; [done|].
  change ("/" +:+ path) with (String "/" path).
  rewrite startsWith_slash_cons. cbv iota beta.
  destruct (ascii_dec "/" "/") as [_|Hne]; [|done].
  api_cases; reflexivity.
Qed.

Lemma validate_verdict_any_errors data errs errs' :
  fst (SuperAdmin.validateCollegeForm data errs)
  = fst (SuperAdmin.validateCollegeForm data errs').
Proof.
  unfold SuperAdmin.validateCollegeForm.
  destruct (fst (run_rules SuperAdmin.college_rules data errs')) eqn:E.
  - apply run_rules_accepts. by apply run_rules_accepts in E.
  - destruct (fst (run_rules SuperAdmin.college_rules data errs)) eqn:E';
      [|done].
    apply run_rules_accepts in E'.
    apply (run_rules_accepts data SuperAdmin.college_rules errs') in E'.
    congruence.
Qed.

Lemma valid_submit_requests data p :
  fst (SuperAdmin.validateCollegeForm data ∅) = true ->
  requests (snd (SuperAdmin.handleCollegeSubmit JSON_parse rejection
                   json_truthy env net (SuperAdmin.fill_in data p)))
  = match SuperAdmin.collegeId p with
    | Some id =>
        if Js.truthy id
        then sent ("PUT",
                   SuperAdmin.API_BASE_URL +:+ "/colleges/" +:+ id +:+ "/")
        else sent ("POST", SuperAdmin.API_BASE_URL +:+ "/colleges/")
    | None => sent ("POST", SuperAdmin.API_BASE_URL +:+ "/colleges/")
    end.
Proof.
  intros Hvalid. unfold SuperAdmin.handleCollegeSubmit.
  cbn [SuperAdmin.fill_in SuperAdmin.clearFormErrors SuperAdmin.set_errors
       SuperAdmin.form SuperAdmin.errors].
  match goal with
  | |- context [SuperAdmin.validateCollegeForm data ?e] =>
      pose proof (validate_verdict_any_errors data e ∅) as Hsame;
      rewrite Hvalid in Hsame;
      destruct (SuperAdmin.validateCollegeForm data e) as [isValid errs]
  end.
  cbn [fst] in Hsame. subst isValid. cbn [negb].
  unfold SuperAdmin.clearFormErrors, SuperAdmin.set_submit,
    SuperAdmin.set_errors, SuperAdmin.fill_in.
  cbn [SuperAdmin.collegeId SuperAdmin.modal_active SuperAdmin.form
       SuperAdmin.form_defaults SuperAdmin.errors SuperAdmin.submit].
  destruct (SuperAdmin.collegeId p) as [id|];
    [destruct (Js.truthy id)|].
  all: try change ("/colleges/" +:+ id +:+ "/")
         with (String "/" ("colleges/" +:+ id +:+ "/")).
  all: match goal with
       | |- context [SuperAdmin.apiCall _ _ _ (String "/" ?path) ?m net] =>
           pose proof (superadmin_apiCall_request path m) as Hreq;
           change ("/" +:+ path) with (String "/" path) in Hreq;
           destruct (SuperAdmin.apiCall JSON_parse rejection env
                       (String "/" path) m net) as [fx [e|v]]
       end.
  all: cbn [effects fst] in Hreq.
  all: try destruct (SuperAdmin.value_truthy json_truthy v).
  all: cbn [snd]; rewrite ?requests_app, Hreq; cbn [requests app].
  all: rewrite ?app_nil_r.
  all: by rewrite ?append_assoc.
Qed.

(** X19.  Which request a valid college form sends is decided by how the
    modal was opened last.  After [editCollege(id)] has found the row, the
    form is sent by PUT to [/api/superadmin/colleges/<id>/], also when
    the modal has been closed and the inputs changed in between (closing
    leaves [data-college-id] in place); after [openCollegeModal()] without
    a row it is sent by POST to [/api/superadmin/colleges/], whatever was
    edited before.  That request is the only one the handler sends; when
    the read of the CSRF token throws it sends none. *)
Theorem college_modal_decides_request (id : Z)
    (collegesData : list SuperAdmin.college_row) (college : SuperAdmin.college_row)
    (data : SuperAdmin.college_form) (p : SuperAdmin.college_page) :
  List.find (fun c => SuperAdmin.row_id c =? id) collegesData = Some college ->
  fst (SuperAdmin.validateCollegeForm data ∅) = true ->
  let submit q :=
    requests (snd (SuperAdmin.handleCollegeSubmit JSON_parse rejection
                     json_truthy env net (SuperAdmin.fill_in data q))) in
  let edited := SuperAdmin.editCollege id collegesData p in
  let sent request :=
    match Common.csrf_token env with
    | inr _ => [request]
    | inl _ => []
    end in
  submit edited
  = sent ("PUT", "/api/superadmin/colleges/" +:+ pretty id +:+ "/")
  /\ submit (SuperAdmin.closeModal edited)
     = sent ("PUT", "/api/superadmin/colleges/" +:+ pretty id +:+ "/")
  /\ submit (SuperAdmin.openCollegeModal None edited)
     = sent ("POST", "/api/superadmin/colleges/").
Proof.
  intros Hfind Hvalid submit edited sent. subst submit edited sent.
  cbv beta.
  unfold SuperAdmin.editCollege. rewrite Hfind.
  rewrite !(valid_submit_requests data _ Hvalid).
  cbn [SuperAdmin.openCollegeModal SuperAdmin.closeModal
       SuperAdmin.clearFormErrors SuperAdmin.set_errors SuperAdmin.collegeId].
  rewrite (find_row_id _ _ _ Hfind), pretty_Z_truthy.
  by rewrite <- !append_assoc.
Qed.
End CollegeModal.

Lemma college_modal_decides_request_witness :
  requests
    (snd (SuperAdmin.handleCollegeSubmit Sample.JSON_parse Sample.rejection
            Sample.json_truthy Sample.with_token (Responded Sample.forbidden_html)
            (SuperAdmin.fill_in Sample.filled_form
               (SuperAdmin.editCollege 7 [Sample.college_row]
                  (Sample.college_page Sample.blank_form)))))
  = [("PUT", "/api/superadmin/colleges/7/")].
Proof.
  exact (proj1 (college_modal_decides_request Sample.JSON_parse
                  Sample.rejection Sample.json_truthy Sample.with_token
                  (Responded Sample.forbidden_html) 7 [Sample.college_row]
                  Sample.college_row Sample.filled_form
                  (Sample.college_page Sample.blank_form) eq_refl eq_refl)).
Defined.

(** ** Reading a cookie *)

Lemma every_app p a b : every p (a +:+ b) = every p a && every p b.
Proof.
  induction a as [|c a IH]; [done|].
  rewrite append_cons. cbn [every]. by rewrite IH, andb_assoc.
Qed.

Lemma every_impl (p q : ascii -> bool) s :
  (forall c, p c = true -> q c = true) -> every p s = true -> every q s = true.
Proof.
  intros Hpq. induction s as [|c s IH]; [done|]. cbn [every].
  intros [Hc Hs]%andb_true_iff. by rewrite (Hpq c Hc), (IH Hs).
Qed.

Lemma name_char_value c : name_char c = true -> value_char c = true.
Proof. unfold name_char. by intros [H _]%andb_true_iff. Qed.

Lemma value_char_pair e :
  every name_char (fst e) = true -> every value_char (snd e) = true ->
  every value_char (cookie_pair e) = true.
Proof.
  intros Hk Hv. unfold cookie_pair.
  rewrite every_app, (every_impl _ _ _ name_char_value Hk).
  change ("=" +:+ snd e) with (String "=" (snd e)). cbn [every].
  by rewrite Hv.
Qed.

Lemma split_semicolon_plain s :
  every value_char s = true -> Js.split ";" s = [s].
Proof.
  induction s as [|c t IH]; [done|]. cbn [every Js.split].
  intros [Hc Ht]%andb_true_iff. rewrite (IH Ht).
  apply andb_true_iff in Hc as [_ Hc]. apply negb_true_iff in Hc.
  by rewrite Hc.
Qed.

Lemma split_semicolon_app u h :
  every value_char u = true ->
  Js.split ";" (u +:+ String ";" h) = u :: Js.split ";" h.
Proof.
  induction u as [|c t IH]; [done|]. cbn [every].
  intros [Hc Ht]%andb_true_iff. rewrite append_cons. cbn [Js.split].
  rewrite (IH Ht).
  apply andb_true_iff in Hc as [_ Hc]. apply negb_true_iff in Hc.
  by rewrite Hc.
Qed.

Lemma trimEnd_plain s : every value_char s = true -> Js.trimEnd s = s.
Proof.
  induction s as [|c t IH]; [done|]. cbn [every Js.trimEnd].
  intros [Hc Ht]%andb_true_iff. rewrite (IH Ht).
  apply andb_true_iff in Hc as [Hc _]. apply negb_true_iff in Hc.
  rewrite Hc. by destruct t.
Qed.

Lemma trimStart_plain s : every value_char s = true -> Js.trimStart s = s.
Proof.
  destruct s as [|c t]; [done|]. cbn [every Js.trimStart].
  intros [Hc _]%andb_true_iff.
  apply andb_true_iff in Hc as [Hc _]. apply negb_true_iff in Hc.
  by rewrite Hc.
Qed.

Lemma trim_plain s : every value_char s = true -> Js.trim s = s.
Proof.
  intros H. unfold Js.trim. by rewrite (trimStart_plain s H), trimEnd_plain.
Qed.

Lemma trim_space_plain s :
  every value_char s = true -> Js.trim (String " " s) = s.
Proof.
  intros H. unfold Js.trim. change (Js.trimStart (String " " s))
    with (Js.trimStart s). by rewrite (trimStart_plain s H), trimEnd_plain.
Qed.

Lemma name_char_not_equals c : name_char c = true -> Ascii.eqb c "=" = false.
Proof.
  unfold name_char. intros [_ H]%andb_true_iff. by apply negb_true_iff.
Qed.

Lemma cookie_test name : forall k v,
  every name_char name = true -> every name_char k = true ->
  String.eqb (Js.substring_to (String.length name + 1) (k +:+ "=" +:+ v))
             (name +:+ "=")
  = String.eqb k name.
Proof.
  unfold Js.substring_to.
  induction name as [|a name IH]; intros k v Hname Hk.
  - destruct k as [|c k]; [by destruct v|].
    cbn [every] in Hk. apply andb_true_iff in Hk as [Hc _].
    rewrite append_cons. cbn [String.length Nat.add String.substring].
    change ("" +:+ "=") with "=". cbn [String.eqb].
    by rewrite (name_char_not_equals c Hc).
  - cbn [every] in Hname. apply andb_true_iff in Hname as [Ha Hname].
    destruct k as [|c k].
    + change ("" +:+ "=" +:+ v) with (String "=" v).
      rewrite append_cons. cbn [String.length Nat.add String.substring].
      cbn [String.eqb].
      replace (Ascii.eqb "=" a) with false; [done|].
      rewrite Ascii.eqb_sym. symmetry. by apply name_char_not_equals.
    + cbn [every] in Hk. apply andb_true_iff in Hk as [_ Hk].
      rewrite (append_cons c k), (append_cons a name).
      cbn [String.length Nat.add String.substring].
      cbn [String.eqb]. by rewrite (IH k v Hname Hk).
Qed.

Lemma substring_from_app a b :
  Js.substring_from (String.length a) (a +:+ b) = b.
Proof. induction a as [|c a IH]; [by destruct b|]. exact IH. Qed.

Section CookieJar.
Variable decodeURIComponent : string -> exn + string.
Variable name : string.
Hypothesis name_ok : every name_char name = true.

Lemma find_cookie_step piece e rest :
  every name_char (fst e) = true ->
  Js.trim piece = cookie_pair e ->
  Common.find_cookie decodeURIComponent name (piece :: rest)
  = if String.eqb (fst e) name
    then match decodeURIComponent (snd e) with
         | inl err => inl err
         | inr v => inr (Some v)
         end
    else Common.find_cookie decodeURIComponent name rest.
Proof.
  intros Hk Htrim. cbn [Common.find_cookie]. rewrite Htrim.
  unfold cookie_pair. rewrite (cookie_test name _ _ name_ok Hk).
  destruct (String.eqb_spec (fst e) name) as [-> | Hne]; [|done].
  replace (String.length name + 1)%nat
    with (String.length (name +:+ "=")).
  - by rewrite <- append_assoc, substring_from_app.
  - clear. induction name as [|c s IH]; [done|].
    rewrite append_cons. cbn [String.length]. by rewrite IH.
Qed.

Lemma find_cookie_rest jar :
  well_formed_jar jar ->
  Common.find_cookie decodeURIComponent name
    ((fun e => String " " (cookie_pair e)) <$> jar)
  = first_cookie decodeURIComponent name jar.
Proof.
  unfold first_cookie.
  induction 1 as [|e jar [Hk Hv] _ IH]; [done|].
  rewrite fmap_cons, (find_cookie_step _ e _ Hk).
  - cbn [List.find]. by destruct (String.eqb (fst e) name).
  - apply trim_space_plain. by apply value_char_pair.
Qed.

Lemma split_cookie_text e jar :
  well_formed_jar (e :: jar) ->
  Js.split ";" (cookie_text (e :: jar))
  = cookie_pair e :: ((fun e => String " " (cookie_pair e)) <$> jar).
Proof.
  revert e. induction jar as [|e' jar IH]; intros e Hjar.
  - apply Forall_cons in Hjar as [[Hk Hv] _]. cbn [cookie_text].
    by rewrite split_semicolon_plain by by apply value_char_pair.
  - apply Forall_cons in Hjar as [[Hk Hv] Hjar].
    change (cookie_text (e :: e' :: jar))
      with (cookie_pair e +:+ String ";" (String " " (cookie_text (e' :: jar)))).
    rewrite split_semicolon_app by by apply value_char_pair.
    f_equal.
    assert (Hsp : forall s,
              Js.split ";" (String " " s)
              = match Js.split ";" s with
                | [] => [String " " ""]
                | h :: r => String " " h :: r
                end) by done.
    by rewrite Hsp, (IH e' Hjar), fmap_cons.
Qed.

(** X20.  [getCookie] reads a cookie text back.  Asked for a name that
    holds no white space, semicolon or equals sign, on the text of a jar
    whose names hold none of these either and whose values hold no white
    space or semicolon, it returns the decoded value of the first pair of
    that name, and [null] when the jar has no such pair; it decodes no
    other value. *)
Theorem getCookie_reads_cookie_text (jar : list (string * string)) :
  well_formed_jar jar ->
  Common.getCookie decodeURIComponent (cookie_text jar) name
  = first_cookie decodeURIComponent name jar.
Proof.
  intros Hjar. unfold Common.getCookie.
  destruct jar as [|e jar]; [done|].
  assert (Htext : Js.truthy (cookie_text (e :: jar)) = true).
  { destruct e as [k v]. destruct jar; cbn [cookie_text]; unfold cookie_pair;
      cbn [fst snd]; by destruct k. }
  rewrite Htext, (split_cookie_text e jar Hjar).
  pose proof Hjar as Hjar'. apply Forall_cons in Hjar' as [[Hk Hv] Hrest].
  rewrite (find_cookie_step _ e _ Hk).
  - rewrite (find_cookie_rest jar Hrest). unfold first_cookie.
    cbn [List.find]. by destruct (String.eqb (fst e) name).
  - apply trim_plain. by apply value_char_pair.
Qed.
End CookieJar.

Lemma getCookie_reads_cookie_text_witness :
  Common.getCookie (fun s => inr s) "sessionid=abc; csrftoken=x1y2" "csrftoken"
  = inr (Some "x1y2").
Proof.
  exact (getCookie_reads_cookie_text (fun s => inr s) "csrftoken" eq_refl
           [("sessionid", "abc"); ("csrftoken", "x1y2")]
           ltac:(repeat constructor)).
Defined.

(** ** Thousands separators *)

Lemma digit_is_word c : Js.is_digit c = true -> Js.is_word c = true.
Proof. unfold Js.is_word. by intros ->. Qed.

Lemma digit_run_app s t :
  every Js.is_digit s = true ->
  Common.digit_run (s +:+ t) = (String.length s + Common.digit_run t)%nat.
Proof.
  induction s as [|c s IH]; [done|]. cbn [every].
  intros [Hc Hs]%andb_true_iff. rewrite append_cons.
  cbn [Common.digit_run String.length]. by rewrite Hc, (IH Hs).
Qed.

Lemma digit_run_digits s :
  every Js.is_digit s = true -> Common.digit_run s = String.length s.
Proof.
  intros H. rewrite <- (append_empty_r s) at 1.
  rewrite (digit_run_app s "" H). cbn [Common.digit_run]. lia.
Qed.

Lemma length_append (a b : string) :
  String.length (a +:+ b) = (String.length a + String.length b)%nat.
Proof.
  induction a as [|c a IH]; [done|].
  rewrite append_cons. cbn [String.length]. by rewrite IH.
Qed.

(** One step of the scan on a run of digits: a comma goes in front of a
    digit when a word character stands before it and the digits from
    there on come in threes. *)
Lemma group_digits_digit prev c t :
  every Js.is_digit (String c t) = true ->
  Common.group_digits prev (String c t)
  = (if Common.word_before prev && (S (String.length t) mod 3 =? 0)%nat
     then "," else "")
    +:+ String c (Common.group_digits (Some c) t).
Proof.
  intros H. cbn [Common.group_digits].
  rewrite (digit_run_digits _ H). cbn [String.length].
  cbn [every] in H. apply andb_true_iff in H as [Hc _].
  rewrite (digit_is_word c Hc).
  by destruct (Common.word_before prev).
Qed.

Lemma group_digits_three prev x y z :
  Js.is_digit x = true -> Js.is_digit y = true -> Js.is_digit z = true ->
  Common.group_digits prev (String x (String y (String z "")))
  = (if Common.word_before prev then "," else "")
    +:+ String x (String y (String z "")).
Proof.
  intros Hx Hy Hz.
  rewrite group_digits_digit by (cbn [every]; by rewrite Hx, Hy, Hz).
  rewrite group_digits_digit by (cbn [every]; by rewrite Hy, Hz).
  rewrite group_digits_digit by (cbn [every]; by rewrite Hz).
  cbn [String.length Common.group_digits Common.word_before].
  rewrite (digit_is_word x Hx), (digit_is_word y Hy).
  change ((3 mod 3 =? 0)%nat) with true.
  change ((2 mod 3 =? 0)%nat) with false.
  change ((1 mod 3 =? 0)%nat) with false.
  by rewrite andb_true_r.
Qed.

Lemma group_digits_tail s : forall prev x y z,
  every Js.is_digit s = true -> s <> "" ->
  Js.is_digit x = true -> Js.is_digit y = true -> Js.is_digit z = true ->
  Common.group_digits prev (s +:+ String x (String y (String z "")))
  = Common.group_digits prev s +:+ "," +:+ String x (String y (String z "")).
Proof.
  induction s as [|c s IH]; intros prev x y z Hs Hne Hx Hy Hz; [done|].
  rewrite append_cons.
  assert (Hall : every Js.is_digit
                   (String c (s +:+ String x (String y (String z ""))))
                 = true).
  { change (String c (s +:+ ?t)) with (String c s +:+ t).
    rewrite every_app, Hs. cbn [every]. by rewrite Hx, Hy, Hz. }
  rewrite (group_digits_digit _ _ _ Hall), (group_digits_digit _ _ _ Hs).
  rewrite length_append. cbn [String.length].
  replace (S (String.length s + 3)) with (S (String.length s) + 1 * 3)%nat
    by lia.
  rewrite Nat.Div0.mod_add.
  cbn [every] in Hs. apply andb_true_iff in Hs as [Hc Hs].
  destruct s as [|c' s].
  - change ("" +:+ ?t) with t. rewrite (group_digits_three _ _ _ _ Hx Hy Hz).
    cbn [Common.word_before Common.group_digits]. rewrite (digit_is_word c Hc).
    by rewrite !append_assoc.
  - rewrite (IH (Some c) x y z Hs ltac:(done) Hx Hy Hz).
    by rewrite !append_assoc, !append_cons.
Qed.

(** X21.  On the digits of a non-negative integer [formatNumber] groups by
    three from the right: up to three digits are left as they are, and
    every further group of three digits is set off by one comma, the
    digits before it being grouped in the same way.  A minus sign in front
    stays in front and takes no comma. *)
Theorem formatNumber_groups_by_three (digits : string) :
  every Js.is_digit digits = true ->
  ((String.length digits <= 3)%nat -> Common.formatNumber digits = digits)
  /\ (digits <> "" ->
      forall x y z,
        Js.is_digit x = true -> Js.is_digit y = true -> Js.is_digit z = true ->
        Common.formatNumber (digits +:+ String x (String y (String z "")))
        = Common.formatNumber digits +:+ ","
          +:+ String x (String y (String z "")))
  /\ Common.formatNumber ("-" +:+ digits) = "-" +:+ Common.formatNumber digits.
Proof.
  intros Hd. unfold Common.formatNumber. split; [|split].
  - intros Hlen.
    destruct digits as [|a [|b [|c [|d rest]]]]; [done| | | |].
    4:{ cbn [String.length] in Hlen. lia. }
    all: cbn [every] in Hd; repeat (apply andb_true_iff in Hd as [? Hd]).
    all: cbn [Common.group_digits Common.digit_run Common.word_before].
    all: repeat match goal with
                | H : Js.is_digit ?c = true |- _ =>
                    rewrite ?H, ?(digit_is_word c H); clear H
                end.
    all: reflexivity.
  - intros Hne x y z Hx Hy Hz. by apply group_digits_tail.
  - change ("-" +:+ digits) with (String "-" digits).
    cbn [Common.group_digits]. change (Js.is_word "-") with false.
    cbn [Common.word_before Bool.eqb andb Common.digit_run].
    change (Js.is_digit "-") with false. cbv iota.
    change ((0 <? 0)%nat) with false. cbv iota.
    change ("" +:+ ?t) with t. rewrite append_cons. f_equal.
    destruct digits as [|c t]; [done|]. cbn [Common.group_digits].
    by change (Common.word_before (Some "-"%char)) with false.
Qed.

Lemma formatNumber_groups_by_three_witness :
  Common.formatNumber "1234567" = Common.formatNumber "1234" +:+ ",567".
Proof.
  exact (proj1 (proj2 (formatNumber_groups_by_three "1234" eq_refl))
           ltac:(discriminate) "5"%char "6"%char "7"%char
           eq_refl eq_refl eq_refl).
Defined.

(** ** Frontend access control *)

Lemma prefix_append p s : String.prefix p (p +:+ s) = true.
Proof.
  induction p as [|c p IH]; [by destruct s|].
  rewrite append_cons. cbn [String.prefix].
  by destruct (ascii_dec c c).
Qed.

Lemma prefix_split p s :
  String.prefix p s = true -> exists rest, s = p +:+ rest.
Proof.
  revert s. induction p as [|c p IH]; intros s H; [by exists s|].
  destruct s as [|c' s]; [done|]. cbn [String.prefix] in H.
  destruct (ascii_dec c c') as [<- |]; [|done].
  destruct (IH s H) as [rest ->]. by exists rest.
Qed.

Lemma segment_then_split lit s :
  Access.segment_then lit s = true
  <-> exists x rest, s = x +:+ lit +:+ rest /\ x <> ""
                     /\ every (fun c => negb (Ascii.eqb c "/")) x = true.
Proof.
  split.
  - induction s as [|c t IH]; [done|]. cbn [Access.segment_then].
    intros [Hc [Hp | Hs]%orb_true_iff]%andb_true_iff.
    + apply prefix_split in Hp as [rest ->].
      exists (String c ""), rest. repeat split; [done|].
      cbn [every]. by rewrite Hc.
    + destruct (IH Hs) as (x & rest & -> & Hx & Hfree).
      exists (String c x), rest. repeat split; [done|].
      cbn [every]. by rewrite Hc, Hfree.
  - intros (x & rest & -> & Hx & Hfree).
    induction x as [|c x IH]; [done|].
    cbn [every] in Hfree. apply andb_true_iff in Hfree as [Hc Hfree].
    rewrite append_cons. cbn [Access.segment_then]. rewrite Hc.
    destruct x as [|c' x].
    + change ("" +:+ lit +:+ rest) with (lit +:+ rest).
      by rewrite prefix_append.
    + rewrite IH by done. by rewrite orb_true_r.
Qed.

(** The scanning matcher accepts exactly the language of the regular
    expression: somewhere in the path stand a slash, a non-empty run of
    characters other than a slash, and the college path. *)
Lemma test_language lit path :
  Access.test lit path = true
  <-> exists before x rest,
        path = before +:+ "/" +:+ x +:+ lit +:+ rest /\ x <> ""
        /\ every (fun c => negb (Ascii.eqb c "/")) x = true.
Proof.
  split.
  - induction path as [|c t IH]; [done|]. cbn [Access.test].
    intros [Hm | Ht]%orb_true_iff.
    + cbn [Access.matches_here] in Hm.
      apply andb_true_iff in Hm as [Hc Hs]. apply Ascii.eqb_eq in Hc as ->.
      apply segment_then_split in Hs as (x & rest & -> & Hx & Hfree).
      by exists "", x, rest.
    + destruct (IH Ht) as (before & x & rest & -> & Hx & Hfree).
      by exists (String c before), x, rest.
  - intros (before & x & rest & -> & Hx & Hfree).
    induction before as [|c before IH].
    + change ("" +:+ "/" +:+ x +:+ lit +:+ rest)
        with (String "/" (x +:+ lit +:+ rest)).
      cbn [Access.test Access.matches_here].
      replace (Access.segment_then lit (x +:+ lit +:+ rest)) with true; [done|].
      symmetry. apply segment_then_split. by exists x, rest.
    + rewrite append_cons. cbn [Access.test].
      by rewrite IH, orb_true_r.
Qed.

(** X22.  The frontend access control sends the browser to
    [/superadmin/dashboard/] and nowhere else, and only a super admin:
    it does so exactly when the path holds, somewhere, a slash, a
    non-empty segment and one of the ten college paths.  So a super admin
    is turned away from [/<slug>/students/...] for every non-empty slug,
    the slug [superadmin] included, while a path that starts with the
    college path itself, with no segment before it, is let through. *)
Theorem access_control_blocks_college_paths
    (USER_ROLE userRole : option string) (pathname : string) :
  (Access.enforceAccessControl USER_ROLE userRole pathname
   = Some "/superadmin/dashboard/"
   \/ Access.enforceAccessControl USER_ROLE userRole pathname = None)
  /\ (Access.enforceAccessControl USER_ROLE userRole pathname
      = Some "/superadmin/dashboard/"
      <-> (USER_ROLE = Some "super_admin" \/ userRole = Some "super_admin")
          /\ exists collegePath before slug rest,
               collegePath ∈ Access.collegeSpecificPaths
               /\ pathname = before +:+ "/" +:+ slug +:+ collegePath +:+ rest
               /\ slug <> ""
               /\ every (fun c => negb (Ascii.eqb c "/")) slug = true).
Proof.
  unfold Access.enforceAccessControl, Access.isSuperAdmin.
  split.
  { destruct (negb _); [by right|]. destruct (existsb _ _); [by left|by right]. }
  split.
  - destruct (_ || _) eqn:Hrole; cbn [negb]; [|done].
    destruct (existsb _ _) eqn:Hsome; [|done]. intros _. split.
    + apply orb_true_iff in Hrole as [H | H]; apply bool_decide_eq_true in H;
        [by left|by right].
    + apply existsb_exists in Hsome as (collegePath & Hin & Htest).
      apply test_language in Htest as (before & slug & rest & -> & Hs & Hfree).
      exists collegePath, before, slug, rest.
      split; [by apply list_elem_of_In|done].
  - intros (Hrole & collegePath & before & slug & rest & Hin & -> & Hs & Hfree).
    replace (_ || _) with true.
    2:{ symmetry. apply orb_true_iff.
        destruct Hrole as [H | H]; [left|right]; by apply bool_decide_eq_true. }
    cbn [negb].
    replace (existsb _ _) with true; [done|].
    symmetry. apply existsb_exists. exists collegePath.
    split; [by apply list_elem_of_In|].
    apply test_language. by exists before, slug, rest.
Qed.

(** The dashboard the super admin is sent to is not itself a college
    path, so the redirect does not loop; the settings page under
    [/superadmin/] is. *)
Example access_control_on_superadmin_pages :
  Access.enforceAccessControl (Some "super_admin") None
    "/superadmin/dashboard/" = None
  /\ Access.enforceAccessControl (Some "super_admin") None
       "/superadmin/settings/" = Some "/superadmin/dashboard/"
  /\ Access.enforceAccessControl (Some "super_admin") None
       "/students/" = None.
Proof. repeat split; vm_compute; reflexivity. Qed.

(** ** The search box of the detail modal *)

Section DetailSearchFacts.
Variable encodeURIComponent : string -> string.


End DetailSearchFacts.


(** ** The table loaders on a failure *)

Section Loaders.
Context {json : Type}.
Variable JSON_parse : string -> exn + json.
Variable rejection : json -> exn.
Variable colleges_of : json -> option (list SuperAdmin.college_row * Z).
Variable announcements_of : json -> option (list json * Z * Z * string).
Variable env : browser.

(** The toasts of an API client that throws [e]: its error toast, or
    none when what it throws is the exception of the token read. *)
Local Abbreviation client_toasts e :=
  (match Common.csrf_token env with
   | inl _ => []
   | inr _ => [error_toast e]
   end).

Lemma superadmin_apiCall_toasts endpoint method net :
  let run := SuperAdmin.apiCall JSON_parse rejection env endpoint method net in
  match outcome run with
  | inr _ => toasts (effects run) = []
  | inl e => toasts (effects run) = client_toasts e
  end.
Proof.
  cbv zeta. unfold SuperAdmin.apiCall, error_toast.
  destruct (Common.csrf_token env) as [e|token]; [done|].
  api_cases; reflexivity.
Qed.

Lemma common_apiCall_ends container slug endpoint method net :
  let run := Common.apiCall JSON_parse rejection env container slug endpoint
               method net in
  match outcome run with
  | inr _ => toasts (effects run) = []
  | inl e => toasts (effects run) = if container then client_toasts e else []
  end.
Proof.
  cbv zeta. unfold Common.apiCall, error_toast.
  destruct (Common.csrf_token env) as [e|token]; [by destruct container|].
  destruct container; api_cases; reflexivity.
Qed.

(** X24.  [loadColleges] and [loadAnnouncements] announce a failed load
    twice: when the API client throws after the CSRF token has been read,
    the user gets the client's error toast and then the loader's own
    ("Failed to load ..."); when it is the read of the token that throws,
    the user gets the loader's toast only; and none when the client
    returns.  [loadAnnouncements] shows its toasts through the shared
    [showToast]: on a page without a toast container it shows none.
    After a failure the table shows its empty row (never the loading row)
    while the pagination keeps the buttons of the previous load;
    [loadColleges] leaves the loading overlay hidden on every path. *)
Theorem loaders_toast_twice_on_failure :
  (forall currentPage query net v,
     let call := SuperAdmin.apiCall JSON_parse rejection env
                   ("/colleges/?" +:+ query) "GET" net in
     let done := SuperAdmin.loadColleges JSON_parse rejection colleges_of
                   env currentPage query net v in
     SuperAdmin.loading_overlay (fst done)
     = SuperAdmin.hideLoading (SuperAdmin.loading_overlay v)
     /\ match outcome call with
        | inl e =>
            toasts (snd done)
            = match Common.csrf_token env with
              | inl _ => [(ToastError, "Failed to load colleges")]
              | inr _ => [error_toast e;
                          (ToastError, "Failed to load colleges")]
              end
            /\ SuperAdmin.collegesData (fst done) = []
            /\ SuperAdmin.colleges_tbody (fst done)
               = SuperAdmin.renderCollegesTable [] (SuperAdmin.colleges_tbody v)
            /\ SuperAdmin.colleges_pagination (fst done)
               = SuperAdmin.colleges_pagination v
        | inr _ => toasts (snd done) = []
        end)
  /\ (forall container slug query net v,
        let call := Common.apiCall JSON_parse rejection env container slug
                      ("announcements/?" +:+ query) "GET" net in
        let done := Announcements.loadAnnouncements_run JSON_parse rejection
                      announcements_of env container slug query net v in
        Announcements.announcements_tbody (fst done) <> Landing.LoadingRow
        /\ match outcome call with
           | inl e =>
               toasts (snd done)
               = (if container
                  then match Common.csrf_token env with
                       | inl _ =>
                           [(ToastError, "Failed to load announcements")]
                       | inr _ =>
                           [error_toast e;
                            (ToastError, "Failed to load announcements")]
                       end
                  else [])
               /\ Announcements.announcements_tbody (fst done)
                  = Landing.EmptyState
               /\ Announcements.pagination (fst done)
                  = Announcements.pagination v
               /\ Announcements.announcementsData (fst done)
                  = Announcements.announcementsData v
           | inr _ => toasts (snd done) = []
           end).
Proof.
  split.
  - intros currentPage query net v call done. subst call done.
    unfold SuperAdmin.loadColleges.
    pose proof (superadmin_apiCall_toasts ("/colleges/?" +:+ query) "GET" net)
      as Hend.
    destruct (SuperAdmin.apiCall _ _ _ _ _ _) as [fx [e | data]].
    all: cbn [outcome effects fst snd] in *.
    + rewrite toasts_app, Hend.
      split; [done|]. by destruct (Common.csrf_token env).
    + destruct (match data with Data d => colleges_of d | _ => None end)
        as [[rows total_pages]|].
      all: cbn [fst snd SuperAdmin.loading_overlay].
      all: split; [done|done].
  - intros container slug query net v call done. subst call done.
    unfold Announcements.loadAnnouncements_run.
    pose proof (common_apiCall_ends container slug
                  ("announcements/?" +:+ query) "GET" net) as Hend.
    destruct (Common.apiCall _ _ _ _ _ _ _ _) as [fx [e | data]].
    all: cbn [outcome effects fst snd] in *.
    + rewrite !toasts_app, Hend. unfold Common.showToast.
      destruct container; [|by repeat split].
      by destruct (Common.csrf_token env).
    + destruct (match data with Data d => announcements_of d | _ => None end)
        as [[[[results page] total_pages] count]|].
      all: cbn [fst snd Announcements.announcements_tbody].
      all: split; [|done].
      * unfold Announcements.renderAnnouncementsTable. by destruct results.
      * done.
Qed.
End Loaders.

(** ** Saving an announcement *)

Lemma run_rules_verdict {D} (rules : list (rule D)) data errs errs' :
  fst (run_rules rules data errs) = fst (run_rules rules data errs').
Proof.
  destruct (fst (run_rules rules data errs')) eqn:E.
  - apply run_rules_accepts. by apply run_rules_accepts in E.
  - destruct (fst (run_rules rules data errs)) eqn:E'; [|done].
    apply run_rules_accepts in E'.
    apply (run_rules_accepts data rules errs') in E'. congruence.
Qed.

Section AnnouncementForm.
Context {json : Type}.
Variable JSON_parse : string -> exn + json.
Variable rejection : json -> exn.
Variable toISOString : string -> exn + string.
Variable env : browser.
Variable container : bool.
Variable slug : option string.
Variable net : answer.

Lemma common_apiCall_run endpoint method :
  let run := Common.apiCall JSON_parse rejection env container slug endpoint
               method net in
  requests (effects run)
  = match Common.csrf_token env with
    | inl _ => []
    | inr _ => [(method, Common.buildApiEndpoint slug endpoint)]
    end
  /\ reloads (effects run) = []
  /\ match outcome run with
     | inr _ => toasts (effects run) = []
     | inl e =>
         toasts (effects run)
         = if container
           then match Common.csrf_token env with
                | inl _ => []
                | inr _ => [error_toast e]
                end
           else []
     end.
Proof.
  cbv zeta. unfold Common.apiCall, error_toast.
  destruct (Common.csrf_token env) as [e|token]; [by destruct container|].
  destruct container; api_cases.
  all: by repeat split.
Qed.

(** X25.  A valid announcement form is saved with one request: a PUT to
    [announcements/<id>/] while an announcement is being edited, a POST to
    [announcements/] otherwise; when the read of the CSRF token throws,
    no request is sent.  When the API client returns, whatever it
    returns, the success toast is shown, the modal is closed, the edited
    id is forgotten and the table is reloaded.  When the client throws,
    the failure is announced twice (the client's toast, then the
    handler's), or once, by the handler, when what is thrown is the
    exception of the token read; nothing is reloaded and the modal stays
    as it was.  All these toasts go through the shared [showToast]: on a
    page without a toast container none of them is shown. *)
Theorem announcement_submit_outcomes (d : Announcements.announcement_inputs)
    (m : Announcements.form_modal) :
  fst (Announcements.validateForm d ∅) = true ->
  (Announcements.target_type d = "individual" ->
   Announcements.targeted_students d <> []
   \/ Announcements.targeted_users d <> []) ->
  (Js.truthy (Announcements.expires_at d) = true ->
   exists iso, toISOString (Announcements.expires_at d) = inr iso) ->
  let done := Announcements.handleFormSubmit JSON_parse rejection toISOString
                env container slug d net m in
  let endpoint := match Announcements.editing m with
                  | Some id => "announcements/" +:+ pretty id +:+ "/"
                  | None => "announcements/"
                  end in
  let method := match Announcements.editing m with
                | Some _ => "PUT"
                | None => "POST"
                end in
  requests (snd done)
  = match Common.csrf_token env with
    | inl _ => []
    | inr _ => [(method, Common.buildApiEndpoint slug endpoint)]
    end
  /\ match outcome (Common.apiCall JSON_parse rejection env container slug
                      endpoint method net) with
     | inr _ =>
         toasts (snd done)
         = (if container
            then [(ToastSuccess,
                   match Announcements.editing m with
                   | Some _ => "Announcement updated successfully"
                   | None => "Announcement created successfully"
                   end)]
            else [])
         /\ reloads (snd done) = ["loadAnnouncements"]
         /\ active (Announcements.modal (fst done)) = false
         /\ Announcements.editingAnnouncementId (fst done) = None
     | inl e =>
         toasts (snd done)
         = (if container
            then match Common.csrf_token env with
                 | inl _ => []
                 | inr _ => [error_toast e]
                 end
                 ++ [(ToastError, if Js.truthy (message e) then message e
                                  else "Failed to save announcement")]
            else [])
         /\ reloads (snd done) = []
         /\ Announcements.modal (fst done) = Announcements.modal m
         /\ Announcements.editingAnnouncementId (fst done)
            = Announcements.editingAnnouncementId m
     end.
Proof.
  intros Hvalid Htarget Hdate done endpoint method. subst done.
  unfold Announcements.handleFormSubmit, Announcements.validateForm in *.
  cbn [Announcements.the_form Announcements.modal
       Announcements.editingAnnouncementId].
  match goal with
  | |- context [run_rules Announcements.announcement_rules d ?e] =>
      pose proof (run_rules_verdict Announcements.announcement_rules d e ∅)
        as Hsame;
      rewrite Hvalid in Hsame;
      destruct (run_rules Announcements.announcement_rules d e)
        as [isValid errs]
  end.
  cbn [fst] in Hsame. subst isValid. cbn [negb].
  assert (Hsel : String.eqb (Announcements.target_type d) "individual"
                 && (length (Announcements.targeted_students d) =? 0)%nat
                 && (length (Announcements.targeted_users d) =? 0)%nat
                 = false).
  { destruct (String.eqb_spec (Announcements.target_type d) "individual")
      as [Hind | _]; [|done].
    destruct (Htarget Hind) as [H | H].
    - by destruct (Announcements.targeted_students d).
    - destruct (Announcements.targeted_users d); [done|].
      by rewrite andb_false_r. }
  rewrite Hsel.
  assert (Hiso : (if Js.truthy (Announcements.expires_at d)
                  then match toISOString (Announcements.expires_at d) with
                       | inl e => throw e
                       | inr _ => ret tt
                       end
                  else ret tt) = ret tt).
  { destruct (Js.truthy (Announcements.expires_at d)); [|done].
    destruct (Hdate eq_refl) as [iso ->]. done. }
  rewrite Hiso. clear Hiso.
  assert (Hed : Announcements.editing (Announcements.with_errors errs
                  (Announcements.FormModal (Announcements.modal m)
                     (Announcements.clearFieldErrors (Announcements.the_form m))
                     (Announcements.editingAnnouncementId m)))
                = Announcements.editing m) by done.
  rewrite Hed. clear Hed.
  subst endpoint method.
  destruct (Announcements.editing m) as [id|].
  all: match goal with
       | |- context [Common.apiCall _ _ env container slug ?e ?mth net] =>
           destruct (common_apiCall_run e mth) as (Hreq & Hrel & Hend);
           destruct (Common.apiCall JSON_parse rejection env container slug
                       e mth net)
             as [fx [err | v]]
       end.
  all: cbn [effects outcome fst snd bind ret app] in *.
  all: rewrite !requests_app, !toasts_app, !reloads_app, Hreq, Hrel, Hend.
  all: unfold Common.showToast.
  all: destruct container, (Common.csrf_token env).
  all: cbn [requests toasts reloads app effects emit ret fst].
  all: by repeat split.
Qed.
End AnnouncementForm.

Lemma announcement_submit_outcomes_witness :
  requests
    (snd (Announcements.handleFormSubmit Sample.JSON_parse Sample.rejection
            (fun s => inr s) Sample.with_token true (Some "nairobi-tech")
            Sample.announcement
            (Responded Sample.forbidden_html) Sample.announcement_modal))
  = [("PUT", "/api/nairobi-tech/announcements/12/")].
Proof.
  exact (proj1 (announcement_submit_outcomes Sample.JSON_parse Sample.rejection
                  (fun s => inr s) Sample.with_token true
                  (Some "nairobi-tech")
                  (Responded Sample.forbidden_html) Sample.announcement
                  Sample.announcement_modal eq_refl
                  ltac:(discriminate) ltac:(discriminate))).
Defined.

(** ** Inputs of white space only *)

Lemma trimEnd_empty s : Js.trimEnd s = "" <-> every Js.is_space s = true.
Proof.
  induction s as [|c t IH]; [done|]. cbn [Js.trimEnd every]. split.
  - destruct (Js.trimEnd t) eqn:E; [|done].
    destruct (Js.is_space c); [|done]. intros _. by apply IH.
  - intros [Hc Ht]%andb_true_iff. apply IH in Ht. by rewrite Ht, Hc.
Qed.

Lemma trimStart_spaces s :
  every Js.is_space (Js.trimStart s) = every Js.is_space s.
Proof.
  induction s as [|c t IH]; [done|]. cbn [Js.trimStart].
  destruct (Js.is_space c) eqn:Hc; [|done]. cbn [every]. by rewrite Hc, IH.
Qed.

Lemma trim_empty s : Js.trim s = "" <-> every Js.is_space s = true.
Proof. unfold Js.trim. by rewrite trimEnd_empty, trimStart_spaces. Qed.

(** X26.  The validators treat an input of white space only as empty: the
    required-text test of the college form, and the one of the
    registration form on an input that is there, fail exactly when every
    character of the input is white space.  So the college form is never
    sent with a name, owner, phone or location that has no visible
    character. *)
Theorem blank_inputs_are_white_space :
  (forall v, SuperAdmin.blank v = true <-> every Js.is_space v = true)
  /\ (forall v, Register.blank (Some v) = true <-> every Js.is_space v = true)
  /\ (forall d errs input,
        fst (SuperAdmin.validateCollegeForm d errs) = true ->
        input ∈ [SuperAdmin.name; SuperAdmin.owner_name;
                 SuperAdmin.owner_email; SuperAdmin.owner_phone;
                 SuperAdmin.location] ->
        every Js.is_space (input d) = false).
Proof.
  assert (Hblank : forall v,
            SuperAdmin.blank v = true <-> every Js.is_space v = true).
  { intros v. unfold SuperAdmin.blank.
    by rewrite negb_true_iff, truthy_false, trim_empty. }
  split; [exact Hblank|]. split.
  - intros v. unfold Register.blank.
    rewrite orb_true_iff, !negb_true_iff, !truthy_false, trim_empty.
    split; [|by right]. intros [-> | H]; done.
  - intros d errs input Hvalid Hin.
    apply run_rules_accepts in Hvalid.
    destruct (every Js.is_space (input d)) eqn:E; [|done].
    apply Hblank in E. exfalso.
    rewrite Forall_forall in Hvalid.
    repeat (apply elem_of_cons in Hin as [-> | Hin]).
    6: by apply elem_of_nil in Hin.
    + specialize (Hvalid _ (list_elem_of_here _ _)).
      cbn [snd] in Hvalid. unfold fails_when in Hvalid. by rewrite E in Hvalid.
    + specialize (Hvalid _ (list_elem_of_further _ _ _ (list_elem_of_here _ _))).
      cbn [snd] in Hvalid. unfold fails_when in Hvalid. by rewrite E in Hvalid.
    + specialize (Hvalid _ (list_elem_of_further _ _ _
                              (list_elem_of_further _ _ _
                                 (list_elem_of_here _ _)))).
      cbn [snd] in Hvalid. unfold fails_when in Hvalid. by rewrite E in Hvalid.
    + specialize (Hvalid _ (list_elem_of_further _ _ _
                              (list_elem_of_further _ _ _
                                 (list_elem_of_further _ _ _
                                    (list_elem_of_here _ _))))).
      cbn [snd] in Hvalid. unfold fails_when in Hvalid. by rewrite E in Hvalid.
    + specialize (Hvalid _ (list_elem_of_further _ _ _
                              (list_elem_of_further _ _ _
                                 (list_elem_of_further _ _ _
                                    (list_elem_of_further _ _ _
                                       (list_elem_of_here _ _)))))).
      cbn [snd] in Hvalid. unfold fails_when in Hvalid. by rewrite E in Hvalid.
Qed.

(** ** The search box of the colleges-cards modal *)

Section CardsSearchFacts.
Variable form_encode : string -> string.


End CardsSearchFacts.

(** ** The results fetcher without a college slug *)

Section ResultsWithoutSlug.
Context {json : Type}.
Variable query_string : list (string * string) -> string.
Variable envelope : json -> option (list json * Z * Z).

(** X28.  On a page without a college slug a call of [fetchResults]
    (results tab shown, no fetch in progress) sends no request, puts the
    results back to an empty first page and has the flag and the loading
    state down again when it ends.  With the CSRF token readable and a
    toast container on the page, the API client fails before [fetch] with
    one error toast and the table body shows the error row with "College
    slug not found".  On a page without a toast container no toast is
    shown: the [showToast] of the client throws a [TypeError], whose
    message the error row shows instead, and the page has a container
    afterwards.  When the read of the CSRF token throws, no toast is
    shown either and the error row shows the message of that
    exception. *)
Theorem fetchResults_without_slug (env : browser) (page : Z) (search : string)
    (f : Landing.filters) (st : @Landing.landing json) :
  Js.truthy (Common.getCollegeSlug (Landing.COLLEGE_SLUG st)) = false ->
  Landing.results_tab st = Some true ->
  Landing.isFetchingResults st = false ->
  let st' := Landing.fetchResults query_string envelope env page search f st in
  let error_row (msg : string) :=
    (fun _ => Landing.ErrorRow (if Js.truthy msg then msg
                                else "Unknown error"))
      <$> Landing.results_tbody st in
  Landing.in_flight st' = Landing.in_flight st
  /\ requests (Landing.log st') = requests (Landing.log st)
  /\ Landing.isFetchingResults st' = false
  /\ Landing.results st' = Landing.ResourceState [] 1 1 false
  /\ match Common.csrf_token env with
     | inl e =>
         toasts (Landing.log st') = toasts (Landing.log st)
         /\ Landing.results_tbody st' = error_row (message e)
         /\ Landing.toast_container st' = Landing.toast_container st
     | inr _ =>
         if Landing.toast_container st
         then toasts (Landing.log st')
              = toasts (Landing.log st)
                ++ [(ToastError, "College slug not found")]
              /\ Landing.results_tbody st'
                 = (fun _ => Landing.ErrorRow "College slug not found")
                     <$> Landing.results_tbody st
              /\ Landing.toast_container st' = true
         else toasts (Landing.log st') = toasts (Landing.log st)
              /\ Landing.results_tbody st' = error_row (null_message env)
              /\ Landing.toast_container st' = true
     end.
Proof.
  intros Hslug Htab Hflag. cbv zeta. unfold Landing.fetchResults.
  rewrite Htab, Hflag. unfold Landing.buildApiEndpoint. rewrite Hslug.
  cbn [negb].
  destruct (Common.csrf_token env) as [e|token];
    [|destruct (Landing.toast_container st) eqn:Hc].
  all: unfold Landing.fetchResults_settle, Landing.showToast.
  all: rewrite ?Hc.
  all: cbn [api_catch bind emit throw outcome effects fst snd app].
  all: unfold Landing.fetchResults_failed.
  all: cbn [Landing.in_flight Landing.log Landing.isFetchingResults
            Landing.results Landing.results_tbody Landing.COLLEGE_SLUG
            Landing.results_tab Landing.toast_container message app orb].
  all: rewrite ?Hc, !requests_app, !toasts_app.
  all: cbn [requests toasts app orb]; rewrite ?app_nil_r.
  all: repeat split; try by destruct (Landing.results_tbody st).
  all: by rewrite orb_false_r.
Qed.
End ResultsWithoutSlug.

Lemma fetchResults_without_slug_witness :
  toasts (Landing.log
            (Landing.fetchResults Sample.query_string Sample.envelope
               Sample.with_token 1 "" Sample.no_filters
               (Landing.initial (json:=Sample.json) None (Some true)
                  (Some Landing.LoadingRow) true)))
  = [(ToastError, "College slug not found")].
Proof.
  exact (proj1 (proj2 (proj2 (proj2 (proj2
           (fetchResults_without_slug Sample.query_string Sample.envelope
              Sample.with_token 1 "" Sample.no_filters
              (Landing.initial (json:=Sample.json) None
                 (Some true) (Some Landing.LoadingRow) true)
              eq_refl eq_refl eq_refl)))))).
Defined.
